(** * nativelink-mcp-server: the dispatch, validation and transport layer

    A shallow embedding of the TypeScript sources and the properties of its
    specification: the entry point src/index.ts with its two transport
    bindings, the client src/lib/api.ts, src/lib/utils.ts, src/lib/types.ts and
    the tools of src/tools.

    Conventions of the embedding.
    - A JavaScript string is a [string]: a sequence of 8-bit characters.  On
      ASCII text positions and lengths are those of JavaScript; a non-ASCII
      character occupies one position per UTF-8 byte here.
    - A JavaScript number is a rational [Q]: every finite double is one, and
      the comparisons and the multiplication by 4 used below are exact on them.
    - [option A] stands for [A | undefined].
    - A computation that can throw returns a [Completion].
    - What the program takes from outside is a parameter: the clock and the
      answers of the network ([World], [Runtime]), the division and the
      multiplication of doubles ([Runtime]) and the printing of a number
      ([Numbers]). *)

From Stdlib Require Import Ascii String QArith Qround.
From stdpp Require Import gmap strings list pretty.

Set Warnings "-register-all,-notation-for-abbreviation".
Open Scope string_scope.

(** ** JavaScript values *)

Inductive json : Type :=
| JNull
| JBool (b : bool)
| JNum (q : Q)
| JStr (s : string)
| JArr (items : list json)
| JObj (fields : list (string * json)).

(** One entry of [ZodError.errors]: the path of the offending value (object
    keys and array indices) and the reason. *)
Record ZodIssue : Type := mkIssue {
  path : list (string + nat);
  message : string
}.

(** The error codes: the members of the SDK's [ErrorCode] that the stream
    binding throws, and the strings of the same names that the request binding
    writes into its responses. *)
Inductive ErrorCode : Type :=
| InvalidParams
| MethodNotFound
| InternalError.

(** What can be thrown: a [ZodError] with its issues, an [McpError] with the
    code and message it was built with, or an [Error] (or a subclass of it, such
    as [TypeError]) with its message. *)
Inductive JsError : Type :=
| ZodError (errors : list ZodIssue)
| McpError (code : ErrorCode) (message : string)
| Error (message : string).

Inductive Completion (A : Type) : Type :=
| Normal (value : A)
| Throw (e : JsError).
Arguments Normal {A} value.
Arguments Throw {A} e.

(** [x || d] on an optional string: the empty string is falsy. *)
Definition str_or (x : option string) (d : string) : string :=
  match x with
  | Some s => if String.eqb s "" then d else s
  | None => d
  end.

(** [x || d] where [d] may itself be undefined. *)
Definition str_or_undef (x d : option string) : option string :=
  match x with
  | Some s => if String.eqb s "" then d else Some s
  | None => d
  end.

(** ** String primitives *)

Definition LF : string := String "010"%char EmptyString.

(** [Array.prototype.join] on strings. *)
Fixpoint join (sep : string) (l : list string) : string :=
  match l with
  | [] => ""
  | [x] => x
  | x :: rest => x ++ sep ++ join sep rest
  end.

(** [String.prototype.includes]. *)
Fixpoint includes (s needle : string) : bool :=
  String.prefix needle s ||
  match s with
  | EmptyString => false
  | String _ s' => includes s' needle
  end.

(** [String.prototype.charCodeAt], of one character. *)
Definition charCode (c : ascii) : N := N_of_ascii c.

(** White space and line terminators in the ASCII range: the characters that
    [\s] and [String.prototype.trim] treat as blank, and those that [.] of a
    regular expression refuses. *)
Definition is_space (c : ascii) : bool :=
  let n := charCode c in
  ((9 <=? n) && (n <=? 13) || (n =? 32))%N.

Definition is_line_terminator (c : ascii) : bool :=
  let n := charCode c in
  ((n =? 10) || (n =? 13))%N.

Fixpoint trimStart (s : string) : string :=
  match s with
  | String c s' => if is_space c then trimStart s' else s
  | EmptyString => EmptyString
  end.

Fixpoint trimEnd (s : string) : string :=
  match s with
  | String c s' =>
      match trimEnd s' with
      | EmptyString => if is_space c then EmptyString else String c EmptyString
      | t => String c t
      end
  | EmptyString => EmptyString
  end.

Definition trim (s : string) : string := trimEnd (trimStart s).

Definition lower (c : ascii) : ascii :=
  let n := charCode c in
  if ((65 <=? n) && (n <=? 90))%N then ascii_of_N (n + 32) else c.

Fixpoint toLowerCase (s : string) : string :=
  match s with
  | String c s' => String (lower c) (toLowerCase s')
  | EmptyString => EmptyString
  end.

Fixpoint string_forallb (p : ascii -> bool) (s : string) : bool :=
  match s with
  | String c s' => p c && string_forallb p s'
  | EmptyString => true
  end.

Fixpoint drop_chars (n : nat) (s : string) : string :=
  match n, s with
  | O, _ => s
  | S n', String _ s' => drop_chars n' s'
  | S _, EmptyString => EmptyString
  end.

(** ** src/lib/utils.ts *)

Definition formatBazelrc (lines : list string) : string :=
  join LF (filter (fun line => line <> "") (map trim lines)).

Definition truncation_marker : string :=
  LF ++ LF ++ "[Response truncated for length]".

(** [text.substring(0, n)] for a number [n]: the bound is truncated to an
    integer and clamped to [0, text.length]. *)
Definition substring_to (text : string) (n : Q) : string :=
  String.substring 0 (Z.to_nat (Qfloor n)) text.

Definition js_length (text : string) : Q := inject_Z (Z.of_nat (String.length text)).

Definition truncateResponse (text : string) (maxTokens : Q) : string :=
  let avgCharsPerToken : Q := 4%Q in
  let maxChars := (maxTokens * avgCharsPerToken)%Q in
  if Qle_bool (js_length text) maxChars then text
  else substring_to text maxChars ++ truncation_marker.

(** A header value of [Record<string, string | string[] | undefined>]. *)
Inductive HeaderValue : Type :=
| HString (s : string)
| HArray (l : list string).

Definition headerKeys : list string :=
  [ "authorization"; "Authorization";
    "nativelink-api-key"; "Nativelink-API-Key"; "NATIVELINK_API_KEY";
    "x-api-key"; "X-API-Key"; "X_API_KEY" ].

Definition header_truthy (v : HeaderValue) : bool :=
  match v with
  | HString s => negb (String.eqb s "")
  | HArray _ => true
  end.

(** [(.+)$]: the rest of the input, non-empty and free of line terminators. *)
Definition capture_rest (s : string) : option string :=
  match s with
  | EmptyString => None
  | _ => if string_forallb (fun c => negb (is_line_terminator c)) s then Some s else None
  end.

(** [\s+(.+)$]: the run of white space is greedy and gives back one character
    at a time when the capture fails. *)
Fixpoint spaces_then_capture (s : string) : option string :=
  match s with
  | String c s' =>
      if is_space c then
        match spaces_then_capture s' with
        | Some m => Some m
        | None => capture_rest s'
        end
      else None
  | EmptyString => None
  end.

(** [headerValue.match(/^Bearer\s+(.+)$/i)], giving the first group. *)
Definition match_bearer (headerValue : string) : option string :=
  if String.eqb (toLowerCase (String.substring 0 6 headerValue)) "bearer"
  then spaces_then_capture (drop_chars 6 headerValue)
  else None.

Definition undefined_match : JsError :=
  Error "Cannot read properties of undefined (reading 'match')".

Fixpoint parseApiKey_from (keys : list string) (headers : gmap string HeaderValue)
  : Completion (option string) :=
  match keys with
  | [] => Normal None
  | key :: rest =>
      match headers !! key with
      | Some value =>
          if header_truthy value then
            let headerValue :=
              match value with HArray l => head l | HString s => Some s end in
            if String.eqb (toLowerCase key) "authorization" then
              match headerValue with
              | None => Throw undefined_match
              | Some hv =>
                  match match_bearer hv with
                  | Some m => Normal (Some m)
                  | None => parseApiKey_from rest headers
                  end
              end
            else Normal headerValue
          else parseApiKey_from rest headers
      | None => parseApiKey_from rest headers
      end
  end.

Definition parseApiKey (headers : gmap string HeaderValue) : Completion (option string) :=
  parseApiKey_from headerKeys headers.

(** ** The zod schemas

    The subset of zod 3 that the tool schemas use.  A schema is a value
    ([z.string()], [z.object({...})], ...) that [parse] interprets; its index is
    the type that [z.infer] gives to the parsed result.  Issues carry the
    messages of zod's default error map. *)

Module z.

Inductive ZodType : Type -> Type :=
| ZodString : ZodType string
| ZodNumber (minimum maximum : option Z) : ZodType Q
| ZodBoolean : ZodType bool
| ZodEnum (values : list string) : ZodType string
| ZodArray {A : Type} (element : ZodType A) : ZodType (list A)
| ZodOptional {A : Type} (innerType : ZodType A) : ZodType (option A)
| ZodDefault {A : Type} (innerType : ZodType A) (defaultValue : json) : ZodType A
| ZodObject {A : Type} (shape : ZodShape A) : ZodType A
with ZodShape : Type -> Type :=
| ShapeNew {A : Type} (build : A) : ZodShape A
| ShapeKey {A B : Type} (earlier : ZodShape (A -> B)) (key : string) (schema : ZodType A)
  : ZodShape B.

(** The result of [_parse]: the typed value, or the issues added to the
    context.  Any issue makes [parse] throw. *)
Definition ParseReturn (A : Type) : Type := list ZodIssue + A.

Definition getParsedType (data : option json) : string :=
  match data with
  | None => "undefined"
  | Some JNull => "null"
  | Some (JBool _) => "boolean"
  | Some (JNum _) => "number"
  | Some (JStr _) => "string"
  | Some (JArr _) => "array"
  | Some (JObj _) => "object"
  end.

Definition invalid_type (p : list (string + nat)) (expected : string) (data : option json)
  : ZodIssue :=
  mkIssue p
    match data with
    | None => "Required"
    | Some _ => "Expected " ++ expected ++ ", received " ++ getParsedType data
    end.

Definition joinValues (values : list string) : string :=
  join " | " (map (fun v => "'" ++ v ++ "'") values).

Definition invalid_enum_value (p : list (string + nat)) (options : list string)
  (received : string) : ZodIssue :=
  mkIssue p ("Invalid enum value. Expected " ++ joinValues options
             ++ ", received '" ++ received ++ "'").

Definition too_small (p : list (string + nat)) (minimum : Z) : ZodIssue :=
  mkIssue p ("Number must be greater than or equal to " ++ pretty minimum).

Definition too_big (p : list (string + nat)) (maximum : Z) : ZodIssue :=
  mkIssue p ("Number must be less than or equal to " ++ pretty maximum).

Definition number_checks (p : list (string + nat)) (minimum maximum : option Z) (q : Q)
  : list ZodIssue :=
  (match minimum with
   | Some m => if Qle_bool (inject_Z m) q then [] else [too_small p m]
   | None => []
   end ++
   match maximum with
   | Some m => if Qle_bool q (inject_Z m) then [] else [too_big p m]
   | None => []
   end)%list.

(** [data[key]] on a parsed JSON object. *)
Fixpoint property (key : string) (fields : list (string * json)) : option json :=
  match fields with
  | [] => None
  | (k, v) :: rest => if String.eqb k key then Some v else property key rest
  end.

(** Both results are computed before they are merged: a failure on one side
    does not hide the issues of the other. *)
Definition merge {A B : Type} (f : ParseReturn (A -> B)) (x : ParseReturn A)
  : ParseReturn B :=
  match f, x with
  | inr g, inr a => inr (g a)
  | inr _, inl ix => inl ix
  | inl i, inr _ => inl i
  | inl i, inl ix => inl (i ++ ix)%list
  end.

(** The elements of an array, each at its index. *)
Fixpoint parse_items {A : Type}
  (element : list (string + nat) -> option json -> ParseReturn A)
  (p : list (string + nat)) (i : nat) (items : list json) : ParseReturn (list A) :=
  match items with
  | [] => inr []
  | item :: rest =>
      merge (merge (inr cons) (element (p ++ [inr i])%list (Some item)))
            (parse_items element p (S i) rest)
  end.

Fixpoint _parse {A : Type} (schema : ZodType A) (p : list (string + nat))
  (data : option json) {struct schema} : ParseReturn A :=
  match schema in ZodType T return ParseReturn T with
  | ZodString =>
      match data with
      | Some (JStr s) => inr s
      | _ => inl [invalid_type p "string" data]
      end
  | ZodNumber minimum maximum =>
      match data with
      | Some (JNum q) =>
          match number_checks p minimum maximum q with
          | [] => inr q
          | issues => inl issues
          end
      | _ => inl [invalid_type p "number" data]
      end
  | ZodBoolean =>
      match data with
      | Some (JBool b) => inr b
      | _ => inl [invalid_type p "boolean" data]
      end
  | ZodEnum values =>
      match data with
      | Some (JStr s) =>
          if existsb (String.eqb s) values then inr s
          else inl [invalid_enum_value p values s]
      | _ => inl [invalid_type p (joinValues values) data]
      end
  | ZodArray element =>
      match data with
      | Some (JArr items) => parse_items (_parse element) p 0 items
      | _ => inl [invalid_type p "array" data]
      end
  | ZodOptional innerType =>
      match data with
      | None => inr None
      | Some _ =>
          match _parse innerType p data with
          | inr v => inr (Some v)
          | inl issues => inl issues
          end
      end
  | ZodDefault innerType defaultValue =>
      match data with
      | None => _parse innerType p (Some defaultValue)
      | Some _ => _parse innerType p data
      end
  | ZodObject shape =>
      match data with
      | Some (JObj fields) => _parse_shape shape p fields
      | _ => inl [invalid_type p "object" data]
      end
  end
with _parse_shape {A : Type} (shape : ZodShape A) (p : list (string + nat))
  (fields : list (string * json)) {struct shape} : ParseReturn A :=
  match shape in ZodShape T return ParseReturn T with
  | ShapeNew build => inr build
  | ShapeKey earlier key schema =>
      merge (_parse_shape earlier p fields)
            (_parse schema (p ++ [inl key])%list (property key fields))
  end.

(** [schema.parse(data)]: the value, or a thrown [ZodError]. *)
Definition parse {A : Type} (schema : ZodType A) (data : option json) : Completion A :=
  match _parse schema [] data with
  | inr v => Normal v
  | inl issues => Throw (ZodError issues)
  end.

End z.

Import z.

Notation "sh .[ k ::= t ]" := (ShapeKey sh k t)
  (at level 1, left associativity, format "sh '//' .[ k  ::=  t ]").

(** ** src/lib/types.ts *)

Definition ProjectType : ZodType string :=
  ZodEnum ["rust"; "cpp"; "java"; "python"; "go"; "mixed"].

Definition DocsTopic : ZodType string :=
  ZodEnum ["setup"; "migration"; "optimization"; "troubleshooting"; "api"].

Definition Platform : ZodType string :=
  ZodEnum ["kubernetes"; "docker"; "aws"; "gcp"; "azure"].

Definition Scale : ZodType string :=
  ZodEnum ["small"; "medium"; "large"; "enterprise"].

Definition OptimizationTarget : ZodType string :=
  ZodEnum ["speed"; "cost"; "balanced"].

Record NativelinkConfig : Type := {
  apiKey : option string;
  anthropicKey : option string;
  geminiKey : option string;
  nativelinkUrl : option string;
  debug : option bool
}.

(** ** The tool schemas (src/tools/*.ts) *)

Module performance.

Record Metrics : Type := {
  totalTime : option Q;
  cacheHitRate : option Q;
  remoteExecutionTime : option Q;
  localExecutionTime : option Q;
  networkTransferSize : option Q
}.

Record Params : Type := {
  profileData : option string;
  metrics : option Metrics;
  targetOptimization : option string
}.

Definition AnalyzeBuildPerformanceSchema : ZodType Params :=
  ZodObject ((ShapeNew Build_Params)
    .[ "profileData" ::= ZodOptional ZodString ]
    .[ "metrics" ::= ZodOptional (ZodObject ((ShapeNew Build_Metrics)
         .[ "totalTime" ::= ZodOptional (ZodNumber None None) ]
         .[ "cacheHitRate" ::= ZodOptional (ZodNumber (Some 0%Z) (Some 1%Z)) ]
         .[ "remoteExecutionTime" ::= ZodOptional (ZodNumber None None) ]
         .[ "localExecutionTime" ::= ZodOptional (ZodNumber None None) ]
         .[ "networkTransferSize" ::= ZodOptional (ZodNumber None None) ])) ]
    .[ "targetOptimization" ::= ZodOptional OptimizationTarget ]).

End performance.

Module deployment.

Record Params : Type := {
  platform : string;
  scale : string;
  features : option (list string)
}.

Definition GenerateDeploymentConfigSchema : ZodType Params :=
  ZodObject ((ShapeNew Build_Params)
    .[ "platform" ::= Platform ]
    .[ "scale" ::= Scale ]
    .[ "features" ::= ZodOptional (ZodArray ZodString) ]).

End deployment.

Module watch.

Record Params : Type := {
  command : string;
  targets : string;
  watchPaths : option (list string);
  excludePaths : option (list string);
  debounceMs : Q;
  useIbazel : bool
}.

Definition SetupWatchAndBuildSchema : ZodType Params :=
  ZodObject ((ShapeNew Build_Params)
    .[ "command" ::= ZodDefault (ZodEnum ["build"; "test"; "both"]) (JStr "both") ]
    .[ "targets" ::= ZodDefault ZodString (JStr "//...") ]
    .[ "watchPaths" ::= ZodOptional (ZodArray ZodString) ]
    .[ "excludePaths" ::= ZodOptional (ZodArray ZodString) ]
    .[ "debounceMs" ::= ZodDefault (ZodNumber (Some 100%Z) (Some 10000%Z)) (JNum 1000) ]
    .[ "useIbazel" ::= ZodDefault ZodBoolean (JBool false) ]).

End watch.

(** ** What lies outside the dispatch layer

    The clock, the network, and the three text generators as the dispatch
    layer sees them: [analyzeBuildPerformance] (src/tools/performance.ts, with
    the analysis of src/lib/api.ts behind it, given the configuration and base
    URL of the API object it is called with), [generateDeploymentConfig]
    (src/tools/deployment.ts) and [setupWatchAndBuild] (src/tools/watch.ts).
    On validated parameters each returns a string and throws nothing.  The
    properties of the dispatch layer hold whatever the three are; their bodies
    are embedded further down, in [perf], [deploy] and [watcher]. *)

Record FetchRequest : Type := {
  baseUrl_of : string;
  pathname : string;
  searchParams : list (string * string);
  requestHeaders : list (string * string)
}.

(** [response.json()] and the [data.content] read from it: [JsonRejected]
    when the body is not JSON (or is [null], on which the property access
    throws inside the same [try]); otherwise the [content] property of the
    parsed body: the string that the declared type announces, or [undefined]
    when the body has no such property. *)
Inductive ResponseJson : Type :=
| JsonRejected
| JsonBody (content : option string).

Record Response : Type := {
  status : Z;
  statusText : string;
  json_of : ResponseJson
}.

Definition ok (r : Response) : bool := ((200 <=? status r) && (status r <=? 299))%Z.

(** The promise of [fetch]: rejected (no connection, time-out) or resolved. *)
Inductive FetchOutcome : Type :=
| Rejected (reason : string)
| Resolved (response : Response).

Class World : Type := {
  toISOString_now : string;
  fetch : FetchRequest -> FetchOutcome;
  analyzeBuildPerformance : performance.Params -> NativelinkConfig -> string -> string;
  generateDeploymentConfig : deployment.Params -> string;
  setupWatchAndBuild : watch.Params -> string
}.

(** ** src/lib/api.ts

    A configuration object lives in the store, under a reference: the API
    object keeps the reference it was built with ([this.config = config]) and
    reads the key through it when it sends a request. *)

Notation Heap := (gmap nat NativelinkConfig).

Definition empty_object : NativelinkConfig :=
  {| apiKey := None; anthropicKey := None; geminiKey := None;
     nativelinkUrl := None; debug := None |}.

Definition deref (h : Heap) (r : nat) : NativelinkConfig :=
  default empty_object (h !! r).

Definition DQ : string := String "034"%char EmptyString.

Module api.

Record NativelinkAPI : Type := {
  config : nat;
  baseUrl : string
}.

Definition constructor (h : Heap) (config : nat) : NativelinkAPI :=
  {| config := config;
     baseUrl := str_or (nativelinkUrl (deref h config)) "https://api.nativelink.com" |}.

Definition offline_setup : string :=
"# Nativelink Cloud Setup Guide

## Quick Start with Nativelink Cloud

1. **Sign up at [app.nativelink.com](https://app.nativelink.com)**
   - Create your free account
   - Get your API keys and personalized configuration

2. **Get your .bazelrc configuration**:
   After signing up, you'll receive a personalized configuration like:
   ```
   build --remote_cache=grpcs://cas-tracemachina-shared.build-faster.nativelink.net
   build --remote_header=x-nativelink-api-key=YOUR_API_KEY
   build --bes_backend=grpcs://bes-tracemachina-shared.build-faster.nativelink.net
   build --bes_header=x-nativelink-api-key=YOUR_BES_API_KEY
   build --bes_results_url=https://app.nativelink.com/a/YOUR_BUILD_ID/build
   build --remote_timeout=600
   build --remote_executor=grpcs://scheduler-tracemachina-shared.build-faster.nativelink.net:443
   ```

3. **Add to your project**:
   - Append the configuration to your `.bazelrc`
   - Or create a `.bazelrc.user` file (gitignored)

4. **Run your build**:
   ```bash
   bazel build //...
   ```

   Your builds will now use Nativelink Cloud for caching and remote execution!

## Features
- ‚ö° Instant cache hits across your team
- üöÄ Remote execution on powerful cloud machines
- üìä Build analytics and insights at app.nativelink.com
- üîí Secure, isolated build environments".

Definition offline_migration : string :=
"# Migration to Nativelink Cloud

## From Local Builds

1. **Sign up at [app.nativelink.com](https://app.nativelink.com)**

2. **Baseline your current performance**:
   ```bash
   bazel build --profile=baseline.prof //...
   ```

3. **Add your Nativelink Cloud configuration**:
   Get your personalized config from the dashboard and add to `.bazelrc`:
   ```
   # From app.nativelink.com dashboard
   build --remote_cache=grpcs://cas-tracemachina-shared.build-faster.nativelink.net
   build --remote_header=x-nativelink-api-key=YOUR_API_KEY
   build --bes_backend=grpcs://bes-tracemachina-shared.build-faster.nativelink.net
   build --bes_header=x-nativelink-api-key=YOUR_BES_API_KEY
   ```

4. **Test with read-only cache first**:
   ```
   build --remote_upload_local_results=false
   ```

5. **Enable full caching and remote execution**:
   ```
   build --remote_upload_local_results=true
   build --remote_executor=grpcs://scheduler-tracemachina-shared.build-faster.nativelink.net:443
   ```

## From Other Remote Caches

Nativelink Cloud is compatible with standard Remote Execution API:
1. Replace your cache endpoints with Nativelink Cloud URLs
2. Update authentication to use Nativelink API keys
3. No changes needed to BUILD files or rules".

Definition offline_optimization : string :=
"# Nativelink Performance Optimization

## Cache Optimization

1. **Increase cache hit rate**:
   - Use `--experimental_strict_action_env` for reproducible builds
   - Set `--incompatible_strict_action_env=true`
   - Configure proper toolchains

2. **Network optimization**:
   ```
   build --remote_timeout=60
   build --remote_retries=3
   build --remote_max_connections=200
   ```

3. **Parallel execution**:
   ```
   build --jobs=auto
   build --remote_executor=grpc://executor.nativelink.com:443
   ```

## Cost Optimization

- Use `--remote_download_minimal` to reduce bandwidth
- Enable compression: `--experimental_remote_cache_compression`
- Set appropriate `--remote_instance_name` for isolation".

Definition offline_troubleshooting : string :=
"# Nativelink Troubleshooting

## Common Issues

### Authentication Errors
- Verify API key is set correctly
- Check network connectivity
- Ensure firewall allows gRPC traffic (port 443/50051)

### Cache Misses
- Check for non-hermetic actions
- Verify toolchain configuration
- Review `--execution_log_json_file` output

### Slow Builds
- Monitor with `--experimental_remote_grpc_log`
- Check network latency to cache
- Optimize large artifact handling

### Debug Commands
```bash
# Enable verbose logging
bazel build --remote_grpc_log=grpc.log //...

# Profile build performance
bazel build --profile=profile.json --generate_json_trace_profile //...

# Check cache status
grpcurl -H " ++ DQ ++ "x-nativelink-api-key: YOUR_KEY" ++ DQ ++ " cache.nativelink.com:443 list
```".

Definition offline_api : string :=
"# Nativelink Cloud API Reference

## Getting Your Configuration

1. **Sign up at [app.nativelink.com](https://app.nativelink.com)**
2. **Navigate to Dashboard > API Keys**
3. **Copy your personalized .bazelrc configuration**

## Your Personalized Configuration

Your configuration from app.nativelink.com includes:

### Cache Service
```
build --remote_cache=grpcs://cas-tracemachina-shared.build-faster.nativelink.net
build --remote_header=x-nativelink-api-key=YOUR_CACHE_API_KEY
```

### Build Event Service (BES)
```
build --bes_backend=grpcs://bes-tracemachina-shared.build-faster.nativelink.net
build --bes_header=x-nativelink-api-key=YOUR_BES_API_KEY
build --bes_results_url=https://app.nativelink.com/a/YOUR_BUILD_ID/build
```

### Remote Execution
```
build --remote_executor=grpcs://scheduler-tracemachina-shared.build-faster.nativelink.net:443
build --remote_timeout=600
```

## Optional Optimizations

Add these for better performance:
```
build --remote_download_minimal
build --experimental_remote_cache_compression
build --jobs=200
```

## Monitoring

View your builds at: https://app.nativelink.com/builds".

Definition docs : list (string * string) :=
  [ ("setup", offline_setup);
    ("migration", offline_migration);
    ("optimization", offline_optimization);
    ("troubleshooting", offline_troubleshooting);
    ("api", offline_api) ].

Fixpoint own_property (key : string) (record : list (string * string)) : option string :=
  match record with
  | [] => None
  | (k, v) :: rest => if String.eqb k key then Some v else own_property key rest
  end.

(** [docs[topic] || docs.setup], on the own properties of [docs]. *)
Definition getOfflineDocumentation (topic : string) (context : option string) : string :=
  str_or (own_property topic docs) offline_setup.

(** [`${x}`] for an optional string. *)
Definition template (x : option string) : string :=
  match x with
  | Some s => s
  | None => "undefined"
  end.

Definition docs_request (h : Heap) (this : NativelinkAPI) (topic : string)
  (context : option string) : FetchRequest :=
  {| baseUrl_of := baseUrl this;
     pathname := "/docs";
     searchParams :=
       ("topic", topic) ::
       match context with
       | Some c => if String.eqb c "" then [] else [("context", c)]
       | None => []
       end;
     requestHeaders :=
       [ ("Authorization", "Bearer " ++ template (apiKey (deref h (config this))));
         ("Content-Type", "application/json") ] |}.

(** The result is the string of the declared type, or [undefined] when the
    parsed body has no [content]. *)
Definition fetchDocumentation {W : World} (h : Heap) (this : NativelinkAPI) (topic : string)
  (context : option string) : option string :=
  match fetch (docs_request h this topic context) with
  | Resolved response =>
      if negb (ok response) then
        if (status response =? 404)%Z
        then Some (getOfflineDocumentation topic context)
        else (* throw new Error(...), caught below *)
             Some (getOfflineDocumentation topic context)
      else
        match json_of response with
        | JsonBody content => content
        | JsonRejected => Some (getOfflineDocumentation topic context)
        end
  | Rejected _ => Some (getOfflineDocumentation topic context)
  end.

End api.

(** [Array.prototype.includes] on strings. *)
Definition Array_includes (l : list string) (x : string) : bool :=
  existsb (String.eqb x) l.

(** ** src/tools/config.ts *)

Module config.

Record Params : Type := {
  projectType : string;
  nativelinkUrl : option string;
  features : option (list string)
}.

Definition GetBazelConfigSchema : ZodType Params :=
  ZodObject ((ShapeNew Build_Params)
    .[ "projectType" ::= ProjectType ]
    .[ "nativelinkUrl" ::= ZodOptional ZodString ]
    .[ "features" ::= ZodOptional (ZodArray ZodString) ]).

Definition configs : list (string * list string) :=
  [ ("rust",
      [ "build --@rules_rust//rust/settings:pipelined_compilation=True";
        "build --@rules_rust//rust/settings:rustfmt_toml=//:rustfmt.toml" ]);
    ("cpp",
      [ "build --cxxopt=-std=c++17";
        "build --host_cxxopt=-std=c++17";
        "build --copt=-fPIC" ]);
    ("java",
      [ "build --java_language_version=11";
        "build --java_runtime_version=remotejdk_11";
        "build --tool_java_language_version=11";
        "build --tool_java_runtime_version=remotejdk_11" ]);
    ("python",
      [ "build --action_env=PYTHONDONTWRITEBYTECODE=1";
        "test --test_env=PYTHONDONTWRITEBYTECODE=1" ]);
    ("go",
      [ "build --@io_bazel_rules_go//go/config:race=false";
        "test --@io_bazel_rules_go//go/config:race=true" ]);
    ("mixed",
      [ "# Configure based on your primary language";
        "# See language-specific configurations above" ]) ].

Fixpoint own_property (key : string) (record : list (string * list string))
  : option (list string) :=
  match record with
  | [] => None
  | (k, v) :: rest => if String.eqb k key then Some v else own_property key rest
  end.

(** [configs[projectType] || []], on the own properties of [configs]. *)
Definition getProjectSpecificConfig (projectType : string) : list string :=
  default [] (own_property projectType configs).

Definition generateBazelConfig {W : World} (params : Params) : string :=
  let features :=
    default ["remote_cache"; "remote_execution"; "bes"] (features params) in
  let lines : list string :=
    [ "# Nativelink Cloud Configuration";
      "# Generated for " ++ projectType params ++ " project";
      "# " ++ toISOString_now;
      "";
      "# IMPORTANT: Get your personalized configuration from https://app.nativelink.com";
      "# The configuration below is a template - replace with your actual values from the dashboard";
      "";
      "# Remote Cache Configuration" ] in
  let lines :=
    if Array_includes features "remote_cache" then
      (lines ++
       [ "build --remote_cache=grpcs://cas-tracemachina-shared.build-faster.nativelink.net";
         "build --remote_header=x-nativelink-api-key=YOUR_API_KEY_FROM_APP_NATIVELINK_COM";
         "" ])%list
    else lines in
  let lines :=
    if Array_includes features "bes" then
      (lines ++
       [ "# Build Event Service (BES) Configuration";
         "build --bes_backend=grpcs://bes-tracemachina-shared.build-faster.nativelink.net";
         "build --bes_header=x-nativelink-api-key=YOUR_BES_API_KEY_FROM_APP_NATIVELINK_COM";
         "build --bes_results_url=https://app.nativelink.com/a/YOUR_BUILD_ID/build";
         "" ])%list
    else lines in
  let lines :=
    if Array_includes features "remote_execution" then
      (lines ++
       [ "# Remote Execution Configuration";
         "build --remote_executor=grpcs://scheduler-tracemachina-shared.build-faster.nativelink.net:443";
         "build --remote_timeout=600";
         "build --jobs=200";
         "build --remote_download_outputs=minimal";
         "" ])%list
    else lines in
  let lines :=
    (lines ++
     [ "# Performance Optimizations";
       "build --experimental_remote_cache_compression";
       "build --experimental_remote_cache_async";
       "build --remote_max_connections=200";
       "" ])%list in
  let projectSpecific := getProjectSpecificConfig (projectType params) in
  let lines :=
    if (0 <? length projectSpecific)%nat then
      (lines ++
       [ ("# " ++ projectType params ++ " Specific Configuration")%string ] ++
       projectSpecific ++
       [ "" ])%list
    else lines in
  let lines :=
    (lines ++
     [ "# Build Reproducibility";
       "build --incompatible_strict_action_env";
       "build --action_env=BAZEL_DO_NOT_DETECT_CPP_TOOLCHAIN=1";
       "" ])%list in
  let lines :=
    if Array_includes features "metrics" then
      (lines ++
       [ "# Metrics and Monitoring";
         "build --experimental_remote_grpc_log=grpc.log";
         "build --generate_json_trace_profile";
         "build --experimental_profile_include_primary_output";
         "" ])%list
    else lines in
  let lines :=
    (lines ++
     [ "# Test Configuration";
       "test --test_output=errors";
       "test --test_summary=detailed";
       "" ])%list in
  formatBazelrc lines.

End config.

(** ** src/tools/docs.ts *)

Module docs.

Record Params : Type := {
  topic : string;
  context : option string;
  maxTokens : option Q
}.

Definition GetNativelinkDocsSchema : ZodType Params :=
  ZodObject ((ShapeNew Build_Params)
    .[ "topic" ::= DocsTopic ]
    .[ "context" ::= ZodOptional ZodString ]
    .[ "maxTokens" ::=
         ZodOptional (ZodDefault (ZodNumber (Some 1000%Z) None) (JNum 5000)) ]).

(** [params.maxTokens || 5000]: zero is falsy. *)
Definition maxTokens_or_5000 (params : Params) : Q :=
  match maxTokens params with
  | Some q => if Qeq_bool q 0 then 5000%Q else q
  | None => 5000%Q
  end.

Definition undefined_length : JsError :=
  Error "Cannot read properties of undefined (reading 'length')".

Definition getNativelinkDocs {W : World} (params : Params) (h : Heap)
  (api : api.NativelinkAPI) : Completion string :=
  let maxTokens := maxTokens_or_5000 params in
  match api.fetchDocumentation h api (topic params) (context params) with
  | Some docs => Normal (truncateResponse docs maxTokens)
  | None => Throw undefined_length
  end.

End docs.

(** ** src/index.ts *)

(** The configuration object [CONFIG] of the process. *)
Definition CONFIG : nat := 0.

Record Options : Type := {
  transport : string;
  port : string;
  opt_apiKey : option string;
  opt_anthropicKey : option string;
  opt_geminiKey : option string;
  opt_nativelinkUrl : option string
}.

Definition truthy (x : option string) : bool :=
  match x with
  | Some s => negb (String.eqb s "")
  | None => false
  end.

Definition set_apiKey (v : option string) (c : NativelinkConfig) : NativelinkConfig :=
  {| apiKey := v; anthropicKey := anthropicKey c; geminiKey := geminiKey c;
     nativelinkUrl := nativelinkUrl c; debug := debug c |}.

Definition set_anthropicKey (v : option string) (c : NativelinkConfig) : NativelinkConfig :=
  {| apiKey := apiKey c; anthropicKey := v; geminiKey := geminiKey c;
     nativelinkUrl := nativelinkUrl c; debug := debug c |}.

Definition set_geminiKey (v : option string) (c : NativelinkConfig) : NativelinkConfig :=
  {| apiKey := apiKey c; anthropicKey := anthropicKey c; geminiKey := v;
     nativelinkUrl := nativelinkUrl c; debug := debug c |}.

Definition set_nativelinkUrl (v : option string) (c : NativelinkConfig) : NativelinkConfig :=
  {| apiKey := apiKey c; anthropicKey := anthropicKey c; geminiKey := geminiKey c;
     nativelinkUrl := v; debug := debug c |}.

(** The store once the module is loaded: [CONFIG] read from [process.env]. *)
Definition load (env : gmap string string) : Heap :=
  {[ CONFIG :=
       {| apiKey := env !! "NATIVELINK_API_KEY";
          anthropicKey := env !! "ANTHROPIC_API_KEY";
          geminiKey := env !! "GEMINI_API_KEY";
          nativelinkUrl := env !! "NATIVELINK_URL";
          debug := Some (bool_decide (env !! "DEBUG" = Some "true")) |} ]}.

(** The action of [program]: each flag that is given overwrites its field of
    [CONFIG]. *)
Definition action (options : Options) (h : Heap) : Heap :=
  let h := if truthy (opt_apiKey options)
           then alter (set_apiKey (opt_apiKey options)) CONFIG h else h in
  let h := if truthy (opt_anthropicKey options)
           then alter (set_anthropicKey (opt_anthropicKey options)) CONFIG h else h in
  let h := if truthy (opt_geminiKey options)
           then alter (set_geminiKey (opt_geminiKey options)) CONFIG h else h in
  let h := if truthy (opt_nativelinkUrl options)
           then alter (set_nativelinkUrl (opt_nativelinkUrl options)) CONFIG h else h in
  h.

(** The store when a transport starts: after [program.parse()]. *)
Definition startup (env : gmap string string) (options : Options) : Heap :=
  action options (load env).

Definition bind {A B : Type} (c : Completion A) (k : A -> Completion B) : Completion B :=
  match c with
  | Normal v => k v
  | Throw e => Throw e
  end.

Definition path_element (e : string + nat) : string :=
  match e with
  | inl key => key
  | inr index => pretty index
  end.

(** [`Invalid parameters: ${error.errors.map(e =>
    `${e.path.join('.')}: ${e.message}`).join(', ')}`]. *)
Definition entry (e : ZodIssue) : string :=
  join "." (map path_element (path e)) ++ ": " ++ message e.

Definition invalid_parameters (errors : list ZodIssue) : string :=
  "Invalid parameters: " ++ join ", " (map entry errors).

(** *** The stream binding: [createNativelinkServer] *)

(** What the request handler hands to the protocol layer: the text of the
    content it returns, or what leaves its [catch]: an [McpError], or the
    error it throws again. *)
Inductive Handled : Type :=
| Returned (text : string)
| ThrewMcpError (code : ErrorCode) (message : string)
| ThrewError (message : string).

(** [const api = new NativelinkAPI(config)], on the object it is given. *)
Definition createNativelinkServer (h : Heap) (config : nat) : api.NativelinkAPI :=
  api.constructor h config.

(** The handler of [CallToolRequestSchema], with [request.params] already
    checked by the protocol layer: [name] is a string.  First the [try] block
    with its switch, then the [catch] clause. *)
Definition CallToolRequest_try {W : World} (h : Heap) (api : api.NativelinkAPI)
  (name : string) (args : option json) : Completion string :=
  if String.eqb name "get-bazel-config" then
    bind (parse config.GetBazelConfigSchema args) (fun params =>
    let config := config.generateBazelConfig params in
    Normal config)
  else if String.eqb name "get-nativelink-docs" then
    bind (parse docs.GetNativelinkDocsSchema args) (fun params =>
    bind (docs.getNativelinkDocs params h api) (fun docs =>
    Normal docs))
  else if String.eqb name "analyze-build-performance" then
    bind (parse performance.AnalyzeBuildPerformanceSchema args) (fun params =>
    let analysis :=
      analyzeBuildPerformance params (deref h (api.config api)) (api.baseUrl api) in
    Normal analysis)
  else if String.eqb name "generate-deployment-config" then
    bind (parse deployment.GenerateDeploymentConfigSchema args) (fun params =>
    let deployment := generateDeploymentConfig params in
    Normal deployment)
  else if String.eqb name "setup-watch-and-build" then
    bind (parse watch.SetupWatchAndBuildSchema args) (fun params =>
    let watchConfig := setupWatchAndBuild params in
    Normal watchConfig)
  else
    Throw (McpError MethodNotFound ("Tool not found: " ++ name)).

Definition CallToolRequest_catch (attempt : Completion string) : Handled :=
  match attempt with
  | Normal text => Returned text
  | Throw (ZodError errors) => ThrewMcpError InvalidParams (invalid_parameters errors)
  | Throw (McpError code message) => ThrewMcpError code message
  | Throw (Error message) => ThrewError message
  end.

Definition CallToolRequest {W : World} (h : Heap) (api : api.NativelinkAPI)
  (name : string) (args : option json) : Handled :=
  CallToolRequest_catch (CallToolRequest_try h api name args).

(** The result envelope: [{ content: [{ type: 'text', text }] }] or an error
    with its code and message. *)
Inductive ResultEnvelope : Type :=
| Content (text : string)
| ErrorEnvelope (code : ErrorCode) (message : string).

Definition startStdioServer (h : Heap) : api.NativelinkAPI :=
  createNativelinkServer h CONFIG.

(** What leaves the handler, read as an envelope: a returned text is the
    content, an [McpError] gives the code and the message that the handler
    passed to its constructor, and any other error counts as [InternalError]
    with its message (sections 4.3 and 6 of the specification).  This is the
    outcome of the handler, not yet the reply on the stream: that one is
    [stream_reply] below. *)
Definition stream_envelope (r : Handled) : ResultEnvelope :=
  match r with
  | Returned text => Content text
  | ThrewMcpError code message => ErrorEnvelope code message
  | ThrewError message => ErrorEnvelope InternalError message
  end.

(** *** The MCP SDK on an error

    The SDK (a dependency of the server, as zod is) numbers the members of
    [ErrorCode] as JSON-RPC does.  [new McpError(code, message)] calls
    [super(`MCP error ${code}: ${message}`)]: the [message] property of the
    error holds the number and, behind it, the text it was built with.  The
    protocol layer answers a request with the result of its handler, or, when
    the handler throws, with [{ code, message }]: the [code] of the error when
    it is an integer and [InternalError] otherwise, and its [message]
    property. *)

Definition code_number (code : ErrorCode) : Z :=
  match code with
  | InvalidParams => -32602
  | MethodNotFound => -32601
  | InternalError => -32603
  end.

Definition McpError_message (code : ErrorCode) (message : string) : string :=
  "MCP error " ++ pretty (code_number code) ++ ": " ++ message.

(** The response that the stream carries: [{ result: { content: [{ type:
    'text', text }] } }] or [{ error: { code, message } }]. *)
Inductive JSONRPCResponse : Type :=
| JSONRPCResult (text : string)
| JSONRPCError (code : Z) (message : string).

Definition stream_reply (r : Handled) : JSONRPCResponse :=
  match r with
  | Returned text => JSONRPCResult text
  | ThrewMcpError code message =>
      JSONRPCError (code_number code) (McpError_message code message)
  | ThrewError message => JSONRPCError (code_number InternalError) message
  end.

(** *** The request binding: [startHttpServer] *)

(** [request.params] of a JSON-RPC body: [name], when present, is a string. *)
Record CallParams : Type := {
  name : option string;
  arguments : option json
}.

Record Request : Type := {
  rpc_method : option string;
  params : option CallParams
}.

(** The body of a request once read: [Unparseable] when [JSON.parse] throws
    (or gives [null], on which [request.method] throws). *)
Inductive Body : Type :=
| Unparseable
| Parsed (request : Request).

(** [req]: the headers as Node delivers them, each a single string. *)
Record IncomingMessage : Type := {
  method : string;
  url : string;
  headers : gmap string string;
  body : Body
}.

Inductive JsonPayload : Type :=
| tools_list
| envelope (e : ResultEnvelope)
| error_text (error : string).

Inductive Payload : Type :=
| NoBody
| Plain (text : string)
| Json (value : JsonPayload).

Record ServerResponse : Type := {
  statusCode : Z;
  responseHeaders : list (string * string);
  payload : Payload
}.

Definition js_truthy (v : json) : bool :=
  match v with
  | JNull => false
  | JBool b => b
  | JNum q => negb (Qeq_bool q 0)
  | JStr s => negb (String.eqb s "")
  | JArr _ | JObj _ => true
  end.

(** [toolName === literal]. *)
Definition strict_eq (toolName : option string) (literal : string) : bool :=
  match toolName with
  | Some s => String.eqb s literal
  | None => false
  end.

(** [{ ...CONFIG, apiKey: apiKey || CONFIG.apiKey }]: a new object in the
    store, and [new NativelinkAPI] on it. *)
Definition request_api (h : Heap) (key : option string) : api.NativelinkAPI * Heap :=
  let c := deref h CONFIG in
  let object := set_apiKey (str_or_undef key (apiKey c)) c in
  let r := fresh (dom h) in
  let h := <[ r := object ]> h in
  (api.constructor h r, h).

(** The [tools/call] branch: the inner [try] block with its switch, the
    [catch] clause that builds the error response, and the branch itself. *)
Definition tools_call_try {W : World} (h : Heap) (api : api.NativelinkAPI)
  (toolName : option string) (args : json) : Completion string :=
  if strict_eq toolName "get-bazel-config" then
    bind (parse config.GetBazelConfigSchema (Some args)) (fun params =>
    Normal (config.generateBazelConfig params))
  else if strict_eq toolName "get-nativelink-docs" then
    bind (parse docs.GetNativelinkDocsSchema (Some args)) (fun params =>
    docs.getNativelinkDocs params h api)
  else if strict_eq toolName "analyze-build-performance" then
    bind (parse performance.AnalyzeBuildPerformanceSchema (Some args)) (fun params =>
    Normal (analyzeBuildPerformance params (deref h (api.config api)) (api.baseUrl api)))
  else if strict_eq toolName "generate-deployment-config" then
    bind (parse deployment.GenerateDeploymentConfigSchema (Some args)) (fun params =>
    Normal (generateDeploymentConfig params))
  else if strict_eq toolName "setup-watch-and-build" then
    bind (parse watch.SetupWatchAndBuildSchema (Some args)) (fun params =>
    Normal (setupWatchAndBuild params))
  else
    Throw (Error ("Unknown tool: " ++ api.template toolName)).

Definition tools_call_catch (attempt : Completion string) : ResultEnvelope :=
  match attempt with
  | Normal content => Content content
  | Throw (ZodError errors) => ErrorEnvelope InvalidParams (invalid_parameters errors)
  | Throw (McpError code message) =>
      ErrorEnvelope InternalError (McpError_message code message)
  | Throw (Error message) => ErrorEnvelope InternalError message
  end.

Definition tools_call {W : World} (h : Heap) (req : IncomingMessage) (request : Request)
  : Completion (ResultEnvelope * Heap) :=
  bind (parseApiKey (HString <$> headers req)) (fun apiKey =>
  let '(api, h) := request_api h apiKey in
  let toolName := match params request with Some p => name p | None => None end in
  let args :=
    match match params request with Some p => arguments p | None => None end with
    | Some v => if js_truthy v then v else JObj []
    | None => JObj []
    end in
  let response := tools_call_catch (tools_call_try h api toolName args) in
  Normal (response, h)).

Definition cors : list (string * string) :=
  [ ("Access-Control-Allow-Origin", "*");
    ("Access-Control-Allow-Methods", "GET, POST, OPTIONS");
    ("Access-Control-Allow-Headers", "*") ].

Definition writeHead (statusCode : Z) (contentType : option string) (payload : Payload)
  : ServerResponse :=
  {| statusCode := statusCode;
     responseHeaders :=
       (cors ++ match contentType with Some t => [("Content-Type", t)] | None => [] end)%list;
     payload := payload |}.

(** The listener of [createServer]: the response, and the store it leaves. *)
Definition listener {W : World} (h : Heap) (req : IncomingMessage) : ServerResponse * Heap :=
  if String.eqb (method req) "OPTIONS" then
    (writeHead 204 None NoBody, h)
  else if String.eqb (url req) "/ping" then
    (writeHead 200 (Some "text/plain") (Plain "pong"), h)
  else if String.eqb (url req) "/mcp" && String.eqb (method req) "POST" then
    match body req with
    | Unparseable =>
        (writeHead 500 (Some "application/json") (Json (error_text "Internal server error")), h)
    | Parsed request =>
        if strict_eq (rpc_method request) "tools/list" then
          (writeHead 200 (Some "application/json") (Json tools_list), h)
        else if strict_eq (rpc_method request) "tools/call" then
          match tools_call h req request with
          | Normal (response, h) =>
              (writeHead 200 (Some "application/json") (Json (envelope response)), h)
          | Throw _ =>
              (writeHead 500 (Some "application/json")
                 (Json (error_text "Internal server error")), h)
          end
        else
          (writeHead 404 (Some "application/json") (Json (error_text "Method not found")), h)
    end
  else
    (writeHead 404 (Some "text/plain") (Plain "Not found"), h).

(** The store after the requests of a history, served one after the other. *)
Definition serve {W : World} (h : Heap) (history : list IncomingMessage) : Heap :=
  foldl (fun h req => snd (listener h req)) h history.

(** ** Notions used by the properties *)

(** The five tools of the two switches, each with the schema its case
    parses the arguments with, in the order of the tools list. *)
Definition registry : list (string * {A : Type & ZodType A}) :=
  [ ("get-bazel-config", existT _ config.GetBazelConfigSchema);
    ("get-nativelink-docs", existT _ docs.GetNativelinkDocsSchema);
    ("analyze-build-performance", existT _ performance.AnalyzeBuildPerformanceSchema);
    ("generate-deployment-config", existT _ deployment.GenerateDeploymentConfigSchema);
    ("setup-watch-and-build", existT _ watch.SetupWatchAndBuildSchema) ].

Definition registered (name : string) : bool :=
  existsb (String.eqb name) (map fst registry).

Definition issues_of {A : Type} (r : ParseReturn A) : list ZodIssue :=
  match r with
  | inl issues => issues
  | inr _ => []
  end.

(** The keys of a shape with their schemas, in the order of the shape. *)
Fixpoint shape_keys {A : Type} (shape : ZodShape A) : list (string * {B : Type & ZodType B}) :=
  match shape with
  | ShapeNew _ => []
  | ShapeKey earlier key schema => (shape_keys earlier ++ [(key, existT _ schema)])%list
  end.

(** The issues that the schema of one key raises on the property of that
    name. *)
Definition key_issues (p : list (string + nat)) (fields : list (string * json))
  (k : string * {B : Type & ZodType B}) : list ZodIssue :=
  issues_of (_parse (projT2 (snd k)) (p ++ [inl (fst k)]) (property (fst k) fields)).

(** The issues of every key of an object, key after key. *)
Definition shape_issues {A : Type} (shape : ZodShape A) (p : list (string + nat))
  (fields : list (string * json)) : list ZodIssue :=
  flat_map (key_issues p fields) (shape_keys shape).

(** The failures of the outbound call that end in the [catch] clause of
    [fetchDocumentation] or in its 404 branch: the promise was rejected, the
    status is not a 2xx one, or the body is not JSON.  A 2xx response whose
    JSON body has no [content] is not among them: nothing throws inside the
    [try] there. *)
Definition caught_failure (outcome : FetchOutcome) : bool :=
  match outcome with
  | Rejected _ => true
  | Resolved response =>
      negb (ok response) ||
      match json_of response with JsonRejected => true | JsonBody _ => false end
  end.

(** The tools whose handler is given the API object. *)
Definition uses_the_api (name : string) : bool :=
  String.eqb name "get-nativelink-docs" || String.eqb name "analyze-build-performance".

(** The reply of the stream binding and the envelope of the request binding
    are the same answer: the same content, or the same error code (the number
    of the name) and the same message. *)
Definition same_envelope (reply : JSONRPCResponse) (e : ResultEnvelope) : Prop :=
  match reply, e with
  | JSONRPCResult text, Content content => text = content
  | JSONRPCError code message, ErrorEnvelope code' message' =>
      code = code_number code' /\ message = message'
  | _, _ => False
  end.


(** The custom API-key headers, in the order of [headerKeys]. *)
Definition custom_keys : list string := drop 2 headerKeys.

(** A header that does not match: absent, empty, or an [authorization] value
    that is not a Bearer credential. *)
Definition no_match (headers : gmap string HeaderValue) (key : string) : bool :=
  match headers !! key with
  | None => true
  | Some (HString s) =>
      String.eqb s "" ||
      (String.eqb (toLowerCase key) "authorization" &&
       match match_bearer s with None => true | Some _ => false end)
  | Some (HArray l) =>
      String.eqb (toLowerCase key) "authorization" &&
      match head l with
      | Some s => match match_bearer s with None => true | Some _ => false end
      | None => false
      end
  end.

(** The characters of [Date.prototype.toISOString]: digits, and the signs of
    [YYYY-MM-DDTHH:mm:ss.sssZ] and of the expanded years. *)
Definition iso_char (c : ascii) : bool :=
  let n := charCode c in
  ((48 <=? n) && (n <=? 57) || (n =? 45) || (n =? 58) || (n =? 46) || (n =? 84)
   || (n =? 90) || (n =? 43))%N.

Definition is_iso_timestamp (s : string) : bool := string_forallb iso_char s.

(** A [POST /mcp] request with a [tools/call] body. *)
Definition post_tools_call (hdrs : gmap string string) (toolName : string) (args : json)
  : IncomingMessage :=
  {| method := "POST"; url := "/mcp"; headers := hdrs;
     body := Parsed {| rpc_method := Some "tools/call";
                       params := Some {| name := Some toolName; arguments := Some args |} |} |}.

(** The envelope in the body of a response, if it carries one. *)
Definition envelope_of (response : ServerResponse) : option ResultEnvelope :=
  match payload response with
  | Json (envelope e) => Some e
  | _ => None
  end.

(** ** Inputs of the examples *)

(** A world whose network is unreachable. *)
Definition unreachable : World :=
  {| toISOString_now := "2026-11-02T09:30:00.000Z";
     fetch := fun _ => Rejected "fetch failed";
     analyzeBuildPerformance := fun _ _ _ => "";
     generateDeploymentConfig := fun _ => "";
     setupWatchAndBuild := fun _ => "" |}.

(** A world whose documentation service answers the holder of one key only,
    and refuses everybody else. *)
Definition keyed : World :=
  {| toISOString_now := "2026-11-02T09:30:00.000Z";
     fetch := fun request =>
       if existsb (fun header => String.eqb (fst header) "Authorization" &&
                                 String.eqb (snd header) "Bearer secret")
            (requestHeaders request)
       then Resolved {| status := 200; statusText := "OK";
                        json_of := JsonBody (Some "# Documentation of the service") |}
       else Resolved {| status := 401; statusText := "Unauthorized";
                        json_of := JsonRejected |};
     analyzeBuildPerformance := fun _ _ _ => "";
     generateDeploymentConfig := fun _ => "";
     setupWatchAndBuild := fun _ => "" |}.

(** A world whose documentation service answers 200 with the JSON body [{}]:
    an object without [content]. *)
Definition contentless : World :=
  {| toISOString_now := "2026-11-02T09:30:00.000Z";
     fetch := fun _ => Resolved {| status := 200; statusText := "OK";
                                   json_of := JsonBody None |};
     analyzeBuildPerformance := fun _ _ _ => "";
     generateDeploymentConfig := fun _ => "";
     setupWatchAndBuild := fun _ => "" |}.

Definition no_options : Options :=
  {| transport := "http"; port := "3000"; opt_apiKey := None; opt_anthropicKey := None;
     opt_geminiKey := None; opt_nativelinkUrl := None |}.

Definition rust_args : json :=
  JObj [("projectType", JStr "rust"); ("features", JArr [JStr "remote_cache"])].

Definition setup_args : json := JObj [("topic", JStr "setup")].

(** What validation makes of [rust_args]. *)
Definition rust_params : config.Params :=
  {| config.projectType := "rust"; config.nativelinkUrl := None;
     config.features := Some ["remote_cache"] |}.

(** * The rest of the code

    Notions of the further properties, the tools lists of src/index.ts, and
    the generators of src/tools with the analysis of src/lib/api.ts. *)

(** ** More notions used by the properties *)

(** The characters of the line of the time stamp in a generated
    configuration: those of the time stamp, [#] and the blank. *)
Definition stamp_char (c : ascii) : bool :=
  iso_char c || Ascii.eqb c "#" || Ascii.eqb c " ".

(** A text to look for in a generated configuration: on one line, not empty,
    and with a character that the line of the time stamp cannot have. *)
Definition needle_ok (needle : string) : bool :=
  negb (string_forallb stamp_char needle)
  && string_forallb (fun x => negb (Ascii.eqb x "010")) needle
  && negb (String.eqb needle "").

(** The options that mark the sections of a configuration: one of each
    feature, then one of each language. *)
Definition bazel_needles : list string :=
  [ "build --remote_cache="; "build --bes_backend="; "build --remote_executor=";
    "build --generate_json_trace_profile";
    "@rules_rust"; "cxxopt"; "java_language_version"; "PYTHONDONTWRITEBYTECODE";
    "@io_bazel_rules_go" ].

(** The keys that an object schema declares; a schema of another kind has
    none. *)
Definition schema_keys {A : Type} (schema : ZodType A) : list string :=
  match schema with
  | ZodObject shape => map fst (shape_keys shape)
  | _ => []
  end.

(** A [POST /mcp] request with a [tools/call] body whose [params] are as
    given. *)
Definition post_call (hdrs : gmap string string) (p : option CallParams) : IncomingMessage :=
  {| method := "POST"; url := "/mcp"; headers := hdrs;
     body := Parsed {| rpc_method := Some "tools/call"; params := p |} |}.

(** ** The tools lists of src/index.ts *)

(** The handler of [ListToolsRequestSchema]: the value it returns. *)
Definition ListToolsRequest : json :=
  JObj
    [ ("tools", JArr
        [ JObj
            [ ("name", JStr "get-bazel-config");
              ("description", JStr "Generate optimal Bazel configuration for Nativelink");
              ("inputSchema", JObj
                [ ("type", JStr "object");
                  ("properties", JObj
                    [ ("projectType", JObj
                        [ ("type", JStr "string");
                          ("enum", JArr [JStr "rust"; JStr "cpp"; JStr "java"; JStr "python"; JStr "go"; JStr "mixed"]);
                          ("description", JStr "Type of project") ]);
                      ("nativelinkUrl", JObj
                        [ ("type", JStr "string");
                          ("description", JStr "Nativelink server URL (defaults to cloud)") ]);
                      ("features", JObj
                        [ ("type", JStr "array");
                          ("items", JObj [("type", JStr "string")]);
                          ("description", JStr "Features to enable: remote_cache, remote_execution, metrics") ]) ]);
                  ("required", JArr [JStr "projectType"]) ]) ];
          JObj
            [ ("name", JStr "get-nativelink-docs");
              ("description", JStr "Fetch Nativelink documentation and best practices");
              ("inputSchema", JObj
                [ ("type", JStr "object");
                  ("properties", JObj
                    [ ("topic", JObj
                        [ ("type", JStr "string");
                          ("enum", JArr [JStr "setup"; JStr "migration"; JStr "optimization"; JStr "troubleshooting"; JStr "api"]);
                          ("description", JStr "Documentation topic") ]);
                      ("context", JObj
                        [ ("type", JStr "string");
                          ("description", JStr "Additional context or specific question") ]);
                      ("maxTokens", JObj
                        [ ("type", JStr "number");
                          ("description", JStr "Maximum tokens to return (min 1000, default 5000)") ]) ]);
                  ("required", JArr [JStr "topic"]) ]) ];
          JObj
            [ ("name", JStr "analyze-build-performance");
              ("description", JStr "Analyze build performance and provide optimization recommendations");
              ("inputSchema", JObj
                [ ("type", JStr "object");
                  ("properties", JObj
                    [ ("profileData", JObj
                        [ ("type", JStr "string");
                          ("description", JStr "Bazel profile JSON data") ]);
                      ("metrics", JObj
                        [ ("type", JStr "object");
                          ("properties", JObj
                            [ ("totalTime", JObj
                                [ ("type", JStr "number");
                                  ("description", JStr "Total build time in seconds") ]);
                              ("cacheHitRate", JObj
                                [ ("type", JStr "number");
                                  ("description", JStr "Cache hit rate (0-1)") ]);
                              ("remoteExecutionTime", JObj
                                [ ("type", JStr "number");
                                  ("description", JStr "Remote execution time in seconds") ]);
                              ("localExecutionTime", JObj
                                [ ("type", JStr "number");
                                  ("description", JStr "Local execution time in seconds") ]);
                              ("networkTransferSize", JObj
                                [ ("type", JStr "number");
                                  ("description", JStr "Network transfer size in bytes") ]) ]);
                          ("description", JStr "Build metrics") ]);
                      ("targetOptimization", JObj
                        [ ("type", JStr "string");
                          ("enum", JArr [JStr "speed"; JStr "cost"; JStr "balanced"]);
                          ("description", JStr "Optimization target") ]) ]) ]) ];
          JObj
            [ ("name", JStr "generate-deployment-config");
              ("description", JStr "Generate deployment configuration for Nativelink");
              ("inputSchema", JObj
                [ ("type", JStr "object");
                  ("properties", JObj
                    [ ("platform", JObj
                        [ ("type", JStr "string");
                          ("enum", JArr [JStr "kubernetes"; JStr "docker"; JStr "aws"; JStr "gcp"; JStr "azure"]);
                          ("description", JStr "Deployment platform") ]);
                      ("scale", JObj
                        [ ("type", JStr "string");
                          ("enum", JArr [JStr "small"; JStr "medium"; JStr "large"; JStr "enterprise"]);
                          ("description", JStr "Deployment scale") ]);
                      ("features", JObj
                        [ ("type", JStr "array");
                          ("items", JObj [("type", JStr "string")]);
                          ("description", JStr "Features to enable: monitoring, autoscaling, high_availability") ]) ]);
                  ("required", JArr [JStr "platform"; JStr "scale"]) ]) ];
          JObj
            [ ("name", JStr "setup-watch-and-build");
              ("description", JStr "Set up automatic Bazel builds and tests on file changes with Nativelink");
              ("inputSchema", JObj
                [ ("type", JStr "object");
                  ("properties", JObj
                    [ ("command", JObj
                        [ ("type", JStr "string");
                          ("enum", JArr [JStr "build"; JStr "test"; JStr "both"]);
                          ("description", JStr "What to run on file changes (default: both)") ]);
                      ("targets", JObj
                        [ ("type", JStr "string");
                          ("description", JStr "Bazel targets to build/test (default: //...)") ]);
                      ("watchPaths", JObj
                        [ ("type", JStr "array");
                          ("items", JObj [("type", JStr "string")]);
                          ("description", JStr "Paths/patterns to watch for changes") ]);
                      ("excludePaths", JObj
                        [ ("type", JStr "array");
                          ("items", JObj [("type", JStr "string")]);
                          ("description", JStr "Paths/patterns to exclude from watching") ]);
                      ("debounceMs", JObj
                        [ ("type", JStr "number");
                          ("description", JStr "Milliseconds to wait before rebuilding (100-10000, default: 1000)") ]);
                      ("useIbazel", JObj
                        [ ("type", JStr "boolean");
                          ("description", JStr "Use iBazel for intelligent watching (recommended)") ]) ]) ]) ] ]) ].

(** The [tools/list] branch of the request binding: the value of [response]. *)
Definition tools_list_response : json :=
  JObj
    [ ("tools", JArr
        [ JObj
            [ ("name", JStr "get-bazel-config");
              ("description", JStr "Generate optimal Bazel configuration for Nativelink");
              ("inputSchema", JObj
                [ ("type", JStr "object");
                  ("properties", JObj
                    [ ("projectType", JObj
                        [ ("type", JStr "string");
                          ("enum", JArr [JStr "rust"; JStr "cpp"; JStr "java"; JStr "python"; JStr "go"; JStr "mixed"]);
                          ("description", JStr "Type of project") ]);
                      ("nativelinkUrl", JObj
                        [ ("type", JStr "string");
                          ("description", JStr "Nativelink server URL (defaults to cloud)") ]);
                      ("features", JObj
                        [ ("type", JStr "array");
                          ("items", JObj [("type", JStr "string")]);
                          ("description", JStr "Features to enable: remote_cache, remote_execution, metrics") ]) ]);
                  ("required", JArr [JStr "projectType"]) ]) ];
          JObj
            [ ("name", JStr "get-nativelink-docs");
              ("description", JStr "Fetch Nativelink documentation and best practices");
              ("inputSchema", JObj
                [ ("type", JStr "object");
                  ("properties", JObj
                    [ ("topic", JObj
                        [ ("type", JStr "string");
                          ("enum", JArr [JStr "setup"; JStr "migration"; JStr "optimization"; JStr "troubleshooting"; JStr "api"]);
                          ("description", JStr "Documentation topic") ]);
                      ("context", JObj
                        [ ("type", JStr "string");
                          ("description", JStr "Additional context or specific question") ]);
                      ("maxTokens", JObj
                        [ ("type", JStr "number");
                          ("description", JStr "Maximum tokens to return (min 1000, default 5000)") ]) ]);
                  ("required", JArr [JStr "topic"]) ]) ];
          JObj
            [ ("name", JStr "analyze-build-performance");
              ("description", JStr "Analyze build performance and provide optimization recommendations");
              ("inputSchema", JObj
                [ ("type", JStr "object");
                  ("properties", JObj
                    [ ("profileData", JObj
                        [ ("type", JStr "string");
                          ("description", JStr "Bazel profile JSON data") ]);
                      ("metrics", JObj
                        [ ("type", JStr "object");
                          ("properties", JObj
                            [ ("totalTime", JObj
                                [ ("type", JStr "number");
                                  ("description", JStr "Total build time in seconds") ]);
                              ("cacheHitRate", JObj
                                [ ("type", JStr "number");
                                  ("description", JStr "Cache hit rate (0-1)") ]);
                              ("remoteExecutionTime", JObj
                                [ ("type", JStr "number");
                                  ("description", JStr "Remote execution time in seconds") ]);
                              ("localExecutionTime", JObj
                                [ ("type", JStr "number");
                                  ("description", JStr "Local execution time in seconds") ]);
                              ("networkTransferSize", JObj
                                [ ("type", JStr "number");
                                  ("description", JStr "Network transfer size in bytes") ]) ]);
                          ("description", JStr "Build metrics") ]);
                      ("targetOptimization", JObj
                        [ ("type", JStr "string");
                          ("enum", JArr [JStr "speed"; JStr "cost"; JStr "balanced"]);
                          ("description", JStr "Optimization target") ]) ]) ]) ];
          JObj
            [ ("name", JStr "generate-deployment-config");
              ("description", JStr "Generate deployment configuration for Nativelink");
              ("inputSchema", JObj
                [ ("type", JStr "object");
                  ("properties", JObj
                    [ ("platform", JObj
                        [ ("type", JStr "string");
                          ("enum", JArr [JStr "kubernetes"; JStr "docker"; JStr "aws"; JStr "gcp"; JStr "azure"]);
                          ("description", JStr "Deployment platform") ]);
                      ("scale", JObj
                        [ ("type", JStr "string");
                          ("enum", JArr [JStr "small"; JStr "medium"; JStr "large"; JStr "enterprise"]);
                          ("description", JStr "Deployment scale") ]);
                      ("features", JObj
                        [ ("type", JStr "array");
                          ("items", JObj [("type", JStr "string")]);
                          ("description", JStr "Features to enable: monitoring, autoscaling, high_availability") ]) ]);
                  ("required", JArr [JStr "platform"; JStr "scale"]) ]) ];
          JObj
            [ ("name", JStr "setup-watch-and-build");
              ("description", JStr "Set up automatic Bazel builds and tests on file changes with Nativelink");
              ("inputSchema", JObj
                [ ("type", JStr "object");
                  ("properties", JObj
                    [ ("command", JObj
                        [ ("type", JStr "string");
                          ("enum", JArr [JStr "build"; JStr "test"; JStr "both"]);
                          ("description", JStr "What to run on file changes (default: both)") ]);
                      ("targets", JObj
                        [ ("type", JStr "string");
                          ("description", JStr "Bazel targets to build/test (default: //...)") ]);
                      ("watchPaths", JObj
                        [ ("type", JStr "array");
                          ("items", JObj [("type", JStr "string")]);
                          ("description", JStr "Paths/patterns to watch for changes") ]);
                      ("excludePaths", JObj
                        [ ("type", JStr "array");
                          ("items", JObj [("type", JStr "string")]);
                          ("description", JStr "Paths/patterns to exclude from watching") ]);
                      ("debounceMs", JObj
                        [ ("type", JStr "number");
                          ("description", JStr "Milliseconds to wait before rebuilding (100-10000, default: 1000)") ]);
                      ("useIbazel", JObj
                        [ ("type", JStr "boolean");
                          ("description", JStr "Use iBazel for intelligent watching (recommended)") ]) ]) ]) ] ]) ].

(** The tools that a tools list advertises. *)
Definition advertised_tools (result : json) : list json :=
  match result with
  | JObj fields =>
      match property "tools" fields with
      | Some (JArr tools) => tools
      | _ => []
      end
  | _ => []
  end.

(** A property of a JSON value that is an object. *)
Definition member (key : string) (v : json) : option json :=
  match v with
  | JObj fields => property key fields
  | _ => None
  end.

(** A JSON schema without its [description]s. *)
Fixpoint undescribed (v : json) : json :=
  match v with
  | JArr items => JArr (map undescribed items)
  | JObj fields =>
      JObj ((fix go (fs : list (string * json)) : list (string * json) :=
               match fs with
               | [] => []
               | (k, x) :: rest =>
                   if String.eqb k "description" then go rest
                   else (k, undescribed x) :: go rest
               end) fields)
  | _ => v
  end.

(** A schema takes [undefined]: its key may be left out of the arguments. *)
Definition takes_undefined {A : Type} (schema : ZodType A) : bool :=
  match _parse schema [] None with
  | inr _ => true
  | inl _ => false
  end.

(** The keys of a shape that cannot be left out. *)
Fixpoint required_keys {A : Type} (shape : ZodShape A) : list string :=
  match shape with
  | ShapeNew _ => []
  | ShapeKey earlier key schema =>
      required_keys earlier ++ (if takes_undefined schema then [] else [key])
  end.

(** The JSON schema that says what a zod schema says of types, enumerations,
    array items, object properties and required keys (and nothing of bounds
    and defaults); [required] is there when some key is required. *)
Fixpoint json_schema {A : Type} (schema : ZodType A) : json :=
  match schema with
  | ZodString => JObj [("type", JStr "string")]
  | ZodNumber _ _ => JObj [("type", JStr "number")]
  | ZodBoolean => JObj [("type", JStr "boolean")]
  | ZodEnum values => JObj [("type", JStr "string"); ("enum", JArr (map JStr values))]
  | ZodArray element => JObj [("type", JStr "array"); ("items", json_schema element)]
  | ZodOptional innerType => json_schema innerType
  | ZodDefault innerType _ => json_schema innerType
  | ZodObject shape =>
      JObj ([("type", JStr "object"); ("properties", JObj (json_schema_shape shape))] ++
            match required_keys shape with
            | [] => []
            | keys => [("required", JArr (map JStr keys))]
            end)
  end
with json_schema_shape {A : Type} (shape : ZodShape A) : list (string * json) :=
  match shape with
  | ShapeNew _ => []
  | ShapeKey earlier key schema => json_schema_shape earlier ++ [(key, json_schema schema)]
  end.

(** ** JavaScript numbers in a template literal

    The numbers that src/tools/deployment.ts prints are small whole numbers:
    replica counts, and the leading digits of the resource strings. *)

(** The value of a digit in a radix, as [parseInt] reads it. *)
Definition digit_value (radix : N) (c : ascii) : option N :=
  let n := charCode c in
  let d :=
    if ((48 <=? n) && (n <=? 57))%N then Some (n - 48)%N
    else if ((97 <=? n) && (n <=? 122))%N then Some (n - 87)%N
    else if ((65 <=? n) && (n <=? 90))%N then Some (n - 55)%N
    else None in
  match d with
  | Some v => if (v <? radix)%N then Some v else None
  | None => None
  end.

(** The longest prefix of digits, [None] when there is no digit. *)
Fixpoint digits (radix : N) (s : string) (acc : option N) : option N :=
  match s with
  | String c s' =>
      match digit_value radix c with
      | Some d => digits radix s' (Some (default 0 acc * radix + d))%N
      | None => acc
      end
  | EmptyString => acc
  end.

(** [parseInt(s)] without a radix: leading white space, a sign, [0x] for
    hexadecimal, then the digits; [None] is [NaN].  Exact below 2^53. *)
Definition parseInt (s : string) : option Z :=
  let s := trimStart s in
  let '(negative, s) :=
    match s with
    | String "-" rest => (true, rest)
    | String "+" rest => (false, rest)
    | _ => (false, s)
    end in
  let '(radix, s) :=
    match s with
    | String "0" (String "x" rest) | String "0" (String "X" rest) => (16%N, rest)
    | _ => (10%N, s)
    end in
  match digits radix s None with
  | Some n => Some (if negative then - Z.of_N n else Z.of_N n)%Z
  | None => None
  end.

(** [`${n}`] for a whole number that may be [undefined]. *)
Definition number_text (n : option N) : string :=
  match n with
  | Some n => pretty n
  | None => "undefined"
  end.

(** [`${n * k}`]: [undefined * k] is [NaN]. *)
Definition product_text (n : option N) (k : N) : string :=
  match n with
  | Some n => pretty (n * k)%N
  | None => "NaN"
  end.

(** [`${x}`] for the result of [parseInt]. *)
Definition integer_text (x : option Z) : string :=
  match x with
  | Some n => pretty n
  | None => "NaN"
  end.

(** [`${x / 2}`] for the result of [parseInt]: a whole number or a half. *)
Definition half_text (x : option Z) : string :=
  match x with
  | Some n =>
      if Z.even n then pretty (n / 2)%Z
      else (if (n <? 0)%Z then "-" else "") ++ pretty (Z.abs n / 2)%Z ++ ".5"
  | None => "NaN"
  end.

(** ** src/tools/deployment.ts

    A [scale] is a string; the helpers switch over the four scales and have
    no default case, so on another string they return [undefined]. *)

Module deploy.

Definition getReplicaCount (scale : string) : option N :=
  if String.eqb scale "small" then Some 1%N
  else if String.eqb scale "medium" then Some 3%N
  else if String.eqb scale "large" then Some 5%N
  else if String.eqb scale "enterprise" then Some 10%N
  else None.

Record ResourceLimits : Type := {
  cpu : string;
  memory : string
}.

Definition getResourceLimits (scale : string) : option ResourceLimits :=
  if String.eqb scale "small" then Some {| cpu := "2"; memory := "4Gi" |}
  else if String.eqb scale "medium" then Some {| cpu := "4"; memory := "8Gi" |}
  else if String.eqb scale "large" then Some {| cpu := "8"; memory := "16Gi" |}
  else if String.eqb scale "enterprise" then Some {| cpu := "16"; memory := "32Gi" |}
  else None.

Definition getCPUUnits (scale : string) : option string :=
  if String.eqb scale "small" then Some "2048"
  else if String.eqb scale "medium" then Some "4096"
  else if String.eqb scale "large" then Some "8192"
  else if String.eqb scale "enterprise" then Some "16384"
  else None.

Definition getMemoryMB (scale : string) : option string :=
  if String.eqb scale "small" then Some "4096"
  else if String.eqb scale "medium" then Some "8192"
  else if String.eqb scale "large" then Some "16384"
  else if String.eqb scale "enterprise" then Some "32768"
  else None.

Definition getAWSInstanceType (scale : string) : option string :=
  if String.eqb scale "small" then Some "t3.large"
  else if String.eqb scale "medium" then Some "t3.xlarge"
  else if String.eqb scale "large" then Some "m5.2xlarge"
  else if String.eqb scale "enterprise" then Some "m5.4xlarge"
  else None.

Definition getGCPMachineType (scale : string) : option string :=
  if String.eqb scale "small" then Some "n2-standard-2"
  else if String.eqb scale "medium" then Some "n2-standard-4"
  else if String.eqb scale "large" then Some "n2-standard-8"
  else if String.eqb scale "enterprise" then Some "n2-standard-16"
  else None.

Definition getAzureVMSize (scale : string) : option string :=
  if String.eqb scale "small" then Some "Standard_D2s_v3"
  else if String.eqb scale "medium" then Some "Standard_D4s_v3"
  else if String.eqb scale "large" then Some "Standard_D8s_v3"
  else if String.eqb scale "enterprise" then Some "Standard_D16s_v3"
  else None.

(** The [TypeError] of a property read on [undefined]. *)
Definition undefined_property (key : string) : JsError :=
  Error ("Cannot read properties of undefined (reading '" ++ key ++ "')").

(** The template reads [resources.memory] before [resources.cpu]. *)
Definition generateKubernetesConfig (scale : string) (features : list string)
  : Completion string :=
  let replicas := getReplicaCount scale in
  match getResourceLimits scale with
  | None => Throw (undefined_property "memory")
  | Some resources => Normal (
"# Nativelink Kubernetes Deployment
apiVersion: apps/v1
kind: Deployment
metadata:
  name: nativelink
  namespace: build-cache
spec:
  replicas: " ++ number_text replicas ++ "
  selector:
    matchLabels:
      app: nativelink
  template:
    metadata:
      labels:
        app: nativelink
    spec:
      containers:
      - name: nativelink
        image: ghcr.io/tracemachina/nativelink:latest
        ports:
        - containerPort: 50051
          name: grpc
        - containerPort: 50052
          name: cas
        " ++ (if Array_includes features "monitoring" then "- containerPort: 9090
          name: metrics" else "") ++ "
        resources:
          limits:
            memory: " ++ DQ ++ memory resources ++ DQ ++ "
            cpu: " ++ DQ ++ cpu resources ++ DQ ++ "
          requests:
            memory: " ++ DQ ++ memory resources ++ DQ ++ "
            cpu: " ++ DQ ++ cpu resources ++ DQ ++ "
        env:
        - name: NATIVELINK_CONFIG
          value: /config/config.json5
        volumeMounts:
        - name: config
          mountPath: /config
        " ++ (if Array_includes features "high_availability" then "livenessProbe:
          grpc:
            port: 50051
          initialDelaySeconds: 30
          periodSeconds: 10
        readinessProbe:
          grpc:
            port: 50051
          initialDelaySeconds: 5
          periodSeconds: 5" else "") ++ "
      volumes:
      - name: config
        configMap:
          name: nativelink-config
---
apiVersion: v1
kind: Service
metadata:
  name: nativelink
  namespace: build-cache
spec:
  selector:
    app: nativelink
  ports:
  - port: 50051
    targetPort: 50051
    name: grpc
  - port: 50052
    targetPort: 50052
    name: cas
  " ++ (if Array_includes features "monitoring" then "- port: 9090
    targetPort: 9090
    name: metrics" else "") ++ "
  type: LoadBalancer
" ++ (if Array_includes features "autoscaling" then "---
apiVersion: autoscaling/v2
kind: HorizontalPodAutoscaler
metadata:
  name: nativelink-hpa
  namespace: build-cache
spec:
  scaleTargetRef:
    apiVersion: apps/v1
    kind: Deployment
    name: nativelink
  minReplicas: " ++ number_text replicas ++ "
  maxReplicas: " ++ product_text replicas 3 ++ "
  metrics:
  - type: Resource
    resource:
      name: cpu
      target:
        type: Utilization
        averageUtilization: 70
  - type: Resource
    resource:
      name: memory
      target:
        type: Utilization
        averageUtilization: 80" else ""))
  end.

Definition generateDockerConfig (scale : string) (features : list string)
  : Completion string :=
  match getResourceLimits scale with
  | None => Throw (undefined_property "cpu")
  | Some resources => Normal (
"# Nativelink Docker Compose Configuration
version: '3.8'

services:
  nativelink:
    image: ghcr.io/tracemachina/nativelink:latest
    container_name: nativelink
    ports:
      - " ++ DQ ++ "50051:50051" ++ DQ ++ "  # gRPC
      - " ++ DQ ++ "50052:50052" ++ DQ ++ "  # CAS
      " ++ (if Array_includes features "monitoring" then "- " ++ DQ ++ "9090:9090" ++ DQ ++ "    # Metrics" else "") ++ "
    volumes:
      - ./config.json5:/config/config.json5:ro
      - nativelink-data:/data
    environment:
      - NATIVELINK_CONFIG=/config/config.json5
      - RUST_LOG=info
    " ++ (if Array_includes features "high_availability" then "healthcheck:
      test: [" ++ DQ ++ "CMD" ++ DQ ++ ", " ++ DQ ++ "grpc_health_probe" ++ DQ ++ ", " ++ DQ ++ "-addr=:50051" ++ DQ ++ "]
      interval: 30s
      timeout: 10s
      retries: 3
      start_period: 40s" else "") ++ "
    deploy:
      resources:
        limits:
          cpus: '" ++ cpu resources ++ "'
          memory: " ++ memory resources ++ "
        reservations:
          cpus: '" ++ half_text (parseInt (cpu resources)) ++ "'
          memory: " ++ half_text (parseInt (memory resources)) ++ "G
    restart: unless-stopped

volumes:
  nativelink-data:
    driver: local

networks:
  default:
    name: nativelink-network")
  end.

(** [instanceType] is computed and not used. *)
Definition generateAWSConfig (scale : string) (features : list string)
  : Completion string :=
  let instanceType := getAWSInstanceType scale in
  Normal (
"# Nativelink AWS CloudFormation Template
AWSTemplateFormatVersion: '2010-09-09'
Description: 'Nativelink Deployment on AWS'

Parameters:
  VpcId:
    Type: AWS::EC2::VPC::Id
    Description: VPC for Nativelink deployment

  SubnetIds:
    Type: List<AWS::EC2::Subnet::Id>
    Description: Subnets for Nativelink deployment

Resources:
  NativelinkCluster:
    Type: AWS::ECS::Cluster
    Properties:
      ClusterName: nativelink-cluster
      " ++ (if Array_includes features "monitoring" then "ClusterSettings:
        - Name: containerInsights
          Value: enabled" else "") ++ "

  NativelinkTaskDefinition:
    Type: AWS::ECS::TaskDefinition
    Properties:
      Family: nativelink
      NetworkMode: awsvpc
      RequiresCompatibilities:
        - FARGATE
      Cpu: '" ++ api.template (getCPUUnits scale) ++ "'
      Memory: '" ++ api.template (getMemoryMB scale) ++ "'
      ContainerDefinitions:
        - Name: nativelink
          Image: ghcr.io/tracemachina/nativelink:latest
          PortMappings:
            - ContainerPort: 50051
              Protocol: tcp
            - ContainerPort: 50052
              Protocol: tcp
            " ++ (if Array_includes features "monitoring" then "- ContainerPort: 9090
              Protocol: tcp" else "") ++ "
          Environment:
            - Name: NATIVELINK_CONFIG
              Value: /config/config.json5
          LogConfiguration:
            LogDriver: awslogs
            Options:
              awslogs-group: /ecs/nativelink
              awslogs-region: !Ref AWS::Region
              awslogs-stream-prefix: nativelink

  NativelinkService:
    Type: AWS::ECS::Service
    Properties:
      ServiceName: nativelink-service
      Cluster: !Ref NativelinkCluster
      TaskDefinition: !Ref NativelinkTaskDefinition
      DesiredCount: " ++ number_text (getReplicaCount scale) ++ "
      LaunchType: FARGATE
      NetworkConfiguration:
        AwsvpcConfiguration:
          Subnets: !Ref SubnetIds
          SecurityGroups:
            - !Ref NativelinkSecurityGroup
      " ++ (if Array_includes features "autoscaling" then "ServiceRegistries:
        - RegistryArn: !GetAtt NativelinkServiceDiscovery.Arn" else "") ++ "

  NativelinkSecurityGroup:
    Type: AWS::EC2::SecurityGroup
    Properties:
      GroupDescription: Security group for Nativelink
      VpcId: !Ref VpcId
      SecurityGroupIngress:
        - IpProtocol: tcp
          FromPort: 50051
          ToPort: 50051
          CidrIp: 0.0.0.0/0
        - IpProtocol: tcp
          FromPort: 50052
          ToPort: 50052
          CidrIp: 0.0.0.0/0
        " ++ (if Array_includes features "monitoring" then "- IpProtocol: tcp
          FromPort: 9090
          ToPort: 9090
          CidrIp: 0.0.0.0/0" else "") ++ "

Outputs:
  ClusterName:
    Value: !Ref NativelinkCluster
  ServiceName:
    Value: !GetAtt NativelinkService.Name").

Definition generateGCPConfig (scale : string) (features : list string)
  : Completion string :=
  let machineType := getGCPMachineType scale in
  Normal (
"# Nativelink Google Cloud Deployment Manager
resources:
- name: nativelink-instance-template
  type: compute.v1.instanceTemplate
  properties:
    properties:
      machineType: " ++ api.template machineType ++ "
      disks:
      - deviceName: boot
        type: PERSISTENT
        boot: true
        autoDelete: true
        initializeParams:
          sourceImage: projects/cos-cloud/global/images/family/cos-stable
      networkInterfaces:
      - network: global/networks/default
        accessConfigs:
        - name: External NAT
          type: ONE_TO_ONE_NAT
      metadata:
        items:
        - key: user-data
          value: |
            #cloud-config
            write_files:
            - path: /etc/systemd/system/nativelink.service
              permissions: 0644
              content: |
                [Unit]
                Description=Nativelink Service
                After=docker.service
                Requires=docker.service

                [Service]
                ExecStart=/usr/bin/docker run \
                  -p 50051:50051 \
                  -p 50052:50052 \
                  " ++ (if Array_includes features "monitoring" then "-p 9090:9090 \" else "") ++ "
                  -v /opt/nativelink/config.json5:/config/config.json5 \
                  ghcr.io/tracemachina/nativelink:latest
                Restart=always

                [Install]
                WantedBy=multi-user.target
            runcmd:
            - systemctl daemon-reload
            - systemctl enable nativelink.service
            - systemctl start nativelink.service

- name: nativelink-mig
  type: compute.v1.instanceGroupManager
  properties:
    zone: us-central1-a
    targetSize: " ++ number_text (getReplicaCount scale) ++ "
    baseInstanceName: nativelink
    instanceTemplate: $(ref.nativelink-instance-template.selfLink)
    " ++ (if Array_includes features "autoscaling" then "autoHealingPolicies:
    - healthCheck: $(ref.nativelink-health-check.selfLink)
      initialDelaySec: 300" else "") ++ "

" ++ (if Array_includes features "monitoring" then "- name: nativelink-health-check
  type: compute.v1.healthCheck
  properties:
    type: TCP
    tcpHealthCheck:
      port: 50051
    checkIntervalSec: 10
    timeoutSec: 5
    healthyThreshold: 2
    unhealthyThreshold: 3" else "")).

(** [vmSize] is computed and not used; the limits are looked up where the
    template prints them, [cpu] first. *)
Definition generateAzureConfig (scale : string) (features : list string)
  : Completion string :=
  let vmSize := getAzureVMSize scale in
  match getResourceLimits scale with
  | None => Throw (undefined_property "cpu")
  | Some resources => Normal (
"# Nativelink Azure Resource Manager Template
{
  " ++ DQ ++ "$schema" ++ DQ ++ ": " ++ DQ ++ "https://schema.management.azure.com/schemas/2019-04-01/deploymentTemplate.json#" ++ DQ ++ ",
  " ++ DQ ++ "contentVersion" ++ DQ ++ ": " ++ DQ ++ "1.0.0.0" ++ DQ ++ ",
  " ++ DQ ++ "parameters" ++ DQ ++ ": {
    " ++ DQ ++ "location" ++ DQ ++ ": {
      " ++ DQ ++ "type" ++ DQ ++ ": " ++ DQ ++ "string" ++ DQ ++ ",
      " ++ DQ ++ "defaultValue" ++ DQ ++ ": " ++ DQ ++ "[resourceGroup().location]" ++ DQ ++ ",
      " ++ DQ ++ "metadata" ++ DQ ++ ": {
        " ++ DQ ++ "description" ++ DQ ++ ": " ++ DQ ++ "Location for all resources" ++ DQ ++ "
      }
    }
  },
  " ++ DQ ++ "variables" ++ DQ ++ ": {
    " ++ DQ ++ "containerGroupName" ++ DQ ++ ": " ++ DQ ++ "nativelink-container-group" ++ DQ ++ ",
    " ++ DQ ++ "containerName" ++ DQ ++ ": " ++ DQ ++ "nativelink" ++ DQ ++ "
  },
  " ++ DQ ++ "resources" ++ DQ ++ ": [
    {
      " ++ DQ ++ "type" ++ DQ ++ ": " ++ DQ ++ "Microsoft.ContainerInstance/containerGroups" ++ DQ ++ ",
      " ++ DQ ++ "apiVersion" ++ DQ ++ ": " ++ DQ ++ "2021-09-01" ++ DQ ++ ",
      " ++ DQ ++ "name" ++ DQ ++ ": " ++ DQ ++ "[variables('containerGroupName')]" ++ DQ ++ ",
      " ++ DQ ++ "location" ++ DQ ++ ": " ++ DQ ++ "[parameters('location')]" ++ DQ ++ ",
      " ++ DQ ++ "properties" ++ DQ ++ ": {
        " ++ DQ ++ "containers" ++ DQ ++ ": [
          {
            " ++ DQ ++ "name" ++ DQ ++ ": " ++ DQ ++ "[variables('containerName')]" ++ DQ ++ ",
            " ++ DQ ++ "properties" ++ DQ ++ ": {
              " ++ DQ ++ "image" ++ DQ ++ ": " ++ DQ ++ "ghcr.io/tracemachina/nativelink:latest" ++ DQ ++ ",
              " ++ DQ ++ "ports" ++ DQ ++ ": [
                {
                  " ++ DQ ++ "port" ++ DQ ++ ": 50051,
                  " ++ DQ ++ "protocol" ++ DQ ++ ": " ++ DQ ++ "TCP" ++ DQ ++ "
                },
                {
                  " ++ DQ ++ "port" ++ DQ ++ ": 50052,
                  " ++ DQ ++ "protocol" ++ DQ ++ ": " ++ DQ ++ "TCP" ++ DQ ++ "
                }" ++ (if Array_includes features "monitoring" then ",
                {
                  " ++ DQ ++ "port" ++ DQ ++ ": 9090,
                  " ++ DQ ++ "protocol" ++ DQ ++ ": " ++ DQ ++ "TCP" ++ DQ ++ "
                }" else "") ++ "
              ],
              " ++ DQ ++ "environmentVariables" ++ DQ ++ ": [
                {
                  " ++ DQ ++ "name" ++ DQ ++ ": " ++ DQ ++ "NATIVELINK_CONFIG" ++ DQ ++ ",
                  " ++ DQ ++ "value" ++ DQ ++ ": " ++ DQ ++ "/config/config.json5" ++ DQ ++ "
                }
              ],
              " ++ DQ ++ "resources" ++ DQ ++ ": {
                " ++ DQ ++ "requests" ++ DQ ++ ": {
                  " ++ DQ ++ "cpu" ++ DQ ++ ": " ++ integer_text (parseInt (cpu resources)) ++ ",
                  " ++ DQ ++ "memoryInGB" ++ DQ ++ ": " ++ integer_text (parseInt (memory resources)) ++ "
                }
              }
            }
          }
        ],
        " ++ DQ ++ "osType" ++ DQ ++ ": " ++ DQ ++ "Linux" ++ DQ ++ ",
        " ++ DQ ++ "restartPolicy" ++ DQ ++ ": " ++ DQ ++ "Always" ++ DQ ++ ",
        " ++ DQ ++ "ipAddress" ++ DQ ++ ": {
          " ++ DQ ++ "type" ++ DQ ++ ": " ++ DQ ++ "Public" ++ DQ ++ ",
          " ++ DQ ++ "ports" ++ DQ ++ ": [
            {
              " ++ DQ ++ "port" ++ DQ ++ ": 50051,
              " ++ DQ ++ "protocol" ++ DQ ++ ": " ++ DQ ++ "TCP" ++ DQ ++ "
            },
            {
              " ++ DQ ++ "port" ++ DQ ++ ": 50052,
              " ++ DQ ++ "protocol" ++ DQ ++ ": " ++ DQ ++ "TCP" ++ DQ ++ "
            }" ++ (if Array_includes features "monitoring" then ",
            {
              " ++ DQ ++ "port" ++ DQ ++ ": 9090,
              " ++ DQ ++ "protocol" ++ DQ ++ ": " ++ DQ ++ "TCP" ++ DQ ++ "
            }" else "") ++ "
          ]
        }
      }
    }
  ],
  " ++ DQ ++ "outputs" ++ DQ ++ ": {
    " ++ DQ ++ "containerIPAddress" ++ DQ ++ ": {
      " ++ DQ ++ "type" ++ DQ ++ ": " ++ DQ ++ "string" ++ DQ ++ ",
      " ++ DQ ++ "value" ++ DQ ++ ": " ++ DQ ++ "[reference(resourceId('Microsoft.ContainerInstance/containerGroups', variables('containerGroupName'))).ipAddress.ip]" ++ DQ ++ "
    }
  }
}")
  end.

Definition generateDeploymentConfig (params : deployment.Params) : Completion string :=
  let features := default [] (deployment.features params) in
  if String.eqb (deployment.platform params) "kubernetes" then
    generateKubernetesConfig (deployment.scale params) features
  else if String.eqb (deployment.platform params) "docker" then
    generateDockerConfig (deployment.scale params) features
  else if String.eqb (deployment.platform params) "aws" then
    generateAWSConfig (deployment.scale params) features
  else if String.eqb (deployment.platform params) "gcp" then
    generateGCPConfig (deployment.scale params) features
  else if String.eqb (deployment.platform params) "azure" then
    generateAzureConfig (deployment.scale params) features
  else
    generateDockerConfig (deployment.scale params) features.

End deploy.

(** The text that a computation returns, if it returns. *)
Definition text_of (c : Completion string) : option string :=
  match c with
  | Normal text => Some text
  | Throw _ => None
  end.

(** Two optional texts are the same. *)
Definition same_text (a b : option string) : bool :=
  match a, b with
  | Some x, Some y => String.eqb x y
  | None, None => true
  | _, _ => false
  end.

Definition platforms : list string := ["kubernetes"; "docker"; "aws"; "gcp"; "azure"].

Definition scales : list string := ["small"; "medium"; "large"; "enterprise"].

(** The sizes of a deployment, scale by scale: the replicas, the CPUs and the
    memory in GiB. *)
Definition sizes : list (string * (N * N * N)) :=
  [ ("small", (1, 2, 4)); ("medium", (3, 4, 8)); ("large", (5, 8, 16));
    ("enterprise", (10, 16, 32)) ]%N.

(** A list of features on which the three tests of the templates come out as
    given. *)
Definition features_of (monitoring high_availability autoscaling : bool) : list string :=
  ((if monitoring then ["monitoring"] else []) ++
   (if high_availability then ["high_availability"] else []) ++
   (if autoscaling then ["autoscaling"] else []))%list.

(** ** Comparisons of JavaScript numbers *)

(** A number is truthy unless it is zero (or [undefined]). *)
Definition number_truthy (x : option Q) : bool :=
  match x with
  | Some q => negb (Qeq_bool q 0)
  | None => false
  end.

(** [x < y] and [x > y] where [x] may be [undefined]: a comparison with
    [undefined] is false. *)
Definition below (x : option Q) (y : Q) : bool :=
  match x with
  | Some q => negb (Qle_bool y q)
  | None => false
  end.

Definition above (x : option Q) (y : Q) : bool :=
  match x with
  | Some q => negb (Qle_bool q y)
  | None => false
  end.

(** The doubles that the literals [0.7] and [0.8] denote. *)
Definition double_0_7 : Q := 3152519739159347 # 4503599627370496.
Definition double_0_8 : Q := 3602879701896397 # 4503599627370496.

(** [object?.field]. *)
Definition optional {A B : Type} (field : A -> option B) (object : option A) : option B :=
  match object with
  | Some o => field o
  | None => None
  end.

(** ** The analysis of src/lib/api.ts

    [analyzePerformance] posts the metrics to the service when a key of an AI
    provider is configured.  What the service answers, and the division and the
    multiplication of doubles (the exact result, rounded as IEEE 754 rounds
    it), are given from outside. *)

Record AnalysisRequest : Type := {
  analysis_url : string;
  analysis_method : string;
  analysis_headers : list (string * string);
  analysis_body : performance.Metrics
}.

(** [response.json()] and the [data.analysis] read from it: rejected when
    the body is not JSON (or is [null]), otherwise the [analysis] of the body,
    [undefined] when it has none. *)
Inductive AnalysisJson : Type :=
| AnalysisRejected
| AnalysisBody (analysis : option string).

Record AnalysisResponse : Type := {
  analysis_ok : bool;
  analysis_json : AnalysisJson
}.

Inductive AnalysisOutcome : Type :=
| AnalysisFailed (reason : string)
| AnalysisResolved (response : AnalysisResponse).

Class Runtime : Type := {
  fetch_analysis : AnalysisRequest -> AnalysisOutcome;
  divide : Q -> Q -> Q;
  times : Q -> Q -> Q
}.

Module analysis.

Definition generateBasicAnalysis {R : Runtime} (metrics : performance.Metrics) : string :=
  let analysis : list string := [] in
  let analysis :=
    match performance.cacheHitRate metrics with
    | Some cacheHitRate =>
        if below (Some cacheHitRate) (1 # 2) then
          (analysis ++
           [ "‚ö†Ô∏è Low cache hit rate detected. Consider:";
             "  - Enabling strict action environment";
             "  - Checking for non-hermetic build rules";
             "  - Reviewing toolchain configuration" ])%list
        else if above (Some cacheHitRate) double_0_8 then
          (analysis ++
           [ "‚úÖ Excellent cache hit rate!" ])%list
        else analysis
    | None => analysis
    end in
  let analysis :=
    match performance.totalTime metrics, performance.remoteExecutionTime metrics with
    | Some totalTime, Some remoteExecutionTime =>
        if number_truthy (Some totalTime) && number_truthy (Some remoteExecutionTime) then
          let remotePercent := times (divide remoteExecutionTime totalTime) 100 in
          if above (Some remotePercent) 70 then
            (analysis ++
             [ "üìä Most execution happening remotely - good parallelization" ])%list
          else analysis
        else analysis
    | _, _ => analysis
    end in
  let analysis :=
    if number_truthy (performance.networkTransferSize metrics)
       && above (performance.networkTransferSize metrics) (1024 * 1024 * 100) then
      (analysis ++
       [ "üåê Large network transfers detected. Consider:";
         "  - Using --remote_download_minimal";
         "  - Enabling compression" ])%list
    else analysis in
  str_or (Some (join LF analysis)) "Build metrics look normal. No specific optimizations recommended.".

Definition analysis_request (h : Heap) (this : api.NativelinkAPI)
  (metrics : performance.Metrics) : AnalysisRequest :=
  let config := deref h (api.config this) in
  let aiProvider := if truthy (anthropicKey config) then "anthropic" else "gemini" in
  {| analysis_url := api.baseUrl this ++ "/analyze";
     analysis_method := "POST";
     analysis_headers :=
       [ ("Authorization", "Bearer " ++ api.template (apiKey config));
         ("X-AI-Provider", aiProvider);
         ("X-AI-Key", str_or (str_or_undef (anthropicKey config) (geminiKey config)) "");
         ("Content-Type", "application/json") ];
     analysis_body := metrics |}.

(** The result is the string of the declared type, or [undefined] when the
    parsed body has no [analysis]. *)
Definition analyzePerformance {R : Runtime} (h : Heap) (this : api.NativelinkAPI)
  (metrics : performance.Metrics) : option string :=
  let config := deref h (api.config this) in
  if truthy (anthropicKey config) || truthy (geminiKey config) then
    match fetch_analysis (analysis_request h this metrics) with
    | AnalysisResolved response =>
        if analysis_ok response then
          match analysis_json response with
          | AnalysisBody analysis => analysis
          | AnalysisRejected => Some (generateBasicAnalysis metrics)
          end
        else Some (generateBasicAnalysis metrics)
    | AnalysisFailed _ => Some (generateBasicAnalysis metrics)
    end
  else Some (generateBasicAnalysis metrics).

End analysis.

(** ** src/tools/performance.ts *)

Module perf.

Definition getSpeedOptimizations (metrics : option performance.Metrics) : string :=
  let recommendations : list string :=
    [ ("### Speed Optimizations" ++ LF)%string;
      "**Maximize Parallelization:**";
      "```";
      "build --jobs=auto";
      "build --remote_executor=grpc://executor.nativelink.com:443";
      "build --remote_download_outputs=toplevel";
      ("```" ++ LF)%string;
      "**Optimize Network:**";
      "```";
      "build --remote_max_connections=500";
      "build --remote_timeout=30";
      "build --experimental_remote_cache_async";
      ("```" ++ LF)%string ] in
  let recommendations :=
    if number_truthy (optional performance.cacheHitRate metrics)
       && below (optional performance.cacheHitRate metrics) double_0_7 then
      (recommendations ++
       [ "**Improve Cache Hit Rate:**";
         "- Enable strict action environment";
         "- Use deterministic toolchains";
         ("- Configure proper platform settings" ++ LF)%string ])%list
    else recommendations in
  let recommendations :=
    (recommendations ++
     [ "**Use Local Execution for Small Targets:**";
       "```";
       "build --modify_execution_info=.*-pkg.*=+no-remote";
       "```" ])%list in
  join LF recommendations.

Definition getCostOptimizations (metrics : option performance.Metrics) : string :=
  let recommendations : list string :=
    [ ("### Cost Optimizations" ++ LF)%string;
      "**Minimize Data Transfer:**";
      "```";
      "build --remote_download_minimal";
      "build --experimental_remote_cache_compression";
      "build --experimental_remote_build_event_upload=minimal";
      ("```" ++ LF)%string;
      "**Optimize Resource Usage:**";
      "```";
      "build --jobs=50  # Limit parallel jobs";
      "build --local_cpu_resources=4";
      "build --local_ram_resources=8192";
      ("```" ++ LF)%string ] in
  let recommendations :=
    if number_truthy (optional performance.networkTransferSize metrics)
       && above (optional performance.networkTransferSize metrics) (1024 * 1024 * 500) then
      (recommendations ++
       [ "**Large Transfer Detected:**";
         "- Consider using --remote_download_minimal";
         "- Enable build without bytes for CI";
         ("- Use remote asset API for large files" ++ LF)%string ])%list
    else recommendations in
  let recommendations :=
    (recommendations ++
     [ "**Cache Strategy:**";
       "```";
       "build --remote_cache_priority=1";
       "build --remote_execution_priority=0";
       "```" ])%list in
  join LF recommendations.

Definition getBalancedOptimizations (metrics : option performance.Metrics) : string :=
  let recommendations : list string :=
    [ ("### Balanced Optimizations" ++ LF)%string;
      "**Recommended Configuration:**";
      "```";
      "build --jobs=100";
      "build --remote_download_outputs=minimal";
      "build --experimental_remote_cache_compression";
      "build --remote_timeout=60";
      "build --remote_retries=2";
      ("```" ++ LF)%string;
      "**Smart Caching:**";
      "```";
      "build --remote_cache=grpc://cache.nativelink.com:443";
      "build --remote_upload_local_results=true";
      "build --remote_local_fallback=true";
      ("```" ++ LF)%string ] in
  let recommendations :=
    if number_truthy (optional performance.totalTime metrics)
       && above (optional performance.totalTime metrics) 600 then
      (recommendations ++
       [ "**Long Build Detected:**";
         "- Consider splitting into smaller targets";
         "- Use target-level parallelism";
         ("- Enable incremental builds" ++ LF)%string ])%list
    else recommendations in
  join LF recommendations.

(** The [try] block of the source cannot throw. *)
Definition analyzeProfileData (profileData : string) : string :=
  "Profile data detected (" ++ pretty (String.length profileData) ++ " bytes).

Consider using:
- `bazel analyze-profile profile.json` for detailed analysis
- Upload to https://app.nativelink.com/profile for visualization
- Key metrics to review:
  - Critical path duration
  - Action execution time
  - Remote vs local execution ratio".

(** [{}], for [params.metrics || {}]. *)
Definition no_metrics : performance.Metrics :=
  {| performance.totalTime := None; performance.cacheHitRate := None;
     performance.remoteExecutionTime := None; performance.localExecutionTime := None;
     performance.networkTransferSize := None |}.

(** [analysis += ...] on a value that may be [undefined]: it is written out
    as the text [undefined]. *)
Definition analyzeBuildPerformance {R : Runtime} (params : performance.Params) (h : Heap)
  (api : api.NativelinkAPI) : string :=
  let target := str_or (performance.targetOptimization params) "balanced" in
  let analysis :=
    analysis.analyzePerformance h api (default no_metrics (performance.metrics params)) in
  let analysis :=
    api.template analysis ++ LF ++ LF ++ "## Optimization Recommendations" ++ LF ++ LF in
  let analysis :=
    if String.eqb target "speed" then
      analysis ++ getSpeedOptimizations (performance.metrics params)
    else if String.eqb target "cost" then
      analysis ++ getCostOptimizations (performance.metrics params)
    else
      analysis ++ getBalancedOptimizations (performance.metrics params) in
  let analysis :=
    match performance.profileData params with
    | Some profileData =>
        if String.eqb profileData "" then analysis
        else analysis ++ LF ++ LF ++ "## Profile Analysis" ++ LF ++ LF
             ++ analyzeProfileData profileData
    | None => analysis
    end in
  analysis.

End perf.

(** The analysis call failed: rejected, answered with a status that is not a
    2xx one, or with a body that is not JSON. *)
Definition analysis_failed (outcome : AnalysisOutcome) : bool :=
  match outcome with
  | AnalysisFailed _ => true
  | AnalysisResolved response =>
      negb (analysis_ok response) ||
      match analysis_json response with AnalysisRejected => true | AnalysisBody _ => false end
  end.

(** The key of an AI provider is configured. *)
Definition ai_key (h : Heap) (this : api.NativelinkAPI) : bool :=
  truthy (anthropicKey (deref h (api.config this)))
  || truthy (geminiKey (deref h (api.config this))).

(** A decimal digit. *)
Definition is_digit (c : ascii) : bool :=
  let n := charCode c in ((48 <=? n) && (n <=? 57))%N.

(** A runtime whose analysis service cannot be reached; its division and
    multiplication are the exact ones. *)
Definition offline : Runtime :=
  {| fetch_analysis := fun _ => AnalysisFailed "fetch failed";
     divide := Qdiv;
     times := Qmult |}.

(** A runtime whose analysis service answers every call with a 2xx status and
    a JSON body. *)
Definition answering (analysis : option string) : Runtime :=
  {| fetch_analysis := fun _ =>
       AnalysisResolved {| analysis_ok := true; analysis_json := AnalysisBody analysis |};
     divide := Qdiv;
     times := Qmult |}.

(** The headings of the three lists of recommendations. *)
Definition headings : list string :=
  ["### Speed Optimizations"; "### Cost Optimizations"; "### Balanced Optimizations"].

(** A call for speed, with a cache that never hits. *)
Definition cold_cache : performance.Metrics :=
  {| performance.totalTime := Some 120%Q; performance.cacheHitRate := Some 0%Q;
     performance.remoteExecutionTime := None; performance.localExecutionTime := None;
     performance.networkTransferSize := None |}.

Definition speed_call : performance.Params :=
  {| performance.profileData := Some "SLOW //app:main critical path";
     performance.metrics := Some cold_cache;
     performance.targetOptimization := Some "speed" |}.

(** A store whose configuration has the key of Anthropic and the one of
    Gemini. *)
Definition with_ai_keys : Heap :=
  {[ CONFIG := {| apiKey := Some "nl-key"; anthropicKey := Some "sk-ant";
                  geminiKey := Some "g-key"; nativelinkUrl := None; debug := None |} ]}.

(** ** Numbers in a text

    [String(x)] of a double, in a template literal, in a concatenation and in
    [JSON.stringify]: the shortest decimal that reads back as the same double.
    It is given from outside. *)

Class Numbers : Type := {
  Number_toString : Q -> string
}.

(** ** [JSON.stringify(value, null, 2)] *)

Definition hex_digit (n : N) : string :=
  String.substring (N.to_nat n) 1 "0123456789abcdef".

(** One character inside a JSON string: the quote and the backslash are
    escaped, and the control characters. *)
Definition quote_char (c : ascii) : string :=
  let n := charCode c in
  if (n =? 8)%N then "\b"
  else if (n =? 9)%N then "\t"
  else if (n =? 10)%N then "\n"
  else if (n =? 12)%N then "\f"
  else if (n =? 13)%N then "\r"
  else if (n =? 34)%N then "\" ++ DQ
  else if (n =? 92)%N then "\\"
  else if (n <? 32)%N then "\u00" ++ hex_digit (n / 16) ++ hex_digit (n mod 16)
  else String c "".

Fixpoint quote_chars (s : string) : string :=
  match s with
  | EmptyString => ""
  | String c rest => quote_char c ++ quote_chars rest
  end.

Definition QuoteJSONString (s : string) : string := DQ ++ quote_chars s ++ DQ.

(** The value on several lines, each level two blanks further in; [indent]
    is the indentation of the line the value starts on. *)
Fixpoint JSON_stringify {P : Numbers} (indent : string) (value : json) : string :=
  let stepback := indent in
  let indent := indent ++ "  " in
  match value with
  | JNull => "null"
  | JBool true => "true"
  | JBool false => "false"
  | JNum q => Number_toString q
  | JStr s => QuoteJSONString s
  | JArr [] => "[]"
  | JArr items =>
      "[" ++ LF ++ indent
      ++ join ("," ++ LF ++ indent) (map (JSON_stringify indent) items)
      ++ LF ++ stepback ++ "]"
  | JObj [] => "{}"
  | JObj fields =>
      "{" ++ LF ++ indent
      ++ join ("," ++ LF ++ indent)
           ((fix members (fs : list (string * json)) : list string :=
               match fs with
               | [] => []
               | (key, v) :: rest =>
                   (QuoteJSONString key ++ ": " ++ JSON_stringify indent v) :: members rest
               end) fields)
      ++ LF ++ stepback ++ "}"
  end.

(** ** src/tools/watch.ts *)

Module watcher.

Definition generateIbazelConfig (command targets : string) : string :=
  let lines : list string :=
    [ "# Automatic Build with iBazel (Recommended)";
      "# iBazel provides intelligent file watching and incremental builds";
      "";
      "## Installation";
      "```bash";
      "npm install -g @bazel/ibazel";
      "# or";
      "go install github.com/bazelbuild/bazel-watcher/cmd/ibazel@latest";
      "```";
      "";
      "## Usage";
      "" ] in
  let lines :=
    if String.eqb command "build" then
      (lines ++
       [ "### Watch and Build";
         "```bash";
         ("ibazel build " ++ targets)%string;
         "```" ])%list
    else if String.eqb command "test" then
      (lines ++
       [ "### Watch and Test";
         "```bash";
         ("ibazel test " ++ targets)%string;
         "```" ])%list
    else if String.eqb command "both" then
      (lines ++
       [ "### Watch, Build and Test";
         "```bash";
         "# In one terminal:";
         ("ibazel build " ++ targets)%string;
         "";
         "# In another terminal:";
         ("ibazel test " ++ targets)%string;
         "```";
         "";
         "### Or use a script to run both:";
         "```bash";
         "#!/bin/bash";
         ("ibazel build " ++ targets ++ " &")%string;
         ("ibazel test " ++ targets ++ " &")%string;
         "wait";
         "```" ])%list
    else lines in
  let lines :=
    (lines ++
     [ "";
       "## With Nativelink Cloud";
       "iBazel works seamlessly with Nativelink Cloud. Your `.bazelrc` configuration";
       "from app.nativelink.com will be used automatically for:";
       "- Remote caching of build artifacts";
       "- Remote execution of build actions";
       "- Build event streaming to app.nativelink.com";
       "";
       "## Benefits";
       "- âœ… Only rebuilds changed targets";
       "- âœ… Automatic dependency detection";
       "- âœ… Minimal CPU usage when idle";
       "- âœ… Works with all Bazel projects";
       "- âœ… Integrates with Nativelink Cloud cache" ])%list in
  join LF lines.

Definition generateWatchConfig {R : Runtime} {P : Numbers} (command targets : string)
  (watchPaths excludePaths : list string) (debounce : Q) : string :=
  let lines : list string :=
    [ "# File Watcher Configuration for Bazel + Nativelink";
      "";
      "## Option 1: Using watchexec (Recommended)";
      "```bash";
      "# Install watchexec";
      "brew install watchexec  # macOS";
      "# or";
      "cargo install watchexec-cli  # Cross-platform";
      "```";
      "" ] in
  let bazelCommands : list string := [] in
  let bazelCommands :=
    if String.eqb command "build" || String.eqb command "both" then
      (bazelCommands ++ [ ("bazel build " ++ targets)%string ])%list
    else bazelCommands in
  let bazelCommands :=
    if String.eqb command "test" || String.eqb command "both" then
      (bazelCommands ++ [ ("bazel test " ++ targets)%string ])%list
    else bazelCommands in
  let watchexecCommand :=
    "watchexec \" ++ LF ++ "  --debounce " ++ Number_toString debounce ++ " \" ++ LF ++
    "  " ++
    join (" \" ++ LF ++ "  ") (map (fun p => "--ignore '" ++ p ++ "'") excludePaths) ++
    " \" ++ LF ++ "  " ++
    join (" \" ++ LF ++ "  ") (map (fun p => "--watch '" ++ p ++ "'") watchPaths) ++ " \" ++
    LF ++ "  --clear \" ++ LF ++ "  -- " ++ DQ ++ join " && " bazelCommands ++ DQ in
  let lines :=
    (lines ++
     [ "### Run with watchexec:";
       "```bash";
       watchexecCommand;
       "```";
       "" ])%list in
  let lines :=
    (lines ++
     [ "## Option 2: Using entr";
       "```bash";
       "# Install entr";
       "brew install entr  # macOS";
       "apt-get install entr  # Linux";
       "```";
       "";
       "### Run with entr:";
       "```bash";
       ("find . -name " ++ DQ ++ "*.rs" ++ DQ ++ " -o -name " ++ DQ ++ "*.cc" ++ DQ ++
        " -o -name " ++ DQ ++ "*.java" ++ DQ ++ " -o -name " ++ DQ ++ "BUILD.bazel" ++ DQ ++
        " | \")%string;
       "  grep -v bazel- | \";
       ("  entr -c bash -c " ++ DQ ++ join " && " bazelCommands ++ DQ)%string;
       "```";
       "" ])%list in
  let lines :=
    (lines ++
     [ "## Option 3: Using nodemon (Node.js)";
       "```bash";
       "npm install -g nodemon";
       "```";
       "";
       "### Create nodemon.json:";
       "```json";
       JSON_stringify ""
       (JObj [ ("watch", JArr (map JStr watchPaths));
               ("ignore", JArr (map JStr excludePaths));
               ("exec", JStr (join " && " bazelCommands));
               ("delay", JNum debounce);
               ("ext", JStr "rs,cc,cpp,java,py,go,ts,js,bazel") ]);
       "```";
       "";
       "### Run with nodemon:";
       "```bash";
       "nodemon";
       "```";
       "" ])%list in
  let lines :=
    (lines ++
     [ "## Option 4: Custom Watch Script";
       "```bash";
       "#!/bin/bash";
       "# Save as watch-build.sh";
       "";
       ("TARGETS=" ++ DQ ++ targets ++ DQ)%string;
       ("DEBOUNCE_SECONDS=" ++ Number_toString (divide debounce 1000))%string;
       "";
       ("echo " ++ DQ ++ "Watching for changes..." ++ DQ)%string;
       ("echo " ++ DQ ++ "Initial build..." ++ DQ)%string;
       join LF bazelCommands;
       "";
       "while true; do";
       "  # Use fswatch on macOS or inotifywait on Linux";
       "  if command -v fswatch > /dev/null; then";
       ("    fswatch -1 -e " ++ DQ ++ "bazel-*" ++ DQ ++ " -e " ++ DQ ++ "node_modules" ++
        DQ ++ " .")%string;
       "  else";
       "    inotifywait -r -e modify,create,delete \";
       ("      --exclude " ++ DQ ++ "bazel-|node_modules" ++ DQ ++ " .")%string;
       "  fi";
       "  ";
       ("  echo " ++ DQ ++ "Changes detected, waiting ${DEBOUNCE_SECONDS}s..." ++ DQ)%string;
       "  sleep $DEBOUNCE_SECONDS";
       "  ";
       ("  echo " ++ DQ ++ "Building..." ++ DQ)%string;
       ("  " ++ join (LF ++ "  ") bazelCommands)%string;
       "done";
       "```";
       "";
       "### Make executable and run:";
       "```bash";
       "chmod +x watch-build.sh";
       "./watch-build.sh";
       "```";
       "" ])%list in
  let lines :=
    (lines ++
     [ "## Integration with Nativelink Cloud";
       "";
       "All watch commands will use your Nativelink Cloud configuration from `.bazelrc`:";
       "- ðŸš€ Instant cache hits for unchanged files";
       "- âš¡ Remote execution for faster builds";
       "- ðŸ“Š Build results visible at app.nativelink.com";
       "";
       "## VS Code Task Configuration";
       "";
       "Add to `.vscode/tasks.json`:";
       "```json";
       JSON_stringify ""
       (JObj [ ("version", JStr "2.0.0");
               ("tasks", JArr
                  [ JObj [ ("label", JStr "Watch and Build with Bazel");
                           ("type", JStr "shell");
                           ("command", JStr (join " && " bazelCommands));
                           ("problemMatcher", JArr []);
                           ("isBackground", JBool true);
                           ("runOptions", JObj [ ("runOn", JStr "folderOpen") ]);
                           ("presentation",
                            JObj [ ("reveal", JStr "always");
                                   ("panel", JStr "dedicated") ]) ] ]) ]);
       "```";
       "";
       "## Best Practices";
       "";
       "1. **Use iBazel for best performance** - It only rebuilds changed targets";
       "2. **Configure proper ignore patterns** - Exclude bazel-* directories";
       ("3. **Set appropriate debounce** - " ++ Number_toString debounce ++
        "ms prevents rapid rebuilds")%string;
       "4. **Use target patterns** - Be specific with targets for faster builds";
       "5. **Monitor app.nativelink.com** - View build performance and cache hits" ])%list in
  join LF lines.

(** [params.debounceMs || 1000] replaces a zero; [params.watchPaths || [...]]
    and [params.excludePaths || [...]] replace [undefined] only: an array is
    truthy, also an empty one. *)
Definition setupWatchAndBuild {R : Runtime} {P : Numbers} (params : watch.Params) : string :=
  let command := str_or (Some (watch.command params)) "both" in
  let targets := str_or (Some (watch.targets params)) "//..." in
  let debounce :=
    if number_truthy (Some (watch.debounceMs params)) then watch.debounceMs params
    else 1000%Q in
  let useIbazel := watch.useIbazel params in
  if useIbazel then generateIbazelConfig command targets
  else
    let watchPaths :=
      default
        [ "**/*.rs"; "**/*.cc"; "**/*.cpp"; "**/*.java"; "**/*.py"; "**/*.go"; "**/*.ts";
          "**/*.js"; "BUILD.bazel"; "WORKSPACE" ]
        (watch.watchPaths params) in
    let excludePaths :=
      default [ "bazel-*"; "node_modules"; ".git"; "dist"; "target" ]
        (watch.excludePaths params) in
    generateWatchConfig command targets watchPaths excludePaths debounce.

End watcher.

(** A printing of numbers that is the one of JavaScript on the whole numbers
    below 10^21. *)
Definition whole_numbers : Numbers :=
  {| Number_toString := fun q => pretty (Qfloor q) |}.

(** A call for the tests of everything, with iBazel. *)
Definition ibazel_tests : watch.Params :=
  {| watch.command := "test"; watch.targets := ""; watch.watchPaths := None;
     watch.excludePaths := None; watch.debounceMs := 1000%Q; watch.useIbazel := true |}.

(** What validation makes of a call without any key. *)
Definition watch_defaults : watch.Params :=
  {| watch.command := "both"; watch.targets := "//..."; watch.watchPaths := None;
     watch.excludePaths := None; watch.debounceMs := 1000%Q; watch.useIbazel := false |}.

(** A call for the build of one package, watching its sources. *)
Definition watch_sources : watch.Params :=
  {| watch.command := "build"; watch.targets := "//app:all";
     watch.watchPaths := Some ["src/**"]; watch.excludePaths := None;
     watch.debounceMs := 500%Q; watch.useIbazel := false |}.

(** * Properties *)

(** ** Strings *)

Lemma append_cons (c : ascii) (s t : string) : String c s ++ t = String c (s ++ t).
Proof. reflexivity. Qed.

Lemma append_nil_l (s : string) : "" ++ s = s.
Proof. reflexivity. Qed.

Lemma append_nil_r (s : string) : s ++ "" = s.
Proof. induction s as [|c s IH]; [reflexivity | now rewrite append_cons, IH]. Qed.

Lemma append_assoc (a b c : string) : (a ++ b) ++ c = a ++ b ++ c.
Proof. induction a as [|x a IH]; [reflexivity | now rewrite !append_cons, IH]. Qed.

Lemma length_append (a b : string) :
  String.length (a ++ b) = (String.length a + String.length b)%nat.
Proof.
  induction a as [|x a IH]; [reflexivity |].
  rewrite append_cons. simpl. now rewrite IH.
Qed.

Lemma length_substring_0 (n : nat) (s : string) :
  String.length (String.substring 0 n s) = Nat.min n (String.length s).
Proof.
  revert n; induction s as [|c s IH]; intros [|n]; simpl; try reflexivity.
  f_equal. apply IH.
Qed.

(** ** src/lib/utils.ts: [truncateResponse] *)

(** When the text is longer than [maxChars], the cut keeps exactly
    [floor maxChars] characters. *)
Lemma length_substring_to (text : string) (maxChars : Q) :
  (0 <= maxChars)%Q -> (maxChars < js_length text)%Q ->
  String.length (substring_to text maxChars) = Z.to_nat (Qfloor maxChars).
Proof.
  intros Hpos Hlt. unfold substring_to. rewrite length_substring_0.
  apply Nat.min_l.
  assert (Hf : (inject_Z (Qfloor maxChars) <= maxChars)%Q) by apply Qfloor_le.
  assert (H : (inject_Z (Qfloor maxChars) < js_length text)%Q)
    by (eapply Qle_lt_trans; eassumption).
  unfold js_length in H. rewrite <- Zlt_Qlt in H. lia.
Qed.

Lemma truncateResponse_short (text : string) (m : Q) :
  (js_length text <= 4 * m)%Q -> truncateResponse text m = text.
Proof.
  intros H. unfold truncateResponse.
  assert (E : Qle_bool (js_length text) (m * 4) = true).
  { apply Qle_bool_iff. now rewrite Qmult_comm. }
  now rewrite E.
Qed.

Lemma truncateResponse_long (text : string) (m : Q) :
  (4 * m < js_length text)%Q ->
  truncateResponse text m = substring_to text (4 * m) ++ truncation_marker.
Proof.
  intros H. unfold truncateResponse.
  destruct (Qle_bool (js_length text) (m * 4)) eqn:E.
  - apply Qle_bool_iff in E. rewrite Qmult_comm in E.
    exfalso. eapply Qlt_not_le; eassumption.
  - unfold substring_to. now rewrite (Qfloor_comp (m * 4) (4 * m) (Qmult_comm _ _)).
Qed.

Lemma truncateResponse_bound (text : string) (m : Q) :
  (0 < m)%Q ->
  (js_length (truncateResponse text m) <= 4 * m + js_length truncation_marker)%Q.
Proof.
  intros Hm.
  assert (H4 : (0 <= 4 * m)%Q).
  { apply Qmult_le_0_compat; [discriminate | now apply Qlt_le_weak]. }
  destruct (Qlt_le_dec (4 * m) (js_length text)) as [Hlong | Hshort].
  - rewrite truncateResponse_long by assumption.
    unfold js_length at 1. rewrite length_append, Nat2Z.inj_add, inject_Z_plus.
    apply Qplus_le_compat; [| apply Qle_refl].
    rewrite length_substring_to by assumption.
    rewrite Z2Nat.id.
    + apply Qfloor_le.
    + rewrite <- (Qfloor_Z 0). now apply Qfloor_resp_le.
  - rewrite truncateResponse_short by assumption.
    rewrite <- (Qplus_0_r (js_length text)).
    apply Qplus_le_compat; [assumption |].
    unfold js_length. rewrite <- (Zle_Qle 0). lia.
Qed.

(** ** src/lib/utils.ts: [parseApiKey] *)




Lemma parseApiKey_from_no_match (before rest : list string)
  (headers : gmap string HeaderValue) :
  (forall k, In k before -> no_match headers k = true) ->
  parseApiKey_from (before ++ rest) headers = parseApiKey_from rest headers.
Proof.
  induction before as [|k before IH]; intros H; [reflexivity |].
  assert (Hrest : parseApiKey_from (before ++ rest) headers = parseApiKey_from rest headers).
  { apply IH. intros k' Hk'. apply H. now right. }
  specialize (H k (or_introl eq_refl)). unfold no_match in H.
  cbn [app parseApiKey_from].
  destruct (headers !! k) as [[s | l] |]; [| | exact Hrest]; cbn [header_truthy].
  - destruct (String.eqb s ""); [exact Hrest |]. cbn [negb orb] in *.
    destruct (String.eqb (toLowerCase k) "authorization"); [| discriminate].
    destruct (match_bearer s); [discriminate | exact Hrest].
  - destruct (String.eqb (toLowerCase k) "authorization"); [| discriminate].
    destruct (head l) as [s |]; [| discriminate].
    destruct (match_bearer s); [discriminate | exact Hrest].
Qed.

Lemma absent_no_match (headers : gmap string HeaderValue) (key : string) :
  headers !! key = None -> no_match headers key = true.
Proof. unfold no_match. now intros ->. Qed.




Lemma custom_key_not_authorization (key : string) :
  In key custom_keys -> String.eqb (toLowerCase key) "authorization" = false.
Proof.
  intros H. repeat (destruct H as [<- | H]; [reflexivity |]). destruct H.
Qed.

Lemma header_key_cases (key : string) :
  In key headerKeys -> ~ In key custom_keys ->
  String.eqb (toLowerCase key) "authorization" = true.
Proof.
  intros H Hn. destruct H as [<- | [<- | H]]; [reflexivity | reflexivity |].
  exfalso. apply Hn. exact H.
Qed.

(** A request of Node carries strings only: the extraction does not throw. *)
Lemma parseApiKey_from_strings (keys : list string) (hdrs : gmap string string) :
  exists key, parseApiKey_from keys (HString <$> hdrs) = Normal key.
Proof.
  induction keys as [|k keys [key IH]]; simpl; [now exists None |].
  rewrite lookup_fmap. destruct (hdrs !! k) as [v|]; simpl; [| now exists key].
  destruct (negb (String.eqb v "")); [| now exists key].
  destruct (String.eqb (toLowerCase k) "authorization"); [| now eexists].
  destruct (match_bearer v); [now eexists | now exists key].
Qed.

Lemma parseApiKey_strings (hdrs : gmap string string) :
  exists key, parseApiKey (HString <$> hdrs) = Normal key.
Proof. apply parseApiKey_from_strings. Qed.

Lemma parseApiKey_no_credential (hdrs : gmap string string) :
  (forall k, In k headerKeys -> hdrs !! k = None) ->
  parseApiKey (HString <$> hdrs) = Normal None.
Proof.
  intros H. unfold parseApiKey.
  rewrite <- (app_nil_r headerKeys).
  rewrite parseApiKey_from_no_match; [reflexivity |].
  intros k Hk. apply absent_no_match. rewrite lookup_fmap, (H k Hk). reflexivity.
Qed.

(** ** The zod schemas *)

Lemma issues_of_merge {A B : Type} (f : ParseReturn (A -> B)) (x : ParseReturn A) :
  issues_of (merge f x) = (issues_of f ++ issues_of x)%list.
Proof.
  destruct f, x; simpl; try reflexivity. now rewrite app_nil_r.
Qed.

Lemma merge_inr {A B : Type} (f : ParseReturn (A -> B)) (x : ParseReturn A) (v : B) :
  merge f x = inr v -> exists g a, f = inr g /\ x = inr a /\ v = g a.
Proof.
  destruct f as [i | g], x as [ix | a]; simpl; intros H; try discriminate.
  injection H as <-. now exists g, a.
Qed.

(** An object reports the issues of all its keys. *)
Lemma parse_shape_issues {A : Type} (shape : ZodShape A) (p : list (string + nat))
  (fields : list (string * json)) :
  issues_of (_parse_shape shape p fields) = shape_issues shape p fields.
Proof.
  unfold shape_issues.
  induction shape as [A build | A B earlier IH key schema]; simpl; [reflexivity |].
  rewrite issues_of_merge, IH, flat_map_app. simpl. now rewrite app_nil_r.
Qed.

(** The issues of a key are among those of the object. *)
Lemma shape_issues_key {A : Type} (shape : ZodShape A) (k : string * {B : Type & ZodType B})
  (p : list (string + nat)) (fields : list (string * json)) (e : ZodIssue) :
  In k (shape_keys shape) -> In e (key_issues p fields k) ->
  In e (shape_issues shape p fields).
Proof.
  intros Hk He. unfold shape_issues. apply in_flat_map. now exists k.
Qed.

Lemma parse_throw {A : Type} (schema : ZodType A) (data : option json)
  (issues : list ZodIssue) :
  _parse schema [] data = inl issues -> parse schema data = Throw (ZodError issues).
Proof. unfold parse. now intros ->. Qed.

Lemma parse_normal {A : Type} (schema : ZodType A) (data : option json) (v : A) :
  parse schema data = Normal v <-> _parse schema [] data = inr v.
Proof.
  unfold parse. destruct (_parse schema [] data); split; intros H;
    try discriminate; congruence.
Qed.

(** ** [join] and [includes] *)

Lemma prefix_append (x s : string) : String.prefix x (x ++ s) = true.
Proof.
  induction x as [|c x IH]; [now destruct s |].
  rewrite append_cons. simpl. destruct (ascii_dec c c); [exact IH | congruence].
Qed.

Lemma prefix_append_l (n s post : string) :
  String.prefix n s = true -> String.prefix n (s ++ post) = true.
Proof.
  revert s. induction n as [|c n IH]; intros s H.
  - now destruct (s ++ post).
  - destruct s as [|d s]; [discriminate |].
    rewrite append_cons. simpl in *. destruct (ascii_dec c d); [now apply IH | discriminate].
Qed.

Lemma includes_cons (c : ascii) (s n : string) :
  includes (String c s) n = String.prefix n (String c s) || includes s n.
Proof. reflexivity. Qed.

Lemma includes_nil (n : string) : includes "" n = String.prefix n "".
Proof. simpl. apply orb_false_r. Qed.

Lemma includes_append_r (pre s n : string) :
  includes s n = true -> includes (pre ++ s) n = true.
Proof.
  intros H. induction pre as [|c pre IH]; [exact H |].
  rewrite append_cons, includes_cons, IH. apply orb_true_r.
Qed.

Lemma includes_append_l (s post n : string) :
  includes s n = true -> includes (s ++ post) n = true.
Proof.
  induction s as [|c s IH]; intros H.
  - rewrite includes_nil in H.
    destruct n; [now destruct post | discriminate].
  - rewrite includes_cons in H. rewrite append_cons, includes_cons.
    apply orb_true_iff in H as [H | H].
    + apply (prefix_append_l _ (String c s) post) in H.
      rewrite append_cons in H. now rewrite H.
    + rewrite (IH H). apply orb_true_r.
Qed.

Lemma includes_middle (pre x post : string) : includes (pre ++ x ++ post) x = true.
Proof.
  apply includes_append_r. apply includes_append_l.
  destruct x as [|c x]; [reflexivity |].
  pose proof (prefix_append (String c x) "") as P. rewrite append_nil_r in P.
  now rewrite includes_cons, P.
Qed.

Lemma join_In (sep x : string) (l : list string) :
  In x l -> exists pre post, join sep l = pre ++ x ++ post.
Proof.
  induction l as [|y l IH]; [intros [] |].
  intros [-> | H].
  - destruct l as [|z l].
    + exists "", "". simpl. now rewrite append_nil_r.
    + exists "", (sep ++ join sep (z :: l)). reflexivity.
  - destruct (IH H) as (pre & post & E). destruct l as [|z l]; [destruct H |].
    exists (y ++ sep ++ pre), post.
    change (join sep (y :: z :: l)) with (y ++ sep ++ join sep (z :: l)).
    now rewrite E, !append_assoc.
Qed.

(** Every issue is spelled out in the message. *)
Lemma invalid_parameters_includes (errors : list ZodIssue) (e : ZodIssue) :
  In e errors -> includes (invalid_parameters errors) (entry e) = true.
Proof.
  intros H. unfold invalid_parameters.
  destruct (join_In ", " (entry e) (map entry errors)) as (pre & post & E).
  { now apply in_map. }
  rewrite E, <- append_assoc. apply includes_middle.
Qed.

(** A character that the needle does not have separates the search. *)
Lemma prefix_separator (c : ascii) (n a b : string) :
  string_forallb (fun x => negb (Ascii.eqb x c)) n = true ->
  String.prefix n (a ++ String c b) = String.prefix n a.
Proof.
  revert a. induction n as [|x n IH]; intros a H.
  - now destruct a.
  - simpl in H. apply andb_true_iff in H as [Hx Hn].
    destruct a as [|y a].
    + rewrite append_nil_l. simpl. destruct (ascii_dec x c) as [-> |]; [| reflexivity].
      rewrite Ascii.eqb_refl in Hx. discriminate.
    + rewrite append_cons. simpl. destruct (ascii_dec x y); [now apply IH | reflexivity].
Qed.

Lemma includes_separator (c : ascii) (n a b : string) :
  string_forallb (fun x => negb (Ascii.eqb x c)) n = true ->
  includes (a ++ String c b) n = includes a n || includes b n.
Proof.
  intros H. induction a as [|y a IH].
  - rewrite append_nil_l, includes_cons, includes_nil.
    rewrite <- (append_nil_l (String c b)), (prefix_separator c n "" b H).
    reflexivity.
  - rewrite append_cons, !includes_cons, IH.
    rewrite <- append_cons, (prefix_separator c n (String y a) b H).
    now rewrite orb_assoc.
Qed.

Lemma includes_first_char (x : ascii) (n s : string) :
  string_forallb (fun y => negb (Ascii.eqb y x)) s = true ->
  includes s (String x n) = false.
Proof.
  induction s as [|y s IH]; intros H; [reflexivity |].
  simpl in H. apply andb_true_iff in H as [Hy Hs].
  rewrite includes_cons, (IH Hs), orb_false_r. simpl.
  destruct (ascii_dec x y) as [-> |]; [| reflexivity].
  rewrite Ascii.eqb_refl in Hy. discriminate.
Qed.

Lemma string_forallb_impl (p q : ascii -> bool) (s : string) :
  (forall c, p c = true -> q c = true) ->
  string_forallb p s = true -> string_forallb q s = true.
Proof.
  intros Hpq. induction s as [|c s IH]; [reflexivity |].
  simpl. intros H. apply andb_true_iff in H as [Hc Hs].
  now rewrite (Hpq c Hc), IH.
Qed.

(** ** [trim] on a line that starts with a visible character *)

Lemma trimEnd_cons (c : ascii) (s : string) :
  is_space c = false -> trimEnd (String c s) = String c (trimEnd s).
Proof.
  intros H. simpl. rewrite H. now destruct (trimEnd s).
Qed.

Lemma trimEnd_forallb (p : ascii -> bool) (s : string) :
  string_forallb p s = true -> string_forallb p (trimEnd s) = true.
Proof.
  induction s as [|c s IH]; [reflexivity |].
  simpl. intros H. apply andb_true_iff in H as [Hc Hs]. specialize (IH Hs).
  destruct (trimEnd s) as [|d t].
  - destruct (is_space c); [reflexivity |]. simpl. now rewrite Hc.
  - simpl in *. now rewrite Hc, IH.
Qed.

Lemma trim_visible (c : ascii) (s : string) :
  is_space c = false -> trim (String c s) = String c (trimEnd s).
Proof.
  intros H. unfold trim. simpl. rewrite H. now apply trimEnd_cons.
Qed.

(** ** The two switches on the registered tools *)

Section Dispatch.
Context {W : World}.

(** The stream binding on a tool of the registry: arguments that its schema
    refuses leave the handler as an [InvalidParams] error. *)
Lemma registry_stream_invalid :
  Forall (fun tool : string * {A : Type & ZodType A} =>
    forall h api args issues,
      _parse (projT2 (snd tool)) [] args = inl issues ->
      CallToolRequest h api (fst tool) args
      = ThrewMcpError InvalidParams (invalid_parameters issues)) registry.
Proof.
  repeat constructor; intros h api args issues Hp; apply parse_throw in Hp;
    unfold CallToolRequest, CallToolRequest_try; simpl in *; now rewrite Hp.
Qed.

Lemma registry_request_invalid :
  Forall (fun tool : string * {A : Type & ZodType A} =>
    forall h api args issues,
      _parse (projT2 (snd tool)) [] (Some args) = inl issues ->
      tools_call_catch (tools_call_try h api (Some (fst tool)) args)
      = ErrorEnvelope InvalidParams (invalid_parameters issues)) registry.
Proof.
  repeat constructor; intros h api args issues Hp; apply parse_throw in Hp;
    unfold tools_call_try; simpl in *; now rewrite Hp.
Qed.

(** The documentation handler sees the API object through its base URL and
    the configuration it refers to. *)
Lemma getNativelinkDocs_ext (params : docs.Params) (h h' : Heap)
  (a a' : api.NativelinkAPI) :
  api.baseUrl a = api.baseUrl a' ->
  deref h (api.config a) = deref h' (api.config a') ->
  docs.getNativelinkDocs params h a = docs.getNativelinkDocs params h' a'.
Proof.
  intros Hb Hc. unfold docs.getNativelinkDocs, api.fetchDocumentation, api.docs_request.
  now rewrite Hb, Hc.
Qed.

Lemma parse_cases {A : Type} (schema : ZodType A) (data : option json) :
  (exists v, parse schema data = Normal v) \/
  (exists issues, parse schema data = Throw (ZodError issues)).
Proof.
  unfold parse. destruct (_parse schema [] data) as [issues | v]; eauto.
Qed.

Lemma getNativelinkDocs_cases (params : docs.Params) (h : Heap) (a : api.NativelinkAPI) :
  (exists text, docs.getNativelinkDocs params h a = Normal text) \/
  docs.getNativelinkDocs params h a = Throw docs.undefined_length.
Proof.
  unfold docs.getNativelinkDocs.
  destruct (api.fetchDocumentation h a _ _); eauto.
Qed.

(** On a registered tool and an argument object both switches do the same,
    when their API objects agree. *)
Lemma registered_same_try (name : string) (args : json) (h h' : Heap)
  (a a' : api.NativelinkAPI) :
  registered name = true ->
  api.baseUrl a = api.baseUrl a' ->
  deref h (api.config a) = deref h' (api.config a') ->
  tools_call_catch (tools_call_try h' a' (Some name) args)
  = stream_envelope (CallToolRequest h a name (Some args)).
Proof.
  intros Hreg Hb Hc.
  unfold CallToolRequest, CallToolRequest_try, tools_call_try, strict_eq.
  unfold registered in Hreg. simpl in Hreg.
  destruct (String.eqb name "get-bazel-config").
  { destruct (parse_cases config.GetBazelConfigSchema (Some args)) as [[v ->] | [i ->]];
      reflexivity. }
  destruct (String.eqb name "get-nativelink-docs").
  { destruct (parse_cases docs.GetNativelinkDocsSchema (Some args)) as [[v ->] | [i ->]];
      [| reflexivity].
    simpl. rewrite (getNativelinkDocs_ext v h h' a a' Hb Hc).
    destruct (getNativelinkDocs_cases v h' a') as [[t ->] | ->]; reflexivity. }
  destruct (String.eqb name "analyze-build-performance").
  { destruct (parse_cases performance.AnalyzeBuildPerformanceSchema (Some args))
      as [[v ->] | [i ->]]; [| reflexivity].
    simpl. now rewrite Hb, Hc. }
  destruct (String.eqb name "generate-deployment-config").
  { destruct (parse_cases deployment.GenerateDeploymentConfigSchema (Some args))
      as [[v ->] | [i ->]]; reflexivity. }
  destruct (String.eqb name "setup-watch-and-build").
  { destruct (parse_cases watch.SetupWatchAndBuildSchema (Some args))
      as [[v ->] | [i ->]]; reflexivity. }
  discriminate.
Qed.

(** The three ways a call to a registered tool ends, in both bindings at once:
    a content, arguments that the schema refuses, or an error that the handler
    throws.  The API objects have to agree only for the tools that use
    them. *)
Lemma registered_outcomes (name : string) (args : json) (h h' : Heap)
  (a a' : api.NativelinkAPI) :
  registered name = true ->
  (uses_the_api name = true ->
   api.baseUrl a = api.baseUrl a' /\ deref h (api.config a) = deref h' (api.config a')) ->
  (exists text,
     CallToolRequest h a name (Some args) = Returned text /\
     tools_call_catch (tools_call_try h' a' (Some name) args) = Content text) \/
  (exists issues,
     CallToolRequest h a name (Some args)
     = ThrewMcpError InvalidParams (invalid_parameters issues) /\
     tools_call_catch (tools_call_try h' a' (Some name) args)
     = ErrorEnvelope InvalidParams (invalid_parameters issues)) \/
  (exists message,
     CallToolRequest h a name (Some args) = ThrewError message /\
     tools_call_catch (tools_call_try h' a' (Some name) args)
     = ErrorEnvelope InternalError message).
Proof.
  intros Hreg Hapi.
  unfold CallToolRequest, CallToolRequest_try, tools_call_try, strict_eq.
  unfold registered in Hreg. simpl in Hreg. unfold uses_the_api in Hapi.
  destruct (String.eqb name "get-bazel-config").
  { destruct (parse_cases config.GetBazelConfigSchema (Some args)) as [[v ->] | [i ->]];
      [left | right; left]; eexists; split; reflexivity. }
  destruct (String.eqb name "get-nativelink-docs").
  { destruct (Hapi eq_refl) as [Hb Hc].
    destruct (parse_cases docs.GetNativelinkDocsSchema (Some args)) as [[v ->] | [i ->]];
      [| right; left; eexists; split; reflexivity].
    simpl. rewrite (getNativelinkDocs_ext v h h' a a' Hb Hc).
    destruct (getNativelinkDocs_cases v h' a') as [[t ->] | ->];
      [left | right; right]; eexists; split; reflexivity. }
  destruct (String.eqb name "analyze-build-performance").
  { destruct (Hapi eq_refl) as [Hb Hc].
    destruct (parse_cases performance.AnalyzeBuildPerformanceSchema (Some args))
      as [[v ->] | [i ->]]; [| right; left; eexists; split; reflexivity].
    simpl. rewrite Hb, Hc. left. eexists. split; reflexivity. }
  destruct (String.eqb name "generate-deployment-config").
  { destruct (parse_cases deployment.GenerateDeploymentConfigSchema (Some args))
      as [[v ->] | [i ->]]; [left | right; left]; eexists; split; reflexivity. }
  destruct (String.eqb name "setup-watch-and-build").
  { destruct (parse_cases watch.SetupWatchAndBuildSchema (Some args))
      as [[v ->] | [i ->]]; [left | right; left]; eexists; split; reflexivity. }
  discriminate.
Qed.

(** Outside the registry the two default cases differ. *)
Lemma unregistered_stream(name : string) (args : option json) (h : Heap)
  (a : api.NativelinkAPI) :
  registered name = false ->
  CallToolRequest h a name args = ThrewMcpError MethodNotFound ("Tool not found: " ++ name).
Proof.
  unfold registered, CallToolRequest, CallToolRequest_try. simpl. intros Hreg.
  repeat (destruct (String.eqb name _); [discriminate |]). reflexivity.
Qed.

Lemma unregistered_request (name : string) (args : json) (h : Heap)
  (a : api.NativelinkAPI) :
  registered name = false ->
  tools_call_catch (tools_call_try h a (Some name) args)
  = ErrorEnvelope InternalError ("Unknown tool: " ++ name).
Proof.
  unfold registered, tools_call_try, strict_eq. simpl. intros Hreg.
  repeat (destruct (String.eqb name _); [discriminate |]). reflexivity.
Qed.

(** ** The listener on a [tools/call] request *)

Lemma listener_tools_call (h : Heap) (hdrs : gmap string string) (name : string)
  (args : json) :
  exists key,
    parseApiKey (HString <$> hdrs) = Normal key /\
    listener h (post_tools_call hdrs name args)
    = (writeHead 200 (Some "application/json")
         (Json (envelope
            (tools_call_catch
               (tools_call_try (snd (request_api h key)) (fst (request_api h key))
                  (Some name) (if js_truthy args then args else JObj []))))),
       snd (request_api h key)).
Proof.
  destruct (parseApiKey_strings hdrs) as [key Hk]. exists key. split; [exact Hk |].
  unfold listener, post_tools_call, tools_call. simpl. rewrite Hk. simpl.
  reflexivity.
Qed.
End Dispatch.

(** The listener on a [tools/call] request, down to the envelope. *)
Ltac on_tools_call h hdrs name args :=
  let key := fresh "key" in
  destruct (listener_tools_call h hdrs name args) as (key & _ & ->);
  unfold envelope_of, writeHead; cbn [fst payload js_truthy].

(** ** The documentation tool *)

(** What validation guarantees of the parameters of the documentation tool. *)
Lemma docs_validated (args : option json) (params : docs.Params) :
  parse docs.GetNativelinkDocsSchema args = Normal params ->
  exists fields,
    args = Some (JObj fields) /\
    property "topic" fields = Some (JStr (docs.topic params)) /\
    Array_includes ["setup"; "migration"; "optimization"; "troubleshooting"; "api"]
      (docs.topic params) = true /\
    match property "maxTokens" fields with
    | None => docs.maxTokens params = None
    | Some v => exists q, v = JNum q /\ docs.maxTokens params = Some q /\ (1000 <= q)%Q
    end.
Proof.
  intros H. apply parse_normal in H.
  destruct args as [[ | | | | | fields] |]; try discriminate.
  exists fields. split; [reflexivity |].
  unfold docs.GetNativelinkDocsSchema in H. cbn [_parse _parse_shape] in H.
  apply merge_inr in H as (g3 & m & H & Hm & ->).
  apply merge_inr in H as (g2 & c & H & Hc & ->).
  apply merge_inr in H as (g1 & t & H & Ht & ->).
  injection H as <-. cbn [docs.topic docs.maxTokens].
  unfold DocsTopic in Ht. cbn [_parse] in Ht.
  destruct (property "topic" fields) as [[ | | | s | | ] |]; try discriminate.
  destruct (existsb (String.eqb s) _) eqn:E; [| discriminate].
  injection Ht as <-. split; [reflexivity |]. split.
  { exact E. }
  cbn [_parse] in Hm.
  destruct (property "maxTokens" fields) as [v |]; [| now injection Hm as <-].
  destruct v as [ | | q | | | ]; try discriminate.
  exists q. split; [reflexivity |].
  unfold number_checks in Hm.
  destruct (Qle_bool (inject_Z 1000) q) eqn:Eq; [| discriminate].
  simpl in Hm. injection Hm as <-. split; [reflexivity |].
  now apply Qle_bool_iff in Eq.
Qed.

Lemma maxTokens_validated (args : option json) (params : docs.Params) :
  parse docs.GetNativelinkDocsSchema args = Normal params ->
  (1000 <= docs.maxTokens_or_5000 params)%Q.
Proof.
  intros H. destruct (docs_validated args params H) as (fields & _ & _ & _ & Hm).
  unfold docs.maxTokens_or_5000.
  destruct (property "maxTokens" fields) as [v |].
  - destruct Hm as (q & _ & -> & Hq).
    destruct (Qeq_bool q 0) eqn:E; [| exact Hq].
    apply Qeq_bool_iff in E. rewrite E in Hq. now apply Qle_bool_iff in Hq.
  - rewrite Hm. now apply Qle_bool_iff.
Qed.

(** The offline text of each topic of the enum is its own entry of [docs]. *)
Lemma offline_topic (topic : string) (context : option string) :
  Array_includes ["setup"; "migration"; "optimization"; "troubleshooting"; "api"] topic
  = true ->
  api.own_property topic api.docs = Some (api.getOfflineDocumentation topic context).
Proof.
  unfold Array_includes. simpl. intros H.
  repeat (apply orb_true_iff in H as [H | H];
          [apply String.eqb_eq in H; subst topic; reflexivity |]).
  discriminate.
Qed.

Section Docs.
Context {W : World}.

(** A failed call is answered with the offline text. *)
Lemma fetchDocumentation_failed (h : Heap) (a : api.NativelinkAPI) (topic : string)
  (context : option string) :
  caught_failure (fetch (api.docs_request h a topic context)) = true ->
  api.fetchDocumentation h a topic context
  = Some (api.getOfflineDocumentation topic context).
Proof.
  unfold api.fetchDocumentation, caught_failure.
  destruct (fetch _) as [reason | response]; [reflexivity |].
  destruct (ok response); simpl.
  - destruct (json_of response); [reflexivity | discriminate].
  - intros _. now destruct (status response =? 404)%Z.
Qed.

Lemma getNativelinkDocs_failed (params : docs.Params) (h : Heap) (a : api.NativelinkAPI) :
  caught_failure (fetch (api.docs_request h a (docs.topic params) (docs.context params)))
  = true ->
  docs.getNativelinkDocs params h a
  = Normal (truncateResponse
              (api.getOfflineDocumentation (docs.topic params) (docs.context params))
              (docs.maxTokens_or_5000 params)).
Proof.
  intros Hf. unfold docs.getNativelinkDocs.
  now rewrite (fetchDocumentation_failed _ _ _ _ Hf).
Qed.
End Docs.

(** ** The store *)

Lemma startup_CONFIG (env : gmap string string) (options : Options) :
  is_Some (startup env options !! CONFIG).
Proof.
  unfold startup, action, load.
  repeat match goal with
         | |- context [if ?b then _ else _] => destruct b
         end;
    rewrite ?lookup_alter_eq, ?lookup_singleton_eq; simpl; eauto.
Qed.

Lemma request_api_CONFIG (h : gmap nat NativelinkConfig) (key : option string) :
  is_Some (h !! CONFIG) -> snd (request_api h key) !! CONFIG = h !! CONFIG.
Proof.
  intros Hc. unfold request_api. simpl.
  apply lookup_insert_ne. intros E.
  apply (is_fresh (dom h)). rewrite E. now apply elem_of_dom.
Qed.

Lemma request_api_object (h : gmap nat NativelinkConfig) (key : option string) :
  deref (snd (request_api h key)) (api.config (fst (request_api h key)))
  = set_apiKey (str_or_undef key (apiKey (deref h CONFIG))) (deref h CONFIG).
Proof.
  unfold request_api, deref. simpl. now rewrite lookup_insert_eq.
Qed.

Lemma request_api_baseUrl (h : gmap nat NativelinkConfig) (key : option string) :
  api.baseUrl (fst (request_api h key)) = api.baseUrl (api.constructor h CONFIG).
Proof.
  unfold request_api, api.constructor, deref. simpl. now rewrite lookup_insert_eq.
Qed.

Section Store.
Context {W : World}.

(** A request leaves the store as it is, or adds the object of its API. *)
Lemma listener_store (h : gmap nat NativelinkConfig) (req : IncomingMessage) :
  snd (listener h req) = h \/ exists key, snd (listener h req) = snd (request_api h key).
Proof.
  unfold listener.
  destruct (String.eqb (method req) "OPTIONS"); [now left |].
  destruct (String.eqb (url req) "/ping"); [now left |].
  destruct (String.eqb (url req) "/mcp" && String.eqb (method req) "POST"); [| now left].
  destruct (body req) as [| request]; [now left |].
  destruct (strict_eq (rpc_method request) "tools/list"); [now left |].
  destruct (strict_eq (rpc_method request) "tools/call"); [| now left].
  unfold tools_call.
  destruct (parseApiKey (HString <$> headers req)) as [key | e]; [| now left].
  right. exists key. simpl. now destruct (request_api h key).
Qed.

Lemma listener_CONFIG (h : gmap nat NativelinkConfig) (req : IncomingMessage) :
  is_Some (h !! CONFIG) -> snd (listener h req) !! CONFIG = h !! CONFIG.
Proof.
  intros Hc. destruct (listener_store h req) as [-> | [key ->]]; [reflexivity |].
  now apply request_api_CONFIG.
Qed.

(** [CONFIG] is the same object after any history of requests. *)
Lemma serve_CONFIG (history : list IncomingMessage) (h : gmap nat NativelinkConfig) :
  is_Some (h !! CONFIG) -> serve h history !! CONFIG = h !! CONFIG.
Proof.
  revert h. induction history as [| req history IH]; intros h Hc; [reflexivity |].
  unfold serve. simpl. fold (serve (snd (listener h req)) history).
  rewrite IH; rewrite listener_CONFIG; auto.
Qed.

Lemma serve_deref (history : list IncomingMessage) (h : gmap nat NativelinkConfig) :
  is_Some (h !! CONFIG) -> deref (serve h history) CONFIG = deref h CONFIG.
Proof. intros Hc. unfold deref. now rewrite serve_CONFIG. Qed.
End Store.

Lemma set_apiKey_same (c : NativelinkConfig) (v : option string) :
  v = apiKey c -> set_apiKey v c = c.
Proof. intros ->. now destruct c. Qed.

(** ** The generated Bazel configuration *)

Lemma includes_join (n : string) (ls : list string) :
  string_forallb (fun x => negb (Ascii.eqb x "010")) n = true ->
  n <> "" ->
  includes (join LF ls) n = existsb (fun l => includes l n) ls.
Proof.
  intros Hlf Hne. induction ls as [| x ls IH].
  - simpl. destruct n; [congruence | reflexivity].
  - destruct ls as [| y r].
    + simpl. now rewrite orb_false_r.
    + change (join LF (x :: y :: r)) with (x ++ String "010" (join LF (y :: r))).
      rewrite (includes_separator _ _ _ _ Hlf), IH. reflexivity.
Qed.

Lemma includes_formatBazelrc (n : string) (lines : list string) :
  string_forallb (fun x => negb (Ascii.eqb x "010")) n = true ->
  n <> "" ->
  includes (formatBazelrc lines) n
  = existsb (fun l => includes l n) (filter (fun line => line <> "") (map trim lines)).
Proof. intros Hlf Hne. unfold formatBazelrc. now apply includes_join. Qed.

Lemma iso_char_not_j (c : ascii) : iso_char c = true -> negb (Ascii.eqb c "j") = true.
Proof.
  intros H. destruct (Ascii.eqb c "j") eqn:E; [| reflexivity].
  apply Ascii.eqb_eq in E. subst c. discriminate H.
Qed.

(** The line of the time stamp has no [j]. *)
Lemma stamp_line_no_java (stamp : string) :
  is_iso_timestamp stamp = true ->
  includes (trim ("# " ++ stamp)) "java_language_version" = false.
Proof.
  intros H.
  change ("# " ++ stamp) with (String "#" (String " " stamp)).
  rewrite trim_visible by reflexivity.
  rewrite includes_cons.
  replace (String.prefix _ _) with false by reflexivity.
  rewrite orb_false_l.
  apply includes_first_char. apply trimEnd_forallb.
  change (string_forallb (fun y => negb (Ascii.eqb y "j")) stamp = true).
  apply (string_forallb_impl iso_char); [apply iso_char_not_j | exact H].
Qed.

Lemma generateBazelConfig_rust {W : World} :
  is_iso_timestamp toISOString_now = true ->
  includes (config.generateBazelConfig rust_params) "build --remote_cache=" = true /\
  includes (config.generateBazelConfig rust_params) "@rules_rust" = true /\
  includes (config.generateBazelConfig rust_params) "java_language_version" = false.
Proof.
  intros Hiso.
  assert (Hlines : exists tail,
    config.generateBazelConfig rust_params
    = formatBazelrc ([ "# Nativelink Cloud Configuration"; "# Generated for rust project" ]
                     ++ [ ("# " ++ toISOString_now)%string ] ++ tail)%list /\
    existsb (fun l => includes l "build --remote_cache=")
      (filter (fun line => line <> "") (map trim tail)) = true /\
    existsb (fun l => includes l "@rules_rust")
      (filter (fun line => line <> "") (map trim tail)) = true /\
    existsb (fun l => includes l "java_language_version")
      (filter (fun line => line <> "") (map trim tail)) = false).
  { eexists. split; [reflexivity |]. vm_compute. auto. }
  destruct Hlines as (tail & -> & H1 & H2 & H3).
  rewrite !includes_formatBazelrc by (reflexivity || discriminate).
  rewrite !map_app, !filter_app, !existsb_app, H1, H2, H3.
  rewrite !orb_true_r, !orb_false_r.
  split; [reflexivity |]. split; [reflexivity |].
  apply orb_false_iff. split; [vm_compute; reflexivity |].
  cbn [map]. generalize (stamp_line_no_java _ Hiso).
  generalize (trim ("# " ++ toISOString_now)). intros line Hline.
  rewrite filter_cons, filter_nil. destruct (decide (line <> "")); [| reflexivity].
  simpl. now rewrite Hline.
Qed.

(** ** Helpers shared by the claims on the documentation tool *)

Lemma parse_object_offending {A : Type} (shape : ZodShape A) (fields : list (string * json)) :
  shape_issues shape [] fields <> [] ->
  _parse (ZodObject shape) [] (Some (JObj fields)) = inl (shape_issues shape [] fields).
Proof.
  intros Hne. pose proof (parse_shape_issues shape [] fields) as E.
  cbn [_parse]. destruct (_parse_shape shape [] fields) as [i | v];
    simpl in E; congruence.
Qed.

Section Both.
Context {W : World}.

(** Both bindings on arguments that a registered schema refuses. *)
Lemma invalid_both (name : string) (A : Type) (schema : ZodType A)
  (fields : list (string * json)) (issues : list ZodIssue)
  (h h' : gmap nat NativelinkConfig) (a : api.NativelinkAPI) (hdrs : gmap string string) :
  In (name, existT A schema) registry ->
  _parse schema [] (Some (JObj fields)) = inl issues ->
  stream_envelope (CallToolRequest h a name (Some (JObj fields)))
  = ErrorEnvelope InvalidParams (invalid_parameters issues) /\
  envelope_of (fst (listener h' (post_tools_call hdrs name (JObj fields))))
  = Some (ErrorEnvelope InvalidParams (invalid_parameters issues)).
Proof.
  intros Hin Hp. apply list_elem_of_In in Hin. split.
  - pose proof registry_stream_invalid as F. rewrite Forall_forall in F.
    pose proof (F _ Hin h a (Some (JObj fields)) issues Hp) as E.
    cbn [fst] in E. now rewrite E.
  - on_tools_call h' hdrs name (JObj fields).
    pose proof registry_request_invalid as F. rewrite Forall_forall in F.
    pose proof (F _ Hin (snd (request_api h' key)) (fst (request_api h' key))
                  (JObj fields) issues Hp) as E.
    cbn [fst] in E. now rewrite E.
Qed.

(** Both bindings on validated arguments of the documentation tool. *)
Lemma docs_stream (args : option json) (params : docs.Params)
  (h : gmap nat NativelinkConfig) (a : api.NativelinkAPI) :
  parse docs.GetNativelinkDocsSchema args = Normal params ->
  CallToolRequest h a "get-nativelink-docs" args
  = CallToolRequest_catch (docs.getNativelinkDocs params h a).
Proof.
  intros Hp. unfold CallToolRequest, CallToolRequest_try. simpl.
  rewrite Hp. simpl. now destruct (docs.getNativelinkDocs params h a).
Qed.

Lemma docs_request_binding (fields : list (string * json)) (params : docs.Params)
  (h : gmap nat NativelinkConfig) (hdrs : gmap string string) :
  parse docs.GetNativelinkDocsSchema (Some (JObj fields)) = Normal params ->
  exists h' a,
    envelope_of (fst (listener h (post_tools_call hdrs "get-nativelink-docs" (JObj fields))))
    = Some (tools_call_catch (docs.getNativelinkDocs params h' a)).
Proof.
  intros Hp.
  on_tools_call h hdrs "get-nativelink-docs" (JObj fields).
  exists (snd (request_api h key)), (fst (request_api h key)).
  unfold tools_call_try. simpl. rewrite Hp. reflexivity.
Qed.
End Both.

(** Outside the failures above: a 2xx response whose JSON body has no
    [content] makes the handler throw, which the request binding reports as an
    [InternalError]. *)
Remark getNativelinkDocs_without_content {W : World} (params : docs.Params)
  (h : gmap nat NativelinkConfig) (a : api.NativelinkAPI) (text : string) :
  fetch (api.docs_request h a (docs.topic params) (docs.context params))
  = Resolved {| status := 200; statusText := text; json_of := JsonBody None |} ->
  docs.getNativelinkDocs params h a = Throw docs.undefined_length.
Proof.
  intros Hf. unfold docs.getNativelinkDocs, api.fetchDocumentation. now rewrite Hf.
Qed.

(** * The claims *)

(** C10.  For every text and every positive [maxTokens] m, [truncateResponse]
    returns the text unchanged when its length is at most 4 m, and otherwise
    exactly its first 4 m characters (floor of 4 m when m is not an integer)
    followed by the marker, a line feed twice and
    [[Response truncated for length]]; hence a result of the documentation
    handler called with m is at most 4 m plus the length of the marker long. *)
Theorem truncateResponse_spec (text : string) (m : Q) :
  (0 < m)%Q ->
  ((js_length text <= 4 * m)%Q -> truncateResponse text m = text) /\
  ((4 * m < js_length text)%Q ->
     truncateResponse text m
     = String.substring 0 (Z.to_nat (Qfloor (4 * m))) text ++ truncation_marker /\
     String.length (String.substring 0 (Z.to_nat (Qfloor (4 * m))) text)
     = Z.to_nat (Qfloor (4 * m))) /\
  truncation_marker = LF ++ LF ++ "[Response truncated for length]" /\
  (forall (W : World) (params : docs.Params) (h : gmap nat NativelinkConfig)
          (a : api.NativelinkAPI) (out : string),
     docs.maxTokens_or_5000 params = m ->
     docs.getNativelinkDocs params h a = Normal out ->
     (js_length out <= 4 * m + js_length truncation_marker)%Q).
Proof.
  intros Hm.
  assert (H4 : (0 <= 4 * m)%Q).
  { apply Qmult_le_0_compat; [discriminate | now apply Qlt_le_weak]. }
  split; [apply truncateResponse_short |]. split.
  { intros Hlong. split; [now apply truncateResponse_long |].
    now apply (length_substring_to text (4 * m)). }
  split; [reflexivity |].
  intros W params h a out Hp Hout. unfold docs.getNativelinkDocs in Hout.
  destruct (api.fetchDocumentation h a _ _) as [d |]; [| discriminate].
  injection Hout as <-. rewrite Hp. now apply truncateResponse_bound.
Qed.

Lemma truncateResponse_spec_witness :
  truncateResponse "hello world" 2 = "hello wo" ++ truncation_marker
  /\ truncateResponse "hello" 2 = "hello".
Proof.
  destruct (truncateResponse_spec "hello world" 2 eq_refl) as (_ & Hlong & _).
  destruct (truncateResponse_spec "hello" 2 eq_refl) as (Hshort & _).
  split.
  - exact (proj1 (Hlong eq_refl)).
  - apply Hshort. vm_compute. discriminate.
Defined.



(** C9.  The API key that a request brings in its headers stays with that
    request: whatever requests were served, [CONFIG] is the object it was at
    startup, its [apiKey] included, and a later [tools/call] without credential
    headers works with the startup key, which is the one it sends. *)
Theorem request_credential_is_local {W : World} (env : gmap string string)
  (options : Options) (history : list IncomingMessage) (req : IncomingMessage) :
  let h0 := startup env options in
  let h' := snd (listener (serve h0 history) req) in
  is_Some (h0 !! CONFIG) /\
  h' !! CONFIG = h0 !! CONFIG /\
  apiKey (deref h' CONFIG) = apiKey (deref h0 CONFIG) /\
  forall (hdrs : gmap string string) (name : string) (args : json),
    (forall k, In k headerKeys -> hdrs !! k = None) ->
    exists api2 h2,
      request_api h' None = (api2, h2) /\
      listener h' (post_tools_call hdrs name args)
      = (writeHead 200 (Some "application/json")
           (Json (envelope
              (tools_call_catch
                 (tools_call_try h2 api2 (Some name)
                    (if js_truthy args then args else JObj []))))), h2) /\
      apiKey (deref h2 (api.config api2)) = apiKey (deref h0 CONFIG) /\
      forall topic context,
        requestHeaders (api.docs_request h2 api2 topic context)
        = [ ("Authorization", "Bearer " ++ api.template (apiKey (deref h0 CONFIG)));
            ("Content-Type", "application/json") ].
Proof.
  intros h0 h'.
  assert (H0 : is_Some (h0 !! CONFIG)) by apply startup_CONFIG.
  assert (Hh : serve h0 history !! CONFIG = h0 !! CONFIG) by now apply serve_CONFIG.
  assert (H' : h' !! CONFIG = h0 !! CONFIG).
  { unfold h'. rewrite listener_CONFIG; [exact Hh | now rewrite Hh]. }
  assert (Hd : deref h' CONFIG = deref h0 CONFIG) by (unfold deref; now rewrite H').
  split; [exact H0 |]. split; [exact H' |]. split; [now rewrite Hd |].
  intros hdrs name args Hnone.
  exists (fst (request_api h' None)), (snd (request_api h' None)).
  split; [now destruct (request_api h' None) |].
  destruct (listener_tools_call h' hdrs name args) as (key & Hkey & Hl).
  rewrite (parseApiKey_no_credential hdrs Hnone) in Hkey. injection Hkey as <-.
  split; [exact Hl |].
  assert (Ho : deref (snd (request_api h' None)) (api.config (fst (request_api h' None)))
               = deref h0 CONFIG).
  { rewrite request_api_object, Hd. now apply set_apiKey_same. }
  split; [now rewrite Ho |].
  intros topic context. unfold api.docs_request. cbn [requestHeaders]. now rewrite Ho.
Qed.

Lemma request_credential_is_local_witness :
  let env : gmap string string := <[ "NATIVELINK_API_KEY" := "startup-key" ]> ∅ in
  let visitor :=
    post_tools_call (<[ "x-api-key" := "visitor-key" ]> ∅) "get-nativelink-docs" setup_args in
  let h' := snd (listener (W := unreachable)
                   (serve (W := unreachable) (startup env no_options) [visitor]) visitor) in
  apiKey (deref h' CONFIG) = Some "startup-key" /\
  exists api2 h2,
    request_api h' None = (api2, h2) /\
    requestHeaders (api.docs_request h2 api2 "setup" None)
    = [ ("Authorization", "Bearer startup-key"); ("Content-Type", "application/json") ].
Proof.
  intros env visitor h'.
  destruct (request_credential_is_local (W := unreachable) env no_options [visitor] visitor)
    as (_ & _ & Hkey & Hnext).
  split; [exact Hkey |].
  destruct (Hnext ∅ "get-nativelink-docs" setup_args) as (api2 & h2 & Hr & _ & _ & Hsend).
  - intros k _. apply lookup_empty.
  - exists api2, h2. split; [exact Hr |]. exact (Hsend "setup" None).
Defined.

(** C1, as amended.  For each of the five registered tools and every argument
    object, the request binding, after any history of requests, and the stream
    binding of a process started alike end the same call the same way: with the
    same content, or with an error of the same kind.  For the three tools that
    are not given the API object this holds whatever credential the request
    brings; for the other two when it brings none other than the one of the
    process.  The errors are not written alike: a validation error is
    ['InvalidParams'] with the message [Invalid parameters: ...] in the
    request binding, and [-32602] with [MCP error -32602: Invalid parameters:
    ...] on the stream; an error thrown by a handler is ['InternalError'] in
    the one and [-32603] in the other, with the same message. *)
Theorem bindings_agree_on_registered_tools {W : World} (env : gmap string string)
  (options : Options) (history : list IncomingMessage) (hdrs : gmap string string)
  (name : string) (fields : list (string * json)) (key : option string) :
  registered name = true ->
  parseApiKey (HString <$> hdrs) = Normal key ->
  (uses_the_api name = true ->
   str_or_undef key (apiKey (deref (startup env options) CONFIG))
   = apiKey (deref (startup env options) CONFIG)) ->
  let reply :=
    stream_reply
      (CallToolRequest (startup env options) (startStdioServer (startup env options))
         name (Some (JObj fields))) in
  exists e,
    envelope_of (fst (listener (serve (startup env options) history)
                        (post_tools_call hdrs name (JObj fields)))) = Some e /\
    match e with
    | Content text => reply = JSONRPCResult text
    | ErrorEnvelope InvalidParams message =>
        reply = JSONRPCError (-32602) ("MCP error -32602: " ++ message)
    | ErrorEnvelope InternalError message => reply = JSONRPCError (-32603) message
    | ErrorEnvelope MethodNotFound _ => False
    end.
Proof.
  intros Hreg Hkey Hsame reply. subst reply. set (h0 := startup env options) in *.
  assert (H0 : is_Some (h0 !! CONFIG)) by apply startup_CONFIG.
  destruct (listener_tools_call (serve h0 history) hdrs name (JObj fields))
    as (key' & Hkey' & ->).
  rewrite Hkey in Hkey'. injection Hkey' as <-.
  unfold envelope_of, writeHead. cbn [fst payload js_truthy].
  destruct (registered_outcomes name (JObj fields) h0
              (snd (request_api (serve h0 history) key)) (startStdioServer h0)
              (fst (request_api (serve h0 history) key)) Hreg)
    as [(text & -> & ->) | [(issues & -> & ->) | (message & -> & ->)]].
  - intros Huses. split.
    + rewrite request_api_baseUrl. unfold startStdioServer, createNativelinkServer.
      unfold api.constructor. cbn [api.baseUrl]. now rewrite serve_deref.
    + rewrite request_api_object, serve_deref by exact H0.
      unfold startStdioServer, createNativelinkServer, api.constructor.
      cbn [api.config]. symmetry. apply set_apiKey_same. now apply Hsame.
  - eexists. split; reflexivity.
  - eexists. split; reflexivity.
  - eexists. split; reflexivity.
Qed.

Lemma bindings_agree_on_registered_tools_witness :
  exists e,
    envelope_of (fst (listener (W := unreachable) (serve (W := unreachable)
                                                     (startup ∅ no_options) [])
                        (post_tools_call (<[ "x-api-key" := "visitor-key" ]> ∅)
                           "get-bazel-config" rust_args))) = Some e /\
    match e with
    | Content text =>
        stream_reply
          (CallToolRequest (W := unreachable) (startup ∅ no_options)
             (startStdioServer (startup ∅ no_options)) "get-bazel-config" (Some rust_args))
        = JSONRPCResult text
    | ErrorEnvelope InvalidParams message =>
        stream_reply
          (CallToolRequest (W := unreachable) (startup ∅ no_options)
             (startStdioServer (startup ∅ no_options)) "get-bazel-config" (Some rust_args))
        = JSONRPCError (-32602) ("MCP error -32602: " ++ message)
    | ErrorEnvelope InternalError message =>
        stream_reply
          (CallToolRequest (W := unreachable) (startup ∅ no_options)
             (startStdioServer (startup ∅ no_options)) "get-bazel-config" (Some rust_args))
        = JSONRPCError (-32603) message
    | ErrorEnvelope MethodNotFound _ => False
    end.
Proof.
  apply (bindings_agree_on_registered_tools (W := unreachable) ∅ no_options []
           (<[ "x-api-key" := "visitor-key" ]> ∅) "get-bazel-config" _
           (Some "visitor-key")); [reflexivity | reflexivity | discriminate].
Defined.

(** C1, as stated, fails three times.  A request that brings its own key makes
    the request binding call the documentation service with that key, and the
    service may answer it otherwise than the key of the process; the two
    default cases answer an unknown tool with different codes and messages; and
    arguments that a schema refuses give two different messages, the one of the
    stream behind [MCP error -32602: ]. *)
Lemma bindings_differ :
  ~ (exists e,
       envelope_of (fst (listener (W := keyed) (startup ∅ no_options)
                           (post_tools_call (<[ "x-api-key" := "secret" ]> ∅)
                              "get-nativelink-docs" setup_args))) = Some e /\
       same_envelope
         (stream_reply
            (CallToolRequest (W := keyed) (startup ∅ no_options)
               (startStdioServer (startup ∅ no_options)) "get-nativelink-docs"
               (Some setup_args))) e)
  /\
  ~ (exists e,
       envelope_of (fst (listener (W := unreachable) (startup ∅ no_options)
                           (post_tools_call ∅ "nonexistent" (JObj [])))) = Some e /\
       same_envelope
         (stream_reply
            (CallToolRequest (W := unreachable) (startup ∅ no_options)
               (startStdioServer (startup ∅ no_options)) "nonexistent"
               (Some (JObj [])))) e)
  /\
  ~ (exists e,
       envelope_of (fst (listener (W := unreachable) (startup ∅ no_options)
                           (post_tools_call ∅ "get-nativelink-docs"
                              (JObj [("topic", JStr "setup"); ("maxTokens", JNum 10)]))))
       = Some e /\
       same_envelope
         (stream_reply
            (CallToolRequest (W := unreachable) (startup ∅ no_options)
               (startStdioServer (startup ∅ no_options)) "get-nativelink-docs"
               (Some (JObj [("topic", JStr "setup"); ("maxTokens", JNum 10)])))) e).
Proof.
  split; [| split]; intros (e & He & Hs); vm_compute in He; injection He as <-;
    vm_compute in Hs.
  - discriminate Hs.
  - destruct Hs as [Hcode _]. discriminate Hcode.
  - destruct Hs as [_ Hmessage]. discriminate Hmessage.
Qed.

(** C2.  On the name of no registered tool, here [nonexistent], the stream
    binding answers [MethodNotFound] with the name in the message; the request
    binding answers [InternalError] where the claim has [MethodNotFound]. *)
Theorem unknown_tool_default_cases :
  forall (W : World) (h : gmap nat NativelinkConfig) (a : api.NativelinkAPI)
         (hdrs : gmap string string) (args : json),
    stream_envelope (CallToolRequest h a "nonexistent" (Some args))
    = ErrorEnvelope MethodNotFound "Tool not found: nonexistent" /\
    envelope_of (fst (listener h (post_tools_call hdrs "nonexistent" args)))
    = Some (ErrorEnvelope InternalError "Unknown tool: nonexistent").
Proof.
  intros W h a hdrs args. split.
  - now rewrite unregistered_stream.
  - on_tools_call h hdrs "nonexistent" args.
    now rewrite unregistered_request.
Qed.

(** C4.  When the arguments of a call to a registered tool violate its schema,
    in one key or in several at once, both bindings answer [InvalidParams]
    with the same message: the issues of every key of the schema, key after
    key, each written [path: message] and the entries joined by [", "], behind
    [Invalid parameters: ]; every issue of every offending key is in it. *)
Theorem invalid_params_lists_every_issue {W : World} (name : string) (A : Type)
  (shape : ZodShape A) (fields : list (string * json))
  (h : gmap nat NativelinkConfig) (a : api.NativelinkAPI) (hdrs : gmap string string) :
  In (name, existT A (ZodObject shape)) registry ->
  shape_issues shape [] fields <> [] ->
  let issues := flat_map (key_issues [] fields) (shape_keys shape) in
  let text := "Invalid parameters: " ++ join ", " (map entry issues) in
  stream_envelope (CallToolRequest h a name (Some (JObj fields)))
  = ErrorEnvelope InvalidParams text /\
  envelope_of (fst (listener h (post_tools_call hdrs name (JObj fields))))
  = Some (ErrorEnvelope InvalidParams text) /\
  (forall e, entry e = join "." (map path_element (path e)) ++ ": " ++ message e) /\
  (forall k e, In k (shape_keys shape) -> In e (key_issues [] fields k) ->
     In e issues /\ includes text (entry e) = true).
Proof.
  intros Hin Hne issues text.
  pose proof (parse_object_offending shape fields Hne) as Hp.
  destruct (invalid_both name A (ZodObject shape) fields _ h h a hdrs Hin Hp)
    as [Hs Hr].
  split; [exact Hs |]. split; [exact Hr |]. split; [reflexivity |].
  intros k e Hk He.
  assert (Hi : In e issues) by (apply in_flat_map; now exists k).
  split; [exact Hi |]. now apply invalid_parameters_includes.
Qed.

Lemma invalid_params_lists_every_issue_witness :
  stream_envelope
    (CallToolRequest (W := unreachable) ∅ (api.constructor ∅ CONFIG) "get-nativelink-docs"
       (Some (JObj [("topic", JStr "setp"); ("maxTokens", JNum 10)])))
  = ErrorEnvelope InvalidParams
      "Invalid parameters: topic: Invalid enum value. Expected 'setup' | 'migration' | 'optimization' | 'troubleshooting' | 'api', received 'setp', maxTokens: Number must be greater than or equal to 1000".
Proof.
  let schema := eval cbv delta [docs.GetNativelinkDocsSchema]
                  in docs.GetNativelinkDocsSchema in
  match schema with
  | ZodObject ?shape =>
      refine (proj1 (invalid_params_lists_every_issue (W := unreachable)
                       "get-nativelink-docs" docs.Params shape
                       [("topic", JStr "setp"); ("maxTokens", JNum 10)]
                       ∅ (api.constructor ∅ CONFIG) ∅ _ _))
  end.
  - right; left; reflexivity.
  - vm_compute. discriminate.
Defined.

(** C6, as amended.  The listener answers every [OPTIONS] request with 204,
    the CORS headers and no body, and [/ping] with 200 and the plain text
    [pong] under every other method, [GET] or not.  A [POST /mcp] whose body
    is a [tools/call] gets 200 with the envelope of the call as JSON, a content
    or an error alike; one whose body is a [tools/list] gets 200 with the list,
    one with another method in its body 404, and one whose body is not JSON
    500.  Every other route gets 404. *)
Theorem listener_routes {W : World} (h : gmap nat NativelinkConfig) (req : IncomingMessage) :
  (method req = "OPTIONS" ->
   fst (listener h req)
   = {| statusCode := 204; responseHeaders := cors; payload := NoBody |}) /\
  (method req <> "OPTIONS" -> url req = "/ping" ->
   fst (listener h req)
   = {| statusCode := 200;
        responseHeaders := (cors ++ [("Content-Type", "text/plain")])%list;
        payload := Plain "pong" |}) /\
  (method req = "POST" -> url req = "/mcp" ->
   match body req with
   | Unparseable =>
       fst (listener h req)
       = {| statusCode := 500;
            responseHeaders := (cors ++ [("Content-Type", "application/json")])%list;
            payload := Json (error_text "Internal server error") |}
   | Parsed request =>
       (rpc_method request = Some "tools/call" ->
        exists e h',
          tools_call h req request = Normal (e, h') /\
          listener h req
          = ({| statusCode := 200;
                responseHeaders := (cors ++ [("Content-Type", "application/json")])%list;
                payload := Json (envelope e) |}, h')) /\
       (rpc_method request = Some "tools/list" ->
        fst (listener h req)
        = {| statusCode := 200;
             responseHeaders := (cors ++ [("Content-Type", "application/json")])%list;
             payload := Json tools_list |}) /\
       (rpc_method request <> Some "tools/call" ->
        rpc_method request <> Some "tools/list" ->
        fst (listener h req)
        = {| statusCode := 404;
             responseHeaders := (cors ++ [("Content-Type", "application/json")])%list;
             payload := Json (error_text "Method not found") |})
   end) /\
  (method req <> "OPTIONS" -> url req <> "/ping" ->
   ~ (url req = "/mcp" /\ method req = "POST") ->
   fst (listener h req)
   = {| statusCode := 404;
        responseHeaders := (cors ++ [("Content-Type", "text/plain")])%list;
        payload := Plain "Not found" |}) /\
  cors = [ ("Access-Control-Allow-Origin", "*");
           ("Access-Control-Allow-Methods", "GET, POST, OPTIONS");
           ("Access-Control-Allow-Headers", "*") ].
Proof.
  split; [| split; [| split; [| split; [| reflexivity]]]].
  - intros Hm. unfold listener. rewrite Hm. reflexivity.
  - intros Hm Hu. unfold listener. apply String.eqb_neq in Hm. rewrite Hm, Hu. reflexivity.
  - intros Hm Hu. unfold listener. rewrite Hm, Hu.
    cbn [String.eqb Ascii.eqb Bool.eqb andb].
    destruct (body req) as [| request]; [reflexivity |].
    split; [| split].
    + intros Hr. rewrite Hr. cbn [strict_eq String.eqb Ascii.eqb Bool.eqb].
      unfold tools_call.
      destruct (parseApiKey_strings (headers req)) as [key ->].
      cbn [bind]. destruct (request_api h key) as [a h']. eexists _, _.
      split; reflexivity.
    + intros Hr. rewrite Hr. reflexivity.
    + intros Hcall Hlist. unfold strict_eq.
      destruct (rpc_method request) as [m |]; [| reflexivity].
      destruct (String.eqb m "tools/list") eqn:E1.
      { apply String.eqb_eq in E1. congruence. }
      destruct (String.eqb m "tools/call") eqn:E2; [| reflexivity].
      apply String.eqb_eq in E2. congruence.
  - intros Hm Hu Hr. unfold listener.
    apply String.eqb_neq in Hm. apply String.eqb_neq in Hu. rewrite Hm, Hu.
    destruct (String.eqb (url req) "/mcp") eqn:E1;
      destruct (String.eqb (method req) "POST") eqn:E2; try reflexivity.
    exfalso. apply Hr. split; now apply String.eqb_eq.
Qed.

Lemma listener_routes_witness :
  statusCode (fst (listener (W := unreachable) ∅
                     {| method := "OPTIONS"; url := "/mcp"; headers := ∅;
                        body := Unparseable |})) = 204%Z
  /\ payload (fst (listener (W := unreachable) ∅
                     {| method := "DELETE"; url := "/ping"; headers := ∅;
                        body := Unparseable |})) = Plain "pong"
  /\ (exists e h',
        tools_call (W := unreachable) ∅ (post_tools_call ∅ "nonexistent" (JObj []))
          {| rpc_method := Some "tools/call";
             params := Some {| name := Some "nonexistent";
                               arguments := Some (JObj []) |} |}
        = Normal (e, h') /\
        listener (W := unreachable) ∅ (post_tools_call ∅ "nonexistent" (JObj []))
        = ({| statusCode := 200;
              responseHeaders := (cors ++ [("Content-Type", "application/json")])%list;
              payload := Json (envelope e) |}, h'))
  /\ statusCode (fst (listener (W := unreachable) ∅
                        {| method := "GET"; url := "/mcp"; headers := ∅;
                           body := Unparseable |})) = 404%Z.
Proof.
  split; [| split; [| split]].
  - now rewrite (proj1 (listener_routes (W := unreachable) ∅
                          {| method := "OPTIONS"; url := "/mcp"; headers := ∅;
                             body := Unparseable |}) eq_refl).
  - rewrite (proj1 (proj2 (listener_routes (W := unreachable) ∅
                          {| method := "DELETE"; url := "/ping"; headers := ∅;
                             body := Unparseable |})));
      [reflexivity | discriminate | reflexivity].
  - exact (proj1 (proj1 (proj2 (proj2 (listener_routes (W := unreachable) ∅
                          (post_tools_call ∅ "nonexistent" (JObj [])))))
                    eq_refl eq_refl) eq_refl).
  - rewrite (proj1 (proj2 (proj2 (proj2 (listener_routes (W := unreachable) ∅
                          {| method := "GET"; url := "/mcp"; headers := ∅;
                             body := Unparseable |})))));
      [reflexivity | discriminate | discriminate |].
    intros [_ Hm]. discriminate Hm.
Defined.

(** C6, as stated, fails on two requests.  [POST /ping] is none of the routes
    that the claim lists, and it is answered with 200 and [pong], not with 404:
    the listener looks at the URL only.  And a [POST /mcp] whose body is not
    JSON is answered with 500, not with 200 and an envelope. *)
Lemma other_routes_differ :
  (statusCode (fst (listener (W := unreachable) ∅
                      {| method := "POST"; url := "/ping"; headers := ∅;
                         body := Unparseable |})) <> 404%Z /\
   fst (listener (W := unreachable) ∅
          {| method := "POST"; url := "/ping"; headers := ∅; body := Unparseable |})
   = writeHead 200 (Some "text/plain") (Plain "pong")) /\
  (statusCode (fst (listener (W := unreachable) ∅
                      {| method := "POST"; url := "/mcp"; headers := ∅;
                         body := Unparseable |})) <> 200%Z /\
   fst (listener (W := unreachable) ∅
          {| method := "POST"; url := "/mcp"; headers := ∅; body := Unparseable |})
   = writeHead 500 (Some "application/json") (Json (error_text "Internal server error"))).
Proof.
  split; (split; [vm_compute; discriminate | reflexivity]).
Qed.

(** C7.  The schema of the documentation tool refuses every [maxTokens] below
    1000: both bindings answer [InvalidParams] and name the key and the bound,
    and no handler runs (the answer is the same in every world); so it is for
    [{topic: "setup", maxTokens: 10}].  Without [maxTokens] the validated
    parameters have none, and the handler does what it does with 5000. *)
Theorem docs_maxTokens_minimum {W : World} (fields : list (string * json)) (q : Q)
  (h h' : gmap nat NativelinkConfig) (a : api.NativelinkAPI) (hdrs : gmap string string) :
  property "maxTokens" fields = Some (JNum q) ->
  (q < 1000)%Q ->
  (exists issues,
     In (mkIssue [inl "maxTokens"] "Number must be greater than or equal to 1000") issues /\
     includes (invalid_parameters issues)
       "maxTokens: Number must be greater than or equal to 1000" = true /\
     stream_envelope (CallToolRequest h a "get-nativelink-docs" (Some (JObj fields)))
     = ErrorEnvelope InvalidParams (invalid_parameters issues) /\
     envelope_of (fst (listener h' (post_tools_call hdrs "get-nativelink-docs" (JObj fields))))
     = Some (ErrorEnvelope InvalidParams (invalid_parameters issues))) /\
  (stream_envelope
     (CallToolRequest h a "get-nativelink-docs"
        (Some (JObj [("topic", JStr "setup"); ("maxTokens", JNum 10)])))
   = ErrorEnvelope InvalidParams
       "Invalid parameters: maxTokens: Number must be greater than or equal to 1000" /\
   envelope_of (fst (listener h' (post_tools_call hdrs "get-nativelink-docs"
                                    (JObj [("topic", JStr "setup"); ("maxTokens", JNum 10)]))))
   = Some (ErrorEnvelope InvalidParams
             "Invalid parameters: maxTokens: Number must be greater than or equal to 1000")) /\
  (forall fields' params,
     property "maxTokens" fields' = None ->
     parse docs.GetNativelinkDocsSchema (Some (JObj fields')) = Normal params ->
     docs.maxTokens params = None /\
     docs.getNativelinkDocs params h a
     = docs.getNativelinkDocs
         {| docs.topic := docs.topic params; docs.context := docs.context params;
            docs.maxTokens := Some 5000%Q |} h a).
Proof.
  intros Hprop Hq. split; [| split].
  - set (k := ("maxTokens",
               @existT Type ZodType (option Q)
                 (ZodOptional (ZodDefault (ZodNumber (Some 1000%Z) None) (JNum 5000))))
              : string * {B : Type & ZodType B}).
    set (e := mkIssue [inl "maxTokens"] "Number must be greater than or equal to 1000").
    assert (Hk : key_issues [] fields k = [e]).
    { unfold key_issues, k. cbn [fst snd projT2 _parse]. rewrite Hprop.
      unfold number_checks.
      destruct (Qle_bool (inject_Z 1000) q) eqn:E; [| reflexivity].
      apply Qle_bool_iff in E. exfalso. eapply Qlt_not_le; eassumption. }
    let schema := eval cbv delta [docs.GetNativelinkDocsSchema]
                    in docs.GetNativelinkDocsSchema in
    match schema with
    | ZodObject ?shape =>
        assert (He : In e (shape_issues shape [] fields));
        [ apply (shape_issues_key shape k);
          [ simpl; auto | rewrite Hk; now left ] |];
        exists (shape_issues shape [] fields);
        split; [exact He |];
        split; [exact (invalid_parameters_includes _ e He) |];
        apply (invalid_both "get-nativelink-docs" docs.Params (ZodObject shape));
        [ right; left; reflexivity
        | apply parse_object_offending; intros E; rewrite E in He; destruct He ]
    end.
  - apply (invalid_both "get-nativelink-docs" docs.Params docs.GetNativelinkDocsSchema
             [("topic", JStr "setup"); ("maxTokens", JNum 10)]
             [mkIssue [inl "maxTokens"] "Number must be greater than or equal to 1000"]).
    + right; left; reflexivity.
    + reflexivity.
  - intros fields' params Hnone Hp.
    destruct (docs_validated _ _ Hp) as (f & Hf & _ & _ & Hm).
    injection Hf as <-. rewrite Hnone in Hm. split; [exact Hm |].
    unfold docs.getNativelinkDocs, docs.maxTokens_or_5000. cbn [docs.topic docs.context
      docs.maxTokens]. now rewrite Hm.
Qed.

Lemma docs_maxTokens_minimum_witness :
  exists issues,
    stream_envelope
      (CallToolRequest (W := unreachable) ∅ (api.constructor ∅ CONFIG) "get-nativelink-docs"
         (Some (JObj [("topic", JStr "api"); ("maxTokens", JNum 999)])))
    = ErrorEnvelope InvalidParams (invalid_parameters issues).
Proof.
  destruct (docs_maxTokens_minimum (W := unreachable)
              [("topic", JStr "api"); ("maxTokens", JNum 999)] 999 ∅ ∅
              (api.constructor ∅ CONFIG) ∅ eq_refl eq_refl)
    as ((issues & _ & _ & Hs & _) & _).
  exists issues. exact Hs.
Defined.

(** C3.  The claim fails on a response whose body is JSON without [content].
    When the documentation service answers 200 with the body [{}],
    [fetchDocumentation] returns [undefined], as nothing throws inside its
    [try], and [truncateResponse] throws on it: the call [{topic: "setup"}]
    ends in an error in both bindings, [-32603] on the stream and 200 with
    ['InternalError'] in the request binding, where the claim has the offline
    text.  (A rejected promise, a status that is not 2xx and a body that is
    not JSON do fall back on it.) *)
Theorem docs_body_without_content (h : gmap nat NativelinkConfig) (a : api.NativelinkAPI)
  (hdrs : gmap string string) :
  api.fetchDocumentation (W := contentless) h a "setup" None = None /\
  docs.getNativelinkDocs (W := contentless)
    {| docs.topic := "setup"; docs.context := None; docs.maxTokens := None |} h a
  = Throw (Error "Cannot read properties of undefined (reading 'length')") /\
  stream_reply (CallToolRequest (W := contentless) h a "get-nativelink-docs"
                  (Some setup_args))
  = JSONRPCError (-32603) "Cannot read properties of undefined (reading 'length')" /\
  fst (listener (W := contentless) h (post_tools_call hdrs "get-nativelink-docs" setup_args))
  = {| statusCode := 200;
       responseHeaders := (cors ++ [("Content-Type", "application/json")])%list;
       payload :=
         Json (envelope
                 (ErrorEnvelope InternalError
                    "Cannot read properties of undefined (reading 'length')")) |}.
Proof.
  split; [reflexivity |]. split; [reflexivity |]. split; [reflexivity |].
  destruct (listener_tools_call (W := contentless) h hdrs "get-nativelink-docs" setup_args)
    as (key & _ & ->).
  reflexivity.
Qed.

(** C8.  A call of the configuration tool with project type [rust] and the
    features [remote_cache] is answered, by both bindings, with a content that
    has a [build --remote_cache=] line and a [@rules_rust] line and no
    [java_language_version] line. *)
Theorem bazel_config_for_rust {W : World} (h h' : gmap nat NativelinkConfig)
  (a : api.NativelinkAPI) (hdrs : gmap string string) :
  is_iso_timestamp toISOString_now = true ->
  exists text,
    stream_envelope (CallToolRequest h a "get-bazel-config" (Some rust_args)) = Content text /\
    envelope_of (fst (listener h' (post_tools_call hdrs "get-bazel-config" rust_args)))
    = Some (Content text) /\
    includes text "build --remote_cache=" = true /\
    includes text "@rules_rust" = true /\
    includes text "java_language_version" = false.
Proof.
  intros Hiso. exists (config.generateBazelConfig rust_params).
  split; [reflexivity |]. split.
  - destruct (listener_tools_call h' hdrs "get-bazel-config" rust_args) as (key & _ & ->).
    reflexivity.
  - now apply generateBazelConfig_rust.
Qed.

Lemma bazel_config_for_rust_witness :
  exists text,
    stream_envelope (CallToolRequest (W := unreachable) ∅ (api.constructor ∅ CONFIG)
                       "get-bazel-config" (Some rust_args)) = Content text /\
    includes text "build --remote_cache=" = true /\
    includes text "@rules_rust" = true /\
    includes text "java_language_version" = false.
Proof.
  destruct (bazel_config_for_rust (W := unreachable) ∅ ∅ (api.constructor ∅ CONFIG) ∅
              eq_refl) as (text & Hs & _ & H1 & H2 & H3).
  exists text. auto.
Defined.

(** * Further properties of the code *)

(** ** More on [parseApiKey] *)











(** X2.  A header value that is an array: under a custom key that is the first
    to match, [parseApiKey] returns the first element, so an empty array gives
    [undefined] and the later headers are not looked at; under a spelling of
    [authorization], an empty array makes it throw a [TypeError]. *)
Theorem parseApiKey_array_values (headers : gmap string HeaderValue)
  (before after : list string) (k : string) (l : list string) :
  headerKeys = (before ++ k :: after)%list ->
  (forall k', In k' before -> no_match headers k' = true) ->
  headers !! k = Some (HArray l) ->
  (In k custom_keys -> parseApiKey headers = Normal (head l)) /\
  (~ In k custom_keys -> l = [] -> parseApiKey headers = Throw undefined_match).
Proof.
  intros Hkeys Hbefore Hk.
  assert (Hin : In k headerKeys) by (rewrite Hkeys; apply in_or_app; right; now left).
  unfold parseApiKey. rewrite Hkeys, (parseApiKey_from_no_match before _ headers Hbefore).
  simpl. rewrite Hk. simpl. split.
  - intros Hc. now rewrite (custom_key_not_authorization k Hc).
  - intros Hc ->. now rewrite (header_key_cases k Hin Hc).
Qed.

Lemma parseApiKey_array_values_witness :
  parseApiKey (<[ "x-api-key" := HString "later" ]>
                 (<[ "nativelink-api-key" := HArray [] ]> ∅)) = Normal None
  /\ parseApiKey (<[ "x-api-key" := HString "later" ]>
                    (<[ "Authorization" := HArray [] ]> ∅)) = Throw undefined_match.
Proof.
  split.
  - apply (parseApiKey_array_values _ ["authorization"; "Authorization"]
             ["Nativelink-API-Key"; "NATIVELINK_API_KEY"; "x-api-key"; "X-API-Key"; "X_API_KEY"]
             "nativelink-api-key" []).
    + reflexivity.
    + intros k' [<- | [<- | []]]; vm_compute; reflexivity.
    + reflexivity.
    + vm_compute. tauto.
  - apply (parseApiKey_array_values _ ["authorization"]
             ["nativelink-api-key"; "Nativelink-API-Key"; "NATIVELINK_API_KEY"; "x-api-key";
              "X-API-Key"; "X_API_KEY"]
             "Authorization" []).
    + reflexivity.
    + intros k' [<- | []]; vm_compute; reflexivity.
    + reflexivity.
    + vm_compute. intros H. repeat destruct H as [H | H]; try discriminate H. exact H.
    + reflexivity.
Defined.



(** ** Start-up and the listener, route by route *)

Lemma request_api_frame (h : gmap nat NativelinkConfig) (key : option string) (r : nat) :
  is_Some (h !! r) -> snd (request_api h key) !! r = h !! r.
Proof.
  intros Hr. unfold request_api. simpl. apply lookup_insert_ne.
  intros <-. apply elem_of_dom in Hr. now apply is_fresh in Hr.
Qed.

Lemma alter_when (t : bool) (f : NativelinkConfig -> NativelinkConfig)
  (c : NativelinkConfig) :
  (if t then alter f CONFIG ({[ CONFIG := c ]} : gmap nat NativelinkConfig)
   else {[ CONFIG := c ]})
  = {[ CONFIG := if t then f c else c ]}.
Proof. destruct t; [apply alter_singleton_eq | reflexivity]. Qed.

Lemma when_set_apiKey (x : option string) (c : NativelinkConfig) :
  (if truthy x then set_apiKey x c else c) = set_apiKey (str_or_undef x (apiKey c)) c.
Proof. destruct c, x as [s|]; [simpl; destruct (String.eqb s "") |]; reflexivity. Qed.

Lemma when_set_anthropicKey (x : option string) (c : NativelinkConfig) :
  (if truthy x then set_anthropicKey x c else c)
  = set_anthropicKey (str_or_undef x (anthropicKey c)) c.
Proof. destruct c, x as [s|]; [simpl; destruct (String.eqb s "") |]; reflexivity. Qed.

Lemma when_set_geminiKey (x : option string) (c : NativelinkConfig) :
  (if truthy x then set_geminiKey x c else c) = set_geminiKey (str_or_undef x (geminiKey c)) c.
Proof. destruct c, x as [s|]; [simpl; destruct (String.eqb s "") |]; reflexivity. Qed.

Lemma when_set_nativelinkUrl (x : option string) (c : NativelinkConfig) :
  (if truthy x then set_nativelinkUrl x c else c)
  = set_nativelinkUrl (str_or_undef x (nativelinkUrl c)) c.
Proof. destruct c, x as [s|]; [simpl; destruct (String.eqb s "") |]; reflexivity. Qed.

(** X4.  Start-up composes [process.env] and the flags field by field: a flag
    that is given and not empty wins over its environment variable, an empty
    or missing flag leaves the variable's value, [debug] comes from [DEBUG]
    alone, and the store holds [CONFIG] and nothing else.  The base URL of the
    stream binding's API object is the flag, else the variable, else the
    public address. *)
Theorem startup_flags_over_environment (env : gmap string string) (options : Options) :
  startup env options
  = {[ CONFIG :=
         {| apiKey := str_or_undef (opt_apiKey options) (env !! "NATIVELINK_API_KEY");
            anthropicKey := str_or_undef (opt_anthropicKey options) (env !! "ANTHROPIC_API_KEY");
            geminiKey := str_or_undef (opt_geminiKey options) (env !! "GEMINI_API_KEY");
            nativelinkUrl := str_or_undef (opt_nativelinkUrl options) (env !! "NATIVELINK_URL");
            debug := Some (bool_decide (env !! "DEBUG" = Some "true")) |} ]}
  /\ api.baseUrl (startStdioServer (startup env options))
     = str_or (opt_nativelinkUrl options)
         (str_or (env !! "NATIVELINK_URL") "https://api.nativelink.com").
Proof.
  assert (H : startup env options
    = {[ CONFIG :=
         {| apiKey := str_or_undef (opt_apiKey options) (env !! "NATIVELINK_API_KEY");
            anthropicKey := str_or_undef (opt_anthropicKey options) (env !! "ANTHROPIC_API_KEY");
            geminiKey := str_or_undef (opt_geminiKey options) (env !! "GEMINI_API_KEY");
            nativelinkUrl := str_or_undef (opt_nativelinkUrl options) (env !! "NATIVELINK_URL");
            debug := Some (bool_decide (env !! "DEBUG" = Some "true")) |} ]}).
  { unfold startup, action, load.
    rewrite !alter_when, when_set_apiKey, when_set_anthropicKey, when_set_geminiKey,
      when_set_nativelinkUrl.
    reflexivity. }
  split; [exact H |].
  unfold startStdioServer, createNativelinkServer, api.constructor, deref.
  rewrite H, lookup_singleton_eq. cbn [default nativelinkUrl api.baseUrl].
  unfold str_or, str_or_undef.
  destruct (opt_nativelinkUrl options) as [u|]; [| reflexivity].
  destruct (String.eqb u "") eqn:E; cbn; rewrite ?E; reflexivity.
Qed.

Section Routes.
Context {W : World}.

(** X5.  Every response of the listener begins with the three CORS headers,
    and its status is 200, 204, 404 or 500; it is 500 only for a [POST /mcp]
    whose body cannot be parsed: no tool, whatever it throws, makes the
    listener answer 500. *)
Theorem listener_status (h : gmap nat NativelinkConfig) (req : IncomingMessage) :
  (exists rest, responseHeaders (fst (listener h req)) = (cors ++ rest)%list) /\
  In (statusCode (fst (listener h req))) [200; 204; 404; 500]%Z /\
  (statusCode (fst (listener h req)) = 500%Z <->
   method req <> "OPTIONS" /\ url req = "/mcp" /\ method req = "POST" /\
   body req = Unparseable).
Proof.
  unfold listener.
  destruct (String.eqb (method req) "OPTIONS") eqn:E1.
  { apply String.eqb_eq in E1. simpl. split; [now eexists |]. split; [tauto |].
    split; [discriminate | tauto]. }
  apply String.eqb_neq in E1.
  destruct (String.eqb (url req) "/ping") eqn:E2.
  { apply String.eqb_eq in E2. simpl. split; [now eexists |]. split; [tauto |].
    split; [discriminate |]. rewrite E2. now intros (_ & ? & _). }
  destruct (String.eqb (url req) "/mcp") eqn:E3; simpl.
  2: { apply String.eqb_neq in E3. split; [now eexists |]. split; [tauto |].
       split; [discriminate | tauto]. }
  apply String.eqb_eq in E3.
  destruct (String.eqb (method req) "POST") eqn:E4; simpl.
  2: { apply String.eqb_neq in E4. split; [now eexists |]. split; [tauto |].
       split; [discriminate | tauto]. }
  apply String.eqb_eq in E4.
  destruct (body req) as [|request] eqn:Eb; simpl.
  { split; [now eexists |]. split; [tauto |]. tauto. }
  destruct (strict_eq (rpc_method request) "tools/list"); simpl.
  { split; [now eexists |]. split; [tauto |]. split; [discriminate |]. now intros (_ & _ & _ & ?). }
  destruct (strict_eq (rpc_method request) "tools/call"); simpl.
  2: { split; [now eexists |]. split; [tauto |]. split; [discriminate |].
       now intros (_ & _ & _ & ?). }
  unfold tools_call.
  destruct (parseApiKey_strings (headers req)) as [key ->]. simpl.
  split; [now eexists |]. split; [tauto |]. split; [discriminate |].
  now intros (_ & _ & _ & ?).
Qed.

(** X6.  Serving requests never changes an object that is in the store: a
    request adds at most one new object, under a reference that was free, so
    the configuration that an earlier request works with stays what it was,
    whatever is served meanwhile. *)
Theorem served_objects_are_kept (history : list IncomingMessage)
  (h : gmap nat NativelinkConfig) (r : nat) :
  is_Some (h !! r) -> serve h history !! r = h !! r.
Proof.
  revert h. induction history as [|req history IH]; intros h Hr; [reflexivity |].
  unfold serve in *. simpl.
  assert (Hstep : snd (listener h req) !! r = h !! r).
  { destruct (listener_store h req) as [-> | [key ->]]; [reflexivity |].
    now apply request_api_frame. }
  rewrite IH; [exact Hstep |]. now rewrite Hstep.
Qed.

End Routes.

Lemma served_objects_are_kept_witness :
  serve (W := unreachable) (startup ∅ no_options)
    [post_tools_call (<[ "x-api-key" := "visitor-key" ]> ∅) "get-nativelink-docs" setup_args]
    !! CONFIG
  = startup ∅ no_options !! CONFIG.
Proof.
  apply (served_objects_are_kept (W := unreachable)).
  vm_compute. eexists. reflexivity.
Defined.

(** ** More on [truncateResponse] and [formatBazelrc] *)

Lemma substring_drop_chars (n : nat) (s : string) :
  s = String.substring 0 n s ++ drop_chars n s.
Proof.
  revert n. induction s as [|c s IH]; intros [|n]; simpl; try reflexivity.
  rewrite append_cons. f_equal. apply IH.
Qed.

Lemma drop_chars_nonempty (n : nat) (s : string) :
  (n < String.length s)%nat -> drop_chars n s <> "".
Proof.
  revert n. induction s as [|c s IH]; intros [|n]; simpl; try lia; try discriminate.
  intros H. apply IH. lia.
Qed.

Lemma truncateResponse_cases (text : string) (m : Q) :
  truncateResponse text m = text \/
  exists kept rest,
    text = kept ++ rest /\
    truncateResponse text m = kept ++ truncation_marker /\
    (rest <> "" \/ text = "" /\ (m < 0)%Q).
Proof.
  destruct (Qlt_le_dec (4 * m) (js_length text)) as [Hlong | Hshort].
  2: { left. now apply truncateResponse_short. }
  right. rewrite (truncateResponse_long text m Hlong). unfold substring_to.
  exists (String.substring 0 (Z.to_nat (Qfloor (4 * m))) text),
         (drop_chars (Z.to_nat (Qfloor (4 * m))) text).
  split; [apply substring_drop_chars |]. split; [reflexivity |].
  destruct (Qlt_le_dec (4 * m) 0) as [Hneg | Hpos].
  - destruct text as [|c text].
    + right. split; [reflexivity |].
      apply Qnot_le_lt. intros Hm. apply (Qlt_not_le _ _ Hneg).
      apply Qmult_le_0_compat; [discriminate | exact Hm].
    + left. replace (Z.to_nat (Qfloor (4 * m))) with 0%nat; [discriminate |].
      assert (Qfloor (4 * m) <= 0)%Z.
      { rewrite <- (Qfloor_Z 0). apply Qfloor_resp_le. now apply Qlt_le_weak. }
      lia.
  - left. apply drop_chars_nonempty.
    assert (H1 : (0 <= Qfloor (4 * m))%Z).
    { rewrite <- (Qfloor_Z 0). now apply Qfloor_resp_le. }
    assert (H2 : (Qfloor (4 * m) < Z.of_nat (String.length text))%Z).
    { apply Z.lt_nge. intros Hge.
      apply (Qlt_not_le _ _ Hlong). unfold js_length.
      apply Qle_trans with (inject_Z (Qfloor (4 * m))); [| apply Qfloor_le].
      rewrite <- Zle_Qle. exact Hge. }
    lia.
Qed.

Lemma trimStart_blank (s : string) : string_forallb is_space s = true -> trimStart s = "".
Proof.
  induction s as [|c s IH]; simpl; [reflexivity |].
  intros H. apply andb_true_iff in H as [Hc Hs]. rewrite Hc. now apply IH.
Qed.

Lemma trimEnd_idempotent (s : string) : trimEnd (trimEnd s) = trimEnd s.
Proof.
  induction s as [|c s IH]; [reflexivity |]. simpl.
  destruct (trimEnd s) as [|d t] eqn:E.
  - destruct (is_space c) eqn:Ec; [reflexivity |]. simpl. now rewrite Ec.
  - change (trimEnd (String c (String d t)))
      with (match trimEnd (String d t) with
            | EmptyString => if is_space c then EmptyString else String c EmptyString
            | t' => String c t'
            end).
    now rewrite IH.
Qed.

Lemma trimStart_cases (s : string) :
  trimStart s = "" \/ exists c rest, trimStart s = String c rest /\ is_space c = false.
Proof.
  induction s as [|c s IH]; simpl; [now left |].
  destruct (is_space c) eqn:E; [exact IH |]. right. now exists c, s.
Qed.

Lemma trim_idempotent (s : string) : trim (trim s) = trim s.
Proof.
  unfold trim at 2 3. destruct (trimStart_cases s) as [-> | (c & rest & -> & Hc)].
  - reflexivity.
  - rewrite (trimEnd_cons c rest Hc), (trim_visible c _ Hc). now rewrite trimEnd_idempotent.
Qed.

(** X7.  [truncateResponse] never rewrites the text: it returns it as it is,
    or a prefix of it followed by the marker, and then something was cut off
    (unless the text is empty and the budget negative, where the marker stands
    alone).  So the result is at most 33 characters, the length of the marker,
    longer than the text, and
    with a budget of zero or less every text that is not empty is replaced by
    the marker. *)
Theorem truncateResponse_keeps_a_prefix (text : string) (m : Q) :
  (truncateResponse text m = text \/
   exists kept rest,
     text = kept ++ rest /\
     truncateResponse text m = kept ++ truncation_marker /\
     (rest <> "" \/ text = "" /\ (m < 0)%Q)) /\
  (String.length (truncateResponse text m) <= String.length text + 33)%nat /\
  ((m <= 0)%Q -> text <> "" -> truncateResponse text m = truncation_marker).
Proof.
  split; [apply truncateResponse_cases |]. split.
  - destruct (truncateResponse_cases text m) as [-> | (kept & rest & Ht & -> & _)]; [lia |].
    rewrite Ht, !length_append.
    replace (String.length truncation_marker) with 33%nat by reflexivity.
    lia.
  - intros Hm Hne.
    assert (H4 : (4 * m <= 0)%Q).
    { change (4 * m <= 4 * 0)%Q. apply Qmult_le_l; [reflexivity | exact Hm]. }
    assert (Hlong : (4 * m < js_length text)%Q).
    { apply Qle_lt_trans with 0%Q; [exact H4 |]. unfold js_length.
      destruct text as [|c text]; [congruence |].
      replace 0%Q with (inject_Z 0) by reflexivity. rewrite <- Zlt_Qlt. simpl. lia. }
    rewrite (truncateResponse_long text m Hlong). unfold substring_to.
    replace (Z.to_nat (Qfloor (4 * m))) with 0%nat.
    + destruct text; reflexivity.
    + assert (Qfloor (4 * m) <= 0)%Z.
      { rewrite <- (Qfloor_Z 0). now apply Qfloor_resp_le. }
      lia.
Qed.

Lemma truncateResponse_keeps_a_prefix_witness :
  truncateResponse "a long enough answer" 0 = truncation_marker.
Proof.
  apply (truncateResponse_keeps_a_prefix "a long enough answer" 0); [discriminate | discriminate].
Defined.

(** X8.  [formatBazelrc] is insensitive to the layout of its input: lines that
    are already trimmed give the same text, and a line of white space only,
    put anywhere, changes nothing; a list of such lines gives the empty
    text. *)
Theorem formatBazelrc_layout (before after : list string) (blank : string) :
  string_forallb is_space blank = true ->
  formatBazelrc (before ++ blank :: after) = formatBazelrc (before ++ after) /\
  formatBazelrc [blank] = "" /\
  (forall lines, formatBazelrc (map trim lines) = formatBazelrc lines).
Proof.
  intros Hb.
  assert (Ht : trim blank = "").
  { unfold trim. now rewrite (trimStart_blank blank Hb). }
  split; [| split].
  - unfold formatBazelrc. rewrite !map_app, !filter_app. cbn [map].
    rewrite filter_cons, Ht. destruct (decide ("" <> "")); [congruence | reflexivity].
  - unfold formatBazelrc. cbn [map]. rewrite filter_cons, Ht.
    destruct (decide ("" <> "")); [congruence | reflexivity].
  - intros lines. unfold formatBazelrc. f_equal. f_equal.
    rewrite map_map. apply map_ext. intros s. apply trim_idempotent.
Qed.

Lemma formatBazelrc_layout_witness :
  formatBazelrc (["build --jobs=200"] ++ "   " :: ["test --test_output=errors"])
  = formatBazelrc (["build --jobs=200"] ++ ["test --test_output=errors"]).
Proof.
  apply (formatBazelrc_layout ["build --jobs=200"] ["test --test_output=errors"] "   ").
  reflexivity.
Defined.

(** ** The sections of the generated Bazel configuration *)

Lemma prefix_forallb (p : ascii -> bool) (n s : string) :
  String.prefix n s = true -> string_forallb p s = true -> string_forallb p n = true.
Proof.
  revert s. induction n as [|c n IH]; intros s; [reflexivity |].
  destruct s as [|d s]; simpl; [discriminate |].
  destruct (ascii_dec c d) as [-> | ]; [| discriminate].
  intros Hp Hs. apply andb_true_iff in Hs as [Hd Hs]. rewrite Hd. simpl. now apply (IH s).
Qed.

Lemma includes_forallb (p : ascii -> bool) (s n : string) :
  string_forallb p s = true -> string_forallb p n = false -> includes s n = false.
Proof.
  intros Hs Hn. destruct (includes s n) eqn:E; [| reflexivity].
  exfalso. revert Hs E. induction s as [|c s IH]; intros Hs E.
  - rewrite includes_nil in E. rewrite (prefix_forallb p n "" E) in Hn; [discriminate | reflexivity].
  - rewrite includes_cons in E. apply orb_true_iff in E as [E | E].
    + rewrite (prefix_forallb p n _ E Hs) in Hn. discriminate.
    + simpl in Hs. apply andb_true_iff in Hs as [_ Hs]. now apply IH.
Qed.

Lemma stamp_line_excludes (stamp needle : string) :
  is_iso_timestamp stamp = true ->
  string_forallb stamp_char needle = false ->
  includes (trim ("# " ++ stamp)) needle = false.
Proof.
  intros H Hn.
  change ("# " ++ stamp) with (String "#" (String " " stamp)).
  rewrite trim_visible by reflexivity.
  apply (includes_forallb stamp_char); [| exact Hn].
  change (string_forallb stamp_char (String "#" (trimEnd (String " " stamp))) = true).
  change (true && string_forallb stamp_char (trimEnd (String " " stamp)) = true).
  apply trimEnd_forallb.
  change (true && string_forallb stamp_char stamp = true).
  apply (string_forallb_impl iso_char); [| exact H].
  intros c Hc. unfold stamp_char. now rewrite Hc.
Qed.

Lemma includes_stamped (head tail : list string) (stamp needle : string) :
  is_iso_timestamp stamp = true ->
  string_forallb stamp_char needle = false ->
  string_forallb (fun x => negb (Ascii.eqb x "010")) needle = true ->
  needle <> "" ->
  includes (formatBazelrc (head ++ [ ("# " ++ stamp)%string ] ++ tail)%list) needle
  = existsb (fun l => includes l needle) (filter (fun line => line <> "") (map trim head))
    || existsb (fun l => includes l needle) (filter (fun line => line <> "") (map trim tail)).
Proof.
  intros Hiso Hn Hlf Hne.
  rewrite (includes_formatBazelrc _ _ Hlf Hne).
  rewrite !map_app, !filter_app, !existsb_app. f_equal.
  cbn [map]. generalize (stamp_line_excludes stamp needle Hiso Hn).
  generalize (trim ("# " ++ stamp)). intros line Hline.
  rewrite filter_cons, filter_nil. destruct (decide (line <> "")); [| reflexivity].
  simpl. now rewrite Hline.
Qed.

Lemma projectType_cases (p : string) :
  Array_includes ["rust"; "cpp"; "java"; "python"; "go"; "mixed"] p = true ->
  p = "rust" \/ p = "cpp" \/ p = "java" \/ p = "python" \/ p = "go" \/ p = "mixed".
Proof.
  unfold Array_includes. simpl. intros H.
  repeat (apply orb_true_iff in H as [H | H];
          [apply String.eqb_eq in H; tauto |]).
  discriminate.
Qed.

Lemma nth_error_split3 (lines : list string) (x : string) :
  nth_error lines 2 = Some x -> lines = (firstn 2 lines ++ [x] ++ skipn 3 lines)%list.
Proof.
  destruct lines as [|a [|b [|c rest]]]; try discriminate. now intros [= ->].
Qed.

Lemma includes_stamped_lines (lines needles : list string) (stamp : string) :
  is_iso_timestamp stamp = true ->
  nth_error lines 2 = Some ("# " ++ stamp) ->
  forallb needle_ok needles = true ->
  map (includes (formatBazelrc lines)) needles
  = map (fun needle =>
           existsb (fun l => includes l needle)
             (filter (fun line => line <> "") (map trim (firstn 2 lines ++ skipn 3 lines)%list)))
      needles.
Proof.
  intros Hiso Hnth Hok. rewrite (nth_error_split3 lines _ Hnth) at 1.
  induction needles as [|n needles IH]; [reflexivity |].
  simpl in Hok. apply andb_true_iff in Hok as [Hn Hok].
  unfold needle_ok in Hn. apply andb_true_iff in Hn as [Hn Hne].
  apply andb_true_iff in Hn as [Hn Hlf].
  apply negb_true_iff in Hn, Hne. apply String.eqb_neq in Hne.
  cbn [map]. rewrite (IH Hok). f_equal.
  rewrite (includes_stamped _ _ _ _ Hiso Hn Hlf Hne).
  now rewrite map_app, filter_app, existsb_app.
Qed.

Lemma forall_bool4 {A : Type} `{EqDecision A} (F G : bool -> bool -> bool -> bool -> A) :
  forallb (fun b1 => forallb (fun b2 => forallb (fun b3 => forallb (fun b4 =>
    bool_decide (F b1 b2 b3 b4 = G b1 b2 b3 b4))
    [true; false]) [true; false]) [true; false]) [true; false] = true ->
  forall b1 b2 b3 b4, F b1 b2 b3 b4 = G b1 b2 b3 b4.
Proof.
  simpl. rewrite !andb_true_r, !andb_true_iff, !bool_decide_eq_true.
  intros H [] [] [] []; tauto.
Qed.

Lemma forall_included_bool4 {A : Type} `{EqDecision A} (l : list string)
  (F G : string -> bool -> bool -> bool -> bool -> A) :
  forallb (fun p => forallb (fun b1 => forallb (fun b2 => forallb (fun b3 => forallb (fun b4 =>
    bool_decide (F p b1 b2 b3 b4 = G p b1 b2 b3 b4))
    [true; false]) [true; false]) [true; false]) [true; false]) l = true ->
  forall p, Array_includes l p = true -> forall b1 b2 b3 b4, F p b1 b2 b3 b4 = G p b1 b2 b3 b4.
Proof.
  intros H p Hp. apply forall_bool4.
  unfold Array_includes in Hp. apply existsb_exists in Hp as (x & Hx & E).
  apply String.eqb_eq in E. subst x.
  rewrite forallb_forall in H. exact (H p Hx).
Qed.

Lemma nth_error_if_app {A : Type} (b : bool) (l a : list A) (n : nat) (x : A) :
  nth_error l n = Some x -> nth_error (if b then (l ++ a)%list else l) n = Some x.
Proof.
  intros H. destruct b; [| exact H]. rewrite nth_error_app1; [exact H |].
  apply nth_error_Some. congruence.
Qed.

Lemma nth_error_app_l {A : Type} (l a : list A) (n : nat) (x : A) :
  nth_error l n = Some x -> nth_error (l ++ a)%list n = Some x.
Proof. apply (nth_error_if_app true). Qed.

Lemma bazel_needles_ok : forallb needle_ok bazel_needles = true.
Proof. reflexivity. Qed.

Lemma generateBazelConfig_needles {W : World} (p : string) (u : option string)
  (f : option (list string)) :
  is_iso_timestamp toISOString_now = true ->
  Array_includes ["rust"; "cpp"; "java"; "python"; "go"; "mixed"] p = true ->
  let features := default ["remote_cache"; "remote_execution"; "bes"] f in
  map (includes (config.generateBazelConfig
                   {| config.projectType := p; config.nativelinkUrl := u;
                      config.features := f |})) bazel_needles
  = [ Array_includes features "remote_cache"; Array_includes features "bes";
      Array_includes features "remote_execution"; Array_includes features "metrics";
      String.eqb p "rust"; String.eqb p "cpp"; String.eqb p "java"; String.eqb p "python";
      String.eqb p "go" ].
Proof.
  intros Hiso Hp features.
  unfold config.generateBazelConfig. cbn [config.projectType config.features].
  fold features.
  generalize (Array_includes features "remote_cache") (Array_includes features "bes")
    (Array_includes features "remote_execution") (Array_includes features "metrics").
  intros b1 b2 b3 b4.
  match goal with
  | |- map (includes (formatBazelrc ?lines)) _ = _ =>
      refine (eq_trans (includes_stamped_lines lines bazel_needles _ Hiso _ bazel_needles_ok) _);
      [ repeat first [ apply nth_error_if_app | apply nth_error_app_l ]; reflexivity |]
  end.
  revert b1 b2 b3 b4; revert p Hp.
  apply forall_included_bool4. vm_compute. reflexivity.
Qed.

(** X9.  The sections of a generated configuration are those of the features
    in force, the given ones or, when none are given, [remote_cache],
    [remote_execution] and [bes]: the options of the remote cache, of the build
    event service, of remote execution and of the metrics are in the text
    exactly when their feature is among them.  An empty list of features is not
    replaced by the default, and [nativelinkUrl] has no influence on the
    text. *)
Theorem bazel_config_sections {W : World} (p : string) (u : option string)
  (f : option (list string)) :
  is_iso_timestamp toISOString_now = true ->
  Array_includes ["rust"; "cpp"; "java"; "python"; "go"; "mixed"] p = true ->
  let text := config.generateBazelConfig
                {| config.projectType := p; config.nativelinkUrl := u;
                   config.features := f |} in
  let features := default ["remote_cache"; "remote_execution"; "bes"] f in
  includes text "build --remote_cache=" = Array_includes features "remote_cache" /\
  includes text "build --bes_backend=" = Array_includes features "bes" /\
  includes text "build --remote_executor=" = Array_includes features "remote_execution" /\
  includes text "build --generate_json_trace_profile" = Array_includes features "metrics" /\
  text = config.generateBazelConfig
           {| config.projectType := p; config.nativelinkUrl := None;
              config.features := f |}.
Proof.
  intros Hiso Hp text features.
  pose proof (generateBazelConfig_needles p u f Hiso Hp) as H.
  split; [exact (f_equal (fun l => nth 0 l false) H) |].
  split; [exact (f_equal (fun l => nth 1 l false) H) |].
  split; [exact (f_equal (fun l => nth 2 l false) H) |].
  split; [exact (f_equal (fun l => nth 3 l false) H) | reflexivity].
Qed.

Lemma bazel_config_sections_witness :
  let text := config.generateBazelConfig (W := unreachable)
                {| config.projectType := "go"; config.nativelinkUrl := None;
                   config.features := Some [] |} in
  includes text "build --remote_cache=" = false /\
  includes text "build --remote_executor=" = false.
Proof.
  pose proof (bazel_config_sections (W := unreachable) "go" None (Some []) eq_refl eq_refl)
    as (H1 & _ & H3 & _).
  split; [exact H1 | exact H3].
Defined.

(** X10.  The options of a language are in a generated configuration exactly
    when the project is of that language, whatever the features: [@rules_rust]
    for [rust], [cxxopt] for [cpp], [java_language_version] for [java],
    [PYTHONDONTWRITEBYTECODE] for [python], [@io_bazel_rules_go] for [go], and
    none of them for [mixed]. *)
Theorem bazel_config_language {W : World} (p : string) (u : option string)
  (f : option (list string)) :
  is_iso_timestamp toISOString_now = true ->
  Array_includes ["rust"; "cpp"; "java"; "python"; "go"; "mixed"] p = true ->
  let text := config.generateBazelConfig
                {| config.projectType := p; config.nativelinkUrl := u;
                   config.features := f |} in
  includes text "@rules_rust" = String.eqb p "rust" /\
  includes text "cxxopt" = String.eqb p "cpp" /\
  includes text "java_language_version" = String.eqb p "java" /\
  includes text "PYTHONDONTWRITEBYTECODE" = String.eqb p "python" /\
  includes text "@io_bazel_rules_go" = String.eqb p "go".
Proof.
  intros Hiso Hp text.
  pose proof (generateBazelConfig_needles p u f Hiso Hp) as H.
  split; [exact (f_equal (fun l => nth 4 l false) H) |].
  split; [exact (f_equal (fun l => nth 5 l false) H) |].
  split; [exact (f_equal (fun l => nth 6 l false) H) |].
  split; [exact (f_equal (fun l => nth 7 l false) H) |].
  exact (f_equal (fun l => nth 8 l false) H).
Qed.

Lemma bazel_config_language_witness :
  let text := config.generateBazelConfig (W := unreachable)
                {| config.projectType := "python"; config.nativelinkUrl := None;
                   config.features := None |} in
  includes text "PYTHONDONTWRITEBYTECODE" = true /\
  includes text "java_language_version" = false.
Proof.
  pose proof (bazel_config_language (W := unreachable) "python" None None eq_refl eq_refl)
    as (_ & _ & H3 & H4 & _).
  split; [exact H4 | exact H3].
Defined.

(** ** Arguments that are missing, and keys that no schema declares *)

Lemma property_cons_ne (k key : string) (v : json) (fields : list (string * json)) :
  k <> key -> property key ((k, v) :: fields) = property key fields.
Proof. intros H. simpl. apply String.eqb_neq in H. now rewrite H. Qed.

Lemma parse_shape_extra {A : Type} (shape : ZodShape A) (p : list (string + nat))
  (k : string) (v : json) (fields : list (string * json)) :
  ~ In k (map fst (shape_keys shape)) ->
  _parse_shape shape p ((k, v) :: fields) = _parse_shape shape p fields.
Proof.
  induction shape as [A build | A B earlier IH key schema]; intros Hk; [reflexivity |].
  cbn [shape_keys] in Hk. rewrite map_app, in_app_iff in Hk. cbn [_parse_shape].
  rewrite IH by tauto. rewrite property_cons_ne; [reflexivity |].
  intros ->. apply Hk. right. now left.
Qed.

Lemma parse_object_extra {A : Type} (shape : ZodShape A) (k : string) (v : json)
  (fields : list (string * json)) :
  ~ In k (schema_keys (ZodObject shape)) ->
  parse (ZodObject shape) (Some (JObj ((k, v) :: fields)))
  = parse (ZodObject shape) (Some (JObj fields)).
Proof. intros Hk. unfold parse. cbn [_parse]. now rewrite parse_shape_extra. Qed.

Section CallArguments.
Context {W : World}.

Lemma registry_undefined :
  Forall (fun tool : string * {A : Type & ZodType A} =>
    _parse (projT2 (snd tool)) [] None = inl [mkIssue [] "Required"]) registry.
Proof. repeat constructor. Qed.

Lemma registry_extra_key :
  Forall (fun tool : string * {A : Type & ZodType A} =>
    forall h api k v fields,
      ~ In k (schema_keys (projT2 (snd tool))) ->
      CallToolRequest_try h api (fst tool) (Some (JObj ((k, v) :: fields)))
      = CallToolRequest_try h api (fst tool) (Some (JObj fields)) /\
      tools_call_try h api (Some (fst tool)) (JObj ((k, v) :: fields))
      = tools_call_try h api (Some (fst tool)) (JObj fields)) registry.
Proof.
  repeat match goal with |- Forall _ _ => constructor end;
    intros h api k v fields Hk; cbn [fst snd projT2] in *;
    unfold CallToolRequest_try, tools_call_try;
    cbn [String.eqb Ascii.eqb Bool.eqb strict_eq];
    unfold config.GetBazelConfigSchema, docs.GetNativelinkDocsSchema,
      performance.AnalyzeBuildPerformanceSchema, deployment.GenerateDeploymentConfigSchema,
      watch.SetupWatchAndBuildSchema in *;
    split; (f_equal; apply parse_object_extra; exact Hk).
Qed.

(** X11.  A call without arguments.  The stream binding hands [undefined] to
    the schema of the tool and answers the error [-32602] with the message
    [MCP error -32602: Invalid parameters: : Required], for every registered
    tool.  The request
    binding puts the empty object in the place of arguments that are missing,
    [null], [false], zero or the empty string, and answers as it does for
    [{}]; without [params] it looks for a tool of no name and answers
    [Unknown tool: undefined]. *)
Theorem call_without_arguments (toolName : string) (h : gmap nat NativelinkConfig)
  (a : api.NativelinkAPI) (hdrs : gmap string string) :
  registered toolName = true ->
  stream_reply (CallToolRequest h a toolName None)
  = JSONRPCError (-32602) "MCP error -32602: Invalid parameters: : Required" /\
  listener h (post_call hdrs (Some {| name := Some toolName; arguments := None |}))
  = listener h (post_tools_call hdrs toolName (JObj [])) /\
  (forall v, js_truthy v = false ->
     listener h (post_tools_call hdrs toolName v)
     = listener h (post_tools_call hdrs toolName (JObj []))) /\
  envelope_of (fst (listener h (post_call hdrs None)))
  = Some (ErrorEnvelope InternalError "Unknown tool: undefined").
Proof.
  intros Hreg. split; [| split; [| split]].
  - unfold registered in Hreg. apply existsb_exists in Hreg as (n & Hin & E).
    apply String.eqb_eq in E. subst n. apply in_map_iff in Hin as (tool & <- & Hin).
    apply list_elem_of_In in Hin.
    pose proof (proj1 (Forall_forall _ _) registry_undefined tool Hin) as Hu.
    rewrite (proj1 (Forall_forall _ _) registry_stream_invalid tool Hin h a None _ Hu).
    reflexivity.
  - reflexivity.
  - intros v Hv. unfold listener, post_tools_call, tools_call.
    cbn [method url body rpc_method params name arguments]. now rewrite Hv.
  - unfold listener, post_call, tools_call.
    cbn [method url body rpc_method params name arguments headers].
    destruct (parseApiKey_strings hdrs) as [key ->]. reflexivity.
Qed.

(** X12.  A key that the schema of a tool does not declare is dropped by the
    validation: the call is answered, by both bindings, as if the key were not
    there. *)
Theorem undeclared_keys_are_dropped (toolName : string) (A : Type) (schema : ZodType A)
  (k : string) (v : json) (fields : list (string * json)) (h : gmap nat NativelinkConfig)
  (a : api.NativelinkAPI) (hdrs : gmap string string) :
  In (toolName, existT A schema) registry ->
  ~ In k (schema_keys schema) ->
  CallToolRequest h a toolName (Some (JObj ((k, v) :: fields)))
  = CallToolRequest h a toolName (Some (JObj fields)) /\
  listener h (post_tools_call hdrs toolName (JObj ((k, v) :: fields)))
  = listener h (post_tools_call hdrs toolName (JObj fields)).
Proof.
  intros Hin Hk. apply list_elem_of_In in Hin.
  pose proof (proj1 (Forall_forall _ _) registry_extra_key _ Hin) as Hx.
  cbn [fst snd projT2] in Hx. split.
  - unfold CallToolRequest. now rewrite (proj1 (Hx h a k v fields Hk)).
  - destruct (listener_tools_call h hdrs toolName (JObj ((k, v) :: fields)))
      as (key & Hkey & ->).
    destruct (listener_tools_call h hdrs toolName (JObj fields)) as (key' & Hkey' & ->).
    rewrite Hkey in Hkey'. injection Hkey' as <-. cbn [js_truthy].
    now rewrite (proj2 (Hx _ _ k v fields Hk)).
Qed.

End CallArguments.

Lemma call_without_arguments_witness :
  stream_reply (CallToolRequest (W := unreachable) ∅ (api.constructor ∅ CONFIG)
                  "setup-watch-and-build" None)
  = JSONRPCError (-32602) "MCP error -32602: Invalid parameters: : Required".
Proof.
  apply (call_without_arguments (W := unreachable) "setup-watch-and-build" ∅
           (api.constructor ∅ CONFIG) ∅).
  reflexivity.
Defined.

Lemma undeclared_keys_are_dropped_witness :
  CallToolRequest (W := unreachable) ∅ (api.constructor ∅ CONFIG) "get-bazel-config"
    (Some (JObj [("verbose", JBool true); ("projectType", JStr "go")]))
  = CallToolRequest (W := unreachable) ∅ (api.constructor ∅ CONFIG) "get-bazel-config"
      (Some (JObj [("projectType", JStr "go")])).
Proof.
  apply (undeclared_keys_are_dropped (W := unreachable) "get-bazel-config" _
           config.GetBazelConfigSchema "verbose" (JBool true) [("projectType", JStr "go")]
           ∅ (api.constructor ∅ CONFIG) ∅).
  - left. reflexivity.
  - vm_compute. intros [H | [H | [H | []]]]; discriminate H.
Defined.

(** ** The documentation tool when the service fails *)

(** X13.  For validated arguments of the documentation tool, when the
    outbound call fails in a way that [fetchDocumentation] catches (rejected
    promise, status that is not 2xx, body that is not JSON) the handler returns
    the offline text of the topic, truncated by [maxTokens], and the stream
    binding answers with it as content; with such a failure on every call so
    does the request binding.  With topic [setup] the content has the heading
    [# Nativelink Cloud Setup Guide]. *)
Theorem docs_offline_fallback {W : World} (args : option json) (params : docs.Params)
  (h : gmap nat NativelinkConfig) (a : api.NativelinkAPI) :
  parse docs.GetNativelinkDocsSchema args = Normal params ->
  caught_failure (fetch (api.docs_request h a (docs.topic params) (docs.context params)))
  = true ->
  exists text,
    api.own_property (docs.topic params) api.docs = Some text /\
    docs.getNativelinkDocs params h a
    = Normal (truncateResponse text (docs.maxTokens_or_5000 params)) /\
    stream_envelope (CallToolRequest h a "get-nativelink-docs" args)
    = Content (truncateResponse text (docs.maxTokens_or_5000 params)) /\
    ((forall r, caught_failure (fetch r) = true) ->
     (forall h' hdrs fields, args = Some (JObj fields) ->
        envelope_of (fst (listener h' (post_tools_call hdrs "get-nativelink-docs"
                                         (JObj fields))))
        = Some (Content (truncateResponse text (docs.maxTokens_or_5000 params)))) /\
     (forall h' a' hdrs,
        exists content,
          includes content "# Nativelink Cloud Setup Guide" = true /\
          stream_envelope (CallToolRequest h' a' "get-nativelink-docs" (Some setup_args))
          = Content content /\
          envelope_of (fst (listener h' (post_tools_call hdrs "get-nativelink-docs"
                                           setup_args)))
          = Some (Content content))).
Proof.
  intros Hp Hf.
  destruct (docs_validated _ _ Hp) as (fields0 & Hargs & _ & Htopic & _).
  exists (api.getOfflineDocumentation (docs.topic params) (docs.context params)).
  split; [now apply offline_topic |].
  split; [now apply getNativelinkDocs_failed |].
  split.
  { rewrite (docs_stream _ _ _ _ Hp), (getNativelinkDocs_failed _ _ _ Hf). reflexivity. }
  intros Hdown. split.
  - intros h' hdrs fields Hfields. rewrite Hfields in Hp.
    destruct (docs_request_binding fields params h' hdrs Hp) as (h2 & a2 & ->).
    now rewrite getNativelinkDocs_failed by apply Hdown.
  - intros h' a' hdrs. unfold setup_args.
    set (setup := {| docs.topic := "setup"; docs.context := None;
                     docs.maxTokens := None |}).
    assert (Hs : parse docs.GetNativelinkDocsSchema (Some (JObj [("topic", JStr "setup")]))
                 = Normal setup) by reflexivity.
    exists api.offline_setup.
    split; [vm_compute; reflexivity |]. split.
    + rewrite (docs_stream _ _ _ _ Hs), getNativelinkDocs_failed by apply Hdown.
      reflexivity.
    + destruct (docs_request_binding _ setup h' hdrs Hs) as (h2 & a2 & ->).
      rewrite getNativelinkDocs_failed by apply Hdown. reflexivity.
Qed.

Lemma docs_offline_fallback_witness :
  stream_envelope
    (CallToolRequest (W := unreachable) ∅ (api.constructor ∅ CONFIG) "get-nativelink-docs"
       (Some (JObj [("topic", JStr "api"); ("maxTokens", JNum 1000)])))
  = Content (truncateResponse api.offline_api 1000).
Proof.
  destruct (docs_offline_fallback (W := unreachable)
              (Some (JObj [("topic", JStr "api"); ("maxTokens", JNum 1000)]))
              {| docs.topic := "api"; docs.context := None; docs.maxTokens := Some 1000%Q |}
              ∅ (api.constructor ∅ CONFIG) eq_refl eq_refl)
    as (text & Htext & _ & Hs & _).
  injection Htext as <-. exact Hs.
Defined.

(** ** More on the documentation tool *)

Lemma offline_fits (topic : string) (context : option string) :
  Array_includes ["setup"; "migration"; "optimization"; "troubleshooting"; "api"] topic
  = true ->
  (js_length (api.getOfflineDocumentation topic context) <= 4000)%Q.
Proof.
  unfold Array_includes. simpl. intros H.
  repeat (apply orb_true_iff in H as [H | H];
          [apply String.eqb_eq in H; subst topic; apply Qle_bool_iff; vm_compute; reflexivity |]).
  discriminate.
Qed.

Section DocsAnswers.
Context {W : World}.

(** X14.  The offline documentation is never cut: [maxTokens] is at least
    1000 once validated and every offline text is shorter than 4000
    characters, so on a failed call the handler returns the whole offline text
    of the topic, without the marker. *)
Theorem docs_offline_text_is_whole (args : option json) (params : docs.Params)
  (h : gmap nat NativelinkConfig) (a : api.NativelinkAPI) :
  parse docs.GetNativelinkDocsSchema args = Normal params ->
  caught_failure (fetch (api.docs_request h a (docs.topic params) (docs.context params)))
  = true ->
  exists text,
    api.own_property (docs.topic params) api.docs = Some text /\
    docs.getNativelinkDocs params h a = Normal text /\
    stream_envelope (CallToolRequest h a "get-nativelink-docs" args) = Content text.
Proof.
  intros Hp Hf.
  destruct (docs_validated args params Hp) as (fields & _ & _ & Ht & _).
  pose proof (maxTokens_validated args params Hp) as Hm.
  exists (api.getOfflineDocumentation (docs.topic params) (docs.context params)).
  assert (Hdocs : docs.getNativelinkDocs params h a
    = Normal (api.getOfflineDocumentation (docs.topic params) (docs.context params))).
  { rewrite (getNativelinkDocs_failed params h a Hf). f_equal.
    apply truncateResponse_short.
    apply Qle_trans with 4000%Q; [now apply offline_fits |].
    change 4000%Q with (4 * 1000)%Q. apply Qmult_le_l; [reflexivity | exact Hm]. }
  split; [now apply offline_topic |]. split; [exact Hdocs |].
  rewrite (docs_stream args params h a Hp), Hdocs. reflexivity.
Qed.

(** X15.  When the documentation service answers with a 2xx status and a JSON
    body, its [content] is what the handler returns, cut to [maxTokens] and
    otherwise as it came; a body without [content] makes the handler throw, and
    the call is answered with [InternalError] and the message of the
    [TypeError].  The request binding does the same when the service answers
    every call so. *)
Theorem docs_service_answer (args : option json) (params : docs.Params)
  (h : gmap nat NativelinkConfig) (a : api.NativelinkAPI) (response : Response) :
  parse docs.GetNativelinkDocsSchema args = Normal params ->
  ok response = true ->
  let answer :=
    match json_of response with
    | JsonBody (Some text) =>
        Some (Content (truncateResponse text (docs.maxTokens_or_5000 params)))
    | JsonBody None =>
        Some (ErrorEnvelope InternalError
                "Cannot read properties of undefined (reading 'length')")
    | JsonRejected => None
    end in
  forall e, answer = Some e ->
    (fetch (api.docs_request h a (docs.topic params) (docs.context params))
     = Resolved response ->
     stream_envelope (CallToolRequest h a "get-nativelink-docs" args) = e) /\
    ((forall request, fetch request = Resolved response) ->
     forall h' hdrs fields, args = Some (JObj fields) ->
       envelope_of (fst (listener h' (post_tools_call hdrs "get-nativelink-docs"
                                        (JObj fields))))
       = Some e).
Proof.
  intros Hp Hok answer e He.
  assert (Hdocs : forall h0 a0,
    fetch (api.docs_request h0 a0 (docs.topic params) (docs.context params))
    = Resolved response ->
    tools_call_catch (docs.getNativelinkDocs params h0 a0) = e /\
    CallToolRequest_catch (docs.getNativelinkDocs params h0 a0)
    = match e with
      | Content text => Returned text
      | ErrorEnvelope _ message => ThrewError message
      end).
  { intros h0 a0 Hf. unfold docs.getNativelinkDocs, api.fetchDocumentation.
    rewrite Hf, Hok. cbn [negb]. subst answer.
    destruct (json_of response) as [| [text |]]; [discriminate | |];
      injection He as <-; split; reflexivity. }
  split.
  - intros Hf. rewrite (docs_stream args params h a Hp).
    destruct (Hdocs h a Hf) as [_ ->]. subst answer.
    destruct (json_of response) as [| [text |]]; [discriminate | |];
      injection He as <-; reflexivity.
  - intros Hall h' hdrs fields ->.
    destruct (docs_request_binding fields params h' hdrs Hp) as (h2 & a2 & ->).
    f_equal. apply Hdocs. apply Hall.
Qed.

(** X16.  The credential that an outbound call carries: the key of the
    request's headers when there is one, else the [--api-key] flag, else
    [NATIVELINK_API_KEY], each passed over when empty; and when none is there
    the header is [Bearer undefined].  The request is dispatched on the API
    object that holds this key. *)
Theorem outbound_authorization (env : gmap string string) (options : Options)
  (hdrs : gmap string string) (toolName : string) (args : json) :
  exists key api2 h2,
    parseApiKey (HString <$> hdrs) = Normal key /\
    request_api (startup env options) key = (api2, h2) /\
    listener (startup env options) (post_tools_call hdrs toolName args)
    = (writeHead 200 (Some "application/json")
         (Json (envelope
            (tools_call_catch
               (tools_call_try h2 api2 (Some toolName)
                  (if js_truthy args then args else JObj []))))), h2) /\
    forall topic context,
      requestHeaders (api.docs_request h2 api2 topic context)
      = [ ("Authorization",
           "Bearer " ++
           api.template
             (str_or_undef key
                (str_or_undef (opt_apiKey options) (env !! "NATIVELINK_API_KEY"))));
          ("Content-Type", "application/json") ].
Proof.
  destruct (listener_tools_call (startup env options) hdrs toolName args) as (key & Hkey & Hl).
  exists key, (fst (request_api (startup env options) key)),
    (snd (request_api (startup env options) key)).
  split; [exact Hkey |]. split; [now destruct (request_api _ _) |]. split; [exact Hl |].
  intros topic context. unfold api.docs_request. cbn [requestHeaders].
  rewrite request_api_object. cbn [apiKey set_apiKey].
  do 4 f_equal.
  unfold startup, action, load, deref.
  rewrite !alter_when, lookup_singleton_eq. cbn [default].
  rewrite when_set_apiKey.
  destruct (truthy (opt_anthropicKey options)), (truthy (opt_geminiKey options)),
    (truthy (opt_nativelinkUrl options)); reflexivity.
Qed.

End DocsAnswers.

Lemma docs_offline_text_is_whole_witness :
  docs.getNativelinkDocs (W := unreachable)
    {| docs.topic := "migration"; docs.context := None; docs.maxTokens := Some 1000%Q |}
    ∅ (api.constructor ∅ CONFIG)
  = Normal api.offline_migration.
Proof.
  destruct (docs_offline_text_is_whole (W := unreachable)
              (Some (JObj [("topic", JStr "migration"); ("maxTokens", JNum 1000)]))
              {| docs.topic := "migration"; docs.context := None;
                 docs.maxTokens := Some 1000%Q |}
              ∅ (api.constructor ∅ CONFIG) eq_refl eq_refl) as (text & Hown & Hdocs & _).
  injection Hown as <-. exact Hdocs.
Defined.

Lemma docs_service_answer_witness :
  stream_envelope
    (CallToolRequest (W := keyed) (startup (<[ "NATIVELINK_API_KEY" := "secret" ]> ∅) no_options)
       (startStdioServer (startup (<[ "NATIVELINK_API_KEY" := "secret" ]> ∅) no_options))
       "get-nativelink-docs" (Some setup_args))
  = Content "# Documentation of the service".
Proof.
  apply (docs_service_answer (W := keyed) (Some setup_args)
           {| docs.topic := "setup"; docs.context := None; docs.maxTokens := None |}
           _ _
           {| status := 200; statusText := "OK";
              json_of := JsonBody (Some "# Documentation of the service") |}
           eq_refl eq_refl _ eq_refl).
  reflexivity.
Defined.

(** ** The tools lists *)

(** X17.  The two tools lists, the one of the stream binding and the one of
    the request binding, are the same value; they advertise the tools of the
    two switches, in the same order; and, descriptions apart, the input schema
    advertised for a tool is the JSON schema of the zod schema that validates
    its arguments: the same keys with the same types, enumerations and items,
    and as [required] the keys that the validation does not let go. *)
Theorem advertised_tools_match_the_schemas :
  ListToolsRequest = tools_list_response /\
  map (fun tool => (member "name" tool, option_map undescribed (member "inputSchema" tool)))
    (advertised_tools ListToolsRequest)
  = map (fun tool : string * {A : Type & ZodType A} =>
           (Some (JStr (fst tool)), Some (json_schema (projT2 (snd tool)))))
      registry.
Proof. split; vm_compute; reflexivity. Qed.

(** ** The deployment configurations *)

Lemma forall_bool3 (F : bool -> bool -> bool -> bool) :
  forallb (fun b1 => forallb (fun b2 => forallb (fun b3 => F b1 b2 b3)
    [true; false]) [true; false]) [true; false] = true ->
  forall b1 b2 b3, F b1 b2 b3 = true.
Proof.
  simpl. rewrite !andb_true_r, !andb_true_iff.
  intros Hall [] [] []; tauto.
Qed.

Lemma forall_included2_bool3 (l1 l2 : list string)
  (F : string -> string -> bool -> bool -> bool -> bool) :
  forallb (fun p => forallb (fun s => forallb (fun b1 => forallb (fun b2 => forallb (fun b3 =>
    F p s b1 b2 b3)
    [true; false]) [true; false]) [true; false]) l2) l1 = true ->
  forall p, Array_includes l1 p = true -> forall s, Array_includes l2 s = true ->
  forall b1 b2 b3, F p s b1 b2 b3 = true.
Proof.
  intros Hall p Hp s Hs. apply (forall_bool3 (F p s)).
  unfold Array_includes in Hp, Hs.
  apply existsb_exists in Hp as (x & Hx & E). apply String.eqb_eq in E. subst x.
  apply existsb_exists in Hs as (y & Hy & E). apply String.eqb_eq in E. subst y.
  rewrite forallb_forall in Hall. pose proof (Hall p Hx) as H'.
  rewrite forallb_forall in H'. exact (H' s Hy).
Qed.

(** The same for a property that can be decided. *)
Lemma forall_bool3_prop (P : bool -> bool -> bool -> Prop)
  `{forall b1 b2 b3, Decision (P b1 b2 b3)} :
  forallb (fun b1 => forallb (fun b2 => forallb (fun b3 => bool_decide (P b1 b2 b3))
    [true; false]) [true; false]) [true; false] = true ->
  forall b1 b2 b3, P b1 b2 b3.
Proof.
  intros Hall b1 b2 b3. apply (bool_decide_eq_true_1 _).
  exact (forall_bool3 (fun b1 b2 b3 => bool_decide (P b1 b2 b3)) Hall b1 b2 b3).
Qed.

Lemma forall_included2_bool3_prop (l1 l2 : list string)
  (P : string -> string -> bool -> bool -> bool -> Prop)
  `{forall p s b1 b2 b3, Decision (P p s b1 b2 b3)} :
  forallb (fun p => forallb (fun s => forallb (fun b1 => forallb (fun b2 => forallb (fun b3 =>
    bool_decide (P p s b1 b2 b3))
    [true; false]) [true; false]) [true; false]) l2) l1 = true ->
  forall p, Array_includes l1 p = true -> forall s, Array_includes l2 s = true ->
  forall b1 b2 b3, P p s b1 b2 b3.
Proof.
  intros Hall p Hp s Hs b1 b2 b3. apply (bool_decide_eq_true_1 _).
  exact (forall_included2_bool3 l1 l2 (fun p s b1 b2 b3 => bool_decide (P p s b1 b2 b3))
           Hall p Hp s Hs b1 b2 b3).
Qed.

Lemma same_text_eq (a b : option string) : same_text a b = true <-> a = b.
Proof.
  destruct a as [x|], b as [y|]; simpl; split; try discriminate; try reflexivity.
  - intros E. apply String.eqb_eq in E. now subst.
  - intros [= ->]. apply String.eqb_refl.
Qed.

Lemma text_of_inj (c1 c2 : Completion string) :
  is_Some (text_of c1) -> text_of c1 = text_of c2 -> c1 = c2.
Proof. destruct c1, c2; simpl; intros [t Ht] E; congruence. Qed.

Lemma features_of_tests (m h a : bool) :
  Array_includes (features_of m h a) "monitoring" = m /\
  Array_includes (features_of m h a) "high_availability" = h /\
  Array_includes (features_of m h a) "autoscaling" = a.
Proof. destruct m, h, a; repeat split; reflexivity. Qed.

(** A deployment configuration depends on the features through three tests
    only. *)
Lemma deployment_by_tests (platform scale : string) (features : option (list string)) :
  deploy.generateDeploymentConfig
    {| deployment.platform := platform; deployment.scale := scale;
       deployment.features := features |}
  = deploy.generateDeploymentConfig
      {| deployment.platform := platform; deployment.scale := scale;
         deployment.features :=
           Some (features_of (Array_includes (default [] features) "monitoring")
                   (Array_includes (default [] features) "high_availability")
                   (Array_includes (default [] features) "autoscaling")) |}.
Proof.
  unfold deploy.generateDeploymentConfig, deploy.generateKubernetesConfig,
    deploy.generateDockerConfig, deploy.generateAWSConfig, deploy.generateGCPConfig,
    deploy.generateAzureConfig.
  cbn [deployment.platform deployment.scale deployment.features from_option id].
  generalize (default [] features). intros fs.
  destruct (features_of_tests (Array_includes fs "monitoring")
              (Array_includes fs "high_availability") (Array_includes fs "autoscaling"))
    as (-> & -> & ->).
  reflexivity.
Qed.

(** The end of a proof by cases on the inputs: every case computes. *)
Ltac computed := vm_compute; lazymatch goal with |- true = true => reflexivity end.

(** A decidable property of the three tests on the features, by cases. *)
Ltac by_cases_on_tests :=
  unshelve refine (@forall_bool3_prop _ _ _);
  lazymatch goal with
  | |- _ = true => computed
  | |- _ => intros; apply _
  end.

Lemma deployment_facts (platform scale : string) (features : option (list string)) :
  Array_includes platforms platform = true ->
  Array_includes scales scale = true ->
  option_map
    (fun text =>
       [ String.prefix "# Nativelink Kubernetes Deployment" text;
         String.prefix "# Nativelink Docker Compose Configuration" text;
         String.prefix "# Nativelink AWS CloudFormation Template" text;
         String.prefix "# Nativelink Google Cloud Deployment Manager" text;
         String.prefix "# Nativelink Azure Resource Manager Template" text;
         includes text "9090";
         includes text "kind: HorizontalPodAutoscaler" ])
    (text_of (deploy.generateDeploymentConfig
                {| deployment.platform := platform; deployment.scale := scale;
                   deployment.features := features |}))
  = Some [ String.eqb platform "kubernetes"; String.eqb platform "docker";
           String.eqb platform "aws"; String.eqb platform "gcp"; String.eqb platform "azure";
           Array_includes (default [] features) "monitoring";
           String.eqb platform "kubernetes"
           && Array_includes (default [] features) "autoscaling" ].
Proof.
  intros Hp Hs. rewrite (deployment_by_tests platform scale features).
  generalize (Array_includes (default [] features) "monitoring")
    (Array_includes (default [] features) "high_availability")
    (Array_includes (default [] features) "autoscaling").
  revert scale Hs. revert platform Hp.
  unshelve refine (@forall_included2_bool3_prop platforms scales _ _ _);
    lazymatch goal with
    | |- _ = true => computed
    | |- _ => intros; apply _
    end.
Qed.

Lemma deployment_returns (platform scale : string) (features : option (list string)) :
  Array_includes platforms platform = true ->
  Array_includes scales scale = true ->
  exists text,
    deploy.generateDeploymentConfig
      {| deployment.platform := platform; deployment.scale := scale;
         deployment.features := features |} = Normal text.
Proof.
  intros Hp Hs. pose proof (deployment_facts platform scale features Hp Hs) as H.
  destruct (deploy.generateDeploymentConfig _) as [text | e]; [now exists text | discriminate].
Qed.

(** A feature put before the others, on platforms where it changes nothing. *)
Lemma feature_without_effect (l : list string) (feature : string) :
  forallb (fun p => forallb (fun s => forallb (fun m => forallb (fun h => forallb (fun a =>
    same_text
      (text_of (deploy.generateDeploymentConfig
         {| deployment.platform := p; deployment.scale := s;
            deployment.features :=
              Some (features_of (String.eqb "monitoring" feature || m)
                      (String.eqb "high_availability" feature || h)
                      (String.eqb "autoscaling" feature || a)) |}))
      (text_of (deploy.generateDeploymentConfig
         {| deployment.platform := p; deployment.scale := s;
            deployment.features := Some (features_of m h a) |})))
    [true; false]) [true; false]) [true; false]) scales) l = true ->
  forall platform scale features,
    Array_includes platforms platform = true ->
    Array_includes l platform = true ->
    Array_includes scales scale = true ->
    deploy.generateDeploymentConfig
      {| deployment.platform := platform; deployment.scale := scale;
         deployment.features := Some (feature :: features) |}
    = deploy.generateDeploymentConfig
        {| deployment.platform := platform; deployment.scale := scale;
           deployment.features := Some features |}.
Proof.
  intros Hall platform scale features Hp Hl Hs. apply text_of_inj.
  { destruct (deployment_returns platform scale (Some (feature :: features)) Hp Hs)
      as [text ->].
    now exists text. }
  rewrite (deployment_by_tests platform scale (Some (feature :: features))),
    (deployment_by_tests platform scale (Some features)).
  cbn [from_option id].
  change (Array_includes (feature :: features) "monitoring")
    with (String.eqb "monitoring" feature || Array_includes features "monitoring").
  change (Array_includes (feature :: features) "high_availability")
    with (String.eqb "high_availability" feature
          || Array_includes features "high_availability").
  change (Array_includes (feature :: features) "autoscaling")
    with (String.eqb "autoscaling" feature || Array_includes features "autoscaling").
  generalize (Array_includes features "monitoring")
    (Array_includes features "high_availability")
    (Array_includes features "autoscaling").
  intros m h a. apply same_text_eq. clear Hp.
  revert m h a. revert scale Hs. revert platform Hl.
  exact (forall_included2_bool3 l scales _ Hall).
Qed.

Lemma option_map_true {A : Type} (f : A -> bool) (x : option A) :
  match x with Some a => f a | None => false end = true -> option_map f x = Some true.
Proof. destruct x; simpl; [now intros -> | discriminate]. Qed.

(** X18.  On a platform and a scale of the two enumerations, and with any
    features, [generateDeploymentConfig] returns a text and throws nothing; the
    text is the configuration of the platform asked for: it begins with the
    title of that platform's template, and with no other.  The default case of
    the switch, which no validated platform reaches, gives the Docker
    configuration. *)
Theorem deployment_config_of_platform (platform scale : string)
  (features : option (list string)) :
  Array_includes platforms platform = true ->
  Array_includes scales scale = true ->
  (exists text,
     deploy.generateDeploymentConfig
       {| deployment.platform := platform; deployment.scale := scale;
          deployment.features := features |} = Normal text /\
     String.prefix "# Nativelink Kubernetes Deployment" text
     = String.eqb platform "kubernetes" /\
     String.prefix "# Nativelink Docker Compose Configuration" text
     = String.eqb platform "docker" /\
     String.prefix "# Nativelink AWS CloudFormation Template" text
     = String.eqb platform "aws" /\
     String.prefix "# Nativelink Google Cloud Deployment Manager" text
     = String.eqb platform "gcp" /\
     String.prefix "# Nativelink Azure Resource Manager Template" text
     = String.eqb platform "azure") /\
  (forall other, Array_includes platforms other = false ->
     deploy.generateDeploymentConfig
       {| deployment.platform := other; deployment.scale := scale;
          deployment.features := features |}
     = deploy.generateDockerConfig scale (default [] features)).
Proof.
  intros Hp Hs. split.
  - pose proof (deployment_facts platform scale features Hp Hs) as H.
    destruct (deploy.generateDeploymentConfig _) as [text | e]; [| discriminate].
    exists text. split; [reflexivity |].
    cbn [text_of option_map] in H.
    split; [exact (f_equal (fun l => nth 0 l false) (f_equal (default []) H)) |].
    split; [exact (f_equal (fun l => nth 1 l false) (f_equal (default []) H)) |].
    split; [exact (f_equal (fun l => nth 2 l false) (f_equal (default []) H)) |].
    split; [exact (f_equal (fun l => nth 3 l false) (f_equal (default []) H)) |].
    exact (f_equal (fun l => nth 4 l false) (f_equal (default []) H)).
  - intros other Ho. unfold Array_includes, platforms in Ho. cbn [existsb] in Ho.
    rewrite !orb_false_iff in Ho. destruct Ho as (H1 & H2 & H3 & H4 & H5 & _).
    unfold deploy.generateDeploymentConfig.
    cbn [deployment.platform deployment.scale deployment.features].
    now rewrite H1, H2, H3, H4, H5.
Qed.

Lemma deployment_config_of_platform_witness :
  exists text,
    deploy.generateDeploymentConfig
      {| deployment.platform := "docker"; deployment.scale := "small";
         deployment.features := Some [] |} = Normal text /\
    String.prefix "# Nativelink Docker Compose Configuration" text = true.
Proof.
  destruct (proj1 (deployment_config_of_platform "docker" "small" (Some []) eq_refl eq_refl))
    as (text & Ht & _ & H2 & _).
  exists text. split; [exact Ht | exact H2].
Defined.

(** X19.  What the features do to a deployment configuration.  The metrics
    port 9090 is in the text exactly when [monitoring] is asked for, on every
    platform and scale; a [HorizontalPodAutoscaler] is there exactly on
    Kubernetes with [autoscaling].  Some features change nothing:
    [high_availability] on AWS, Google Cloud and Azure, and [autoscaling] on
    Docker and Azure. *)
Theorem deployment_features (platform scale : string) (features : list string) :
  Array_includes platforms platform = true ->
  Array_includes scales scale = true ->
  let config f :=
    deploy.generateDeploymentConfig
      {| deployment.platform := platform; deployment.scale := scale;
         deployment.features := Some f |} in
  (exists text,
     config features = Normal text /\
     includes text "9090" = Array_includes features "monitoring" /\
     includes text "kind: HorizontalPodAutoscaler"
     = String.eqb platform "kubernetes" && Array_includes features "autoscaling") /\
  (Array_includes ["aws"; "gcp"; "azure"] platform = true ->
   config ("high_availability" :: features) = config features) /\
  (Array_includes ["docker"; "azure"] platform = true ->
   config ("autoscaling" :: features) = config features).
Proof.
  intros Hp Hs config. subst config. cbv beta. split; [| split].
  - pose proof (deployment_facts platform scale (Some features) Hp Hs) as H.
    destruct (deploy.generateDeploymentConfig _) as [text | e]; [| discriminate].
    exists text. split; [reflexivity |].
    cbn [text_of option_map] in H.
    split; [exact (f_equal (fun l => nth 5 l false) (f_equal (default []) H)) |].
    exact (f_equal (fun l => nth 6 l false) (f_equal (default []) H)).
  - intros Hl.
    apply (feature_without_effect ["aws"; "gcp"; "azure"] "high_availability");
      [computed | exact Hp | exact Hl | exact Hs].
  - intros Hl.
    apply (feature_without_effect ["docker"; "azure"] "autoscaling");
      [computed | exact Hp | exact Hl | exact Hs].
Qed.

Lemma deployment_features_witness :
  exists text,
    deploy.generateDeploymentConfig
      {| deployment.platform := "kubernetes"; deployment.scale := "medium";
         deployment.features := Some ["monitoring"; "autoscaling"] |} = Normal text /\
    includes text "9090" = true /\
    includes text "kind: HorizontalPodAutoscaler" = true.
Proof.
  destruct (proj1 (deployment_features "kubernetes" "medium" ["monitoring"; "autoscaling"]
                     eq_refl eq_refl))
    as (text & Ht & H1 & H2).
  exists text. split; [exact Ht |]. split; [exact H1 | exact H2].
Defined.

(** X20.  The sizes that the scale gives to a deployment, on every platform
    and with any features: 1, 3, 5 or 10 replicas, 2, 4, 8 or 16 CPUs and 4, 8,
    16 or 32 GiB.  Kubernetes gets the replicas, limits and equal requests
    and, with [autoscaling], an autoscaler from the replicas to three times as
    many; Docker reserves half of its limits; the CPU units and the memory of
    the AWS task are 1024 times the CPUs and the GiB; Google Cloud gets the
    replicas as target size and Azure the CPUs and the memory. *)
Theorem deployment_sizes (scale : string) (replicas cpus gib : N) (features : list string) :
  In (scale, (replicas, cpus, gib)) sizes ->
  let config platform :=
    text_of (deploy.generateDeploymentConfig
               {| deployment.platform := platform; deployment.scale := scale;
                  deployment.features := Some features |}) in
  let has platform needle :=
    option_map (fun text => includes text needle) (config platform) = Some true in
  has "kubernetes" ("  replicas: " ++ pretty replicas ++ LF) /\
  has "kubernetes"
    ("          limits:" ++ LF ++
     "            memory: " ++ DQ ++ pretty gib ++ "Gi" ++ DQ ++ LF ++
     "            cpu: " ++ DQ ++ pretty cpus ++ DQ ++ LF ++
     "          requests:" ++ LF ++
     "            memory: " ++ DQ ++ pretty gib ++ "Gi" ++ DQ ++ LF ++
     "            cpu: " ++ DQ ++ pretty cpus ++ DQ ++ LF) /\
  (Array_includes features "autoscaling" = true ->
   has "kubernetes"
     ("  minReplicas: " ++ pretty replicas ++ LF ++
      "  maxReplicas: " ++ pretty (3 * replicas)%N ++ LF)) /\
  has "docker"
    ("        limits:" ++ LF ++
     "          cpus: '" ++ pretty cpus ++ "'" ++ LF ++
     "          memory: " ++ pretty gib ++ "Gi" ++ LF ++
     "        reservations:" ++ LF ++
     "          cpus: '" ++ pretty (cpus / 2)%N ++ "'" ++ LF ++
     "          memory: " ++ pretty (gib / 2)%N ++ "G" ++ LF) /\
  has "aws"
    ("      Cpu: '" ++ pretty (1024 * cpus)%N ++ "'" ++ LF ++
     "      Memory: '" ++ pretty (1024 * gib)%N ++ "'" ++ LF) /\
  has "aws" ("      DesiredCount: " ++ pretty replicas ++ LF) /\
  has "gcp" ("    targetSize: " ++ pretty replicas ++ LF) /\
  has "azure"
    ("                  " ++ DQ ++ "cpu" ++ DQ ++ ": " ++ pretty cpus ++ "," ++ LF ++
     "                  " ++ DQ ++ "memoryInGB" ++ DQ ++ ": " ++ pretty gib ++ LF).
Proof.
  intros Hin config has. subst has config. cbv beta.
  unfold sizes in Hin. cbn [In] in Hin.
  destruct Hin as [E | [E | [E | [E | []]]]]; injection E as <- <- <- <-;
    repeat split; try intros Ha;
    match goal with
    | |- context [deployment.Build_Params ?p _ _] =>
        rewrite (deployment_by_tests p _ (Some features))
    end;
    cbn [from_option id]; try rewrite Ha;
    generalize (Array_includes features "monitoring")
      (Array_includes features "high_availability")
      (Array_includes features "autoscaling");
    intros m h a; apply option_map_true; revert m h a;
    apply forall_bool3; computed.
Qed.

Lemma deployment_sizes_witness :
  option_map (fun text => includes text ("  replicas: 3" ++ LF))
    (text_of (deploy.generateDeploymentConfig
                {| deployment.platform := "kubernetes"; deployment.scale := "medium";
                   deployment.features := Some ["monitoring"; "autoscaling"] |}))
  = Some true.
Proof.
  apply (deployment_sizes "medium" 3 4 8 ["monitoring"; "autoscaling"]).
  right. left. reflexivity.
Defined.

(** X21.  A scale that is not of the enumeration, which validation keeps
    away: the helpers have no case for it and return [undefined].  The
    Kubernetes, Docker and Azure generators then throw a [TypeError] on the
    first resource limit they read; the AWS and Google Cloud generators return
    a text in which the sizes read [undefined]. *)
Theorem deployment_scale_outside_enum (scale : string) (features : list string) :
  Array_includes scales scale = false ->
  deploy.generateKubernetesConfig scale features
  = Throw (Error "Cannot read properties of undefined (reading 'memory')") /\
  deploy.generateDockerConfig scale features
  = Throw (Error "Cannot read properties of undefined (reading 'cpu')") /\
  deploy.generateAzureConfig scale features
  = Throw (Error "Cannot read properties of undefined (reading 'cpu')") /\
  (exists text,
     deploy.generateAWSConfig scale features = Normal text /\
     includes text ("      Cpu: 'undefined'" ++ LF ++ "      Memory: 'undefined'" ++ LF) = true /\
     includes text ("      DesiredCount: undefined" ++ LF) = true) /\
  (exists text,
     deploy.generateGCPConfig scale features = Normal text /\
     includes text ("      machineType: undefined" ++ LF) = true /\
     includes text ("    targetSize: undefined" ++ LF) = true).
Proof.
  intros Ho. unfold Array_includes, scales in Ho. cbn [existsb] in Ho.
  rewrite !orb_false_iff in Ho. destruct Ho as (H1 & H2 & H3 & H4 & _).
  assert (Hl : deploy.getResourceLimits scale = None).
  { unfold deploy.getResourceLimits. now rewrite H1, H2, H3, H4. }
  assert (Hr : deploy.getReplicaCount scale = None).
  { unfold deploy.getReplicaCount. now rewrite H1, H2, H3, H4. }
  assert (Hc : deploy.getCPUUnits scale = None).
  { unfold deploy.getCPUUnits. now rewrite H1, H2, H3, H4. }
  assert (Hm : deploy.getMemoryMB scale = None).
  { unfold deploy.getMemoryMB. now rewrite H1, H2, H3, H4. }
  assert (Hg : deploy.getGCPMachineType scale = None).
  { unfold deploy.getGCPMachineType. now rewrite H1, H2, H3, H4. }
  split; [| split; [| split; [| split]]].
  - unfold deploy.generateKubernetesConfig. now rewrite Hl.
  - unfold deploy.generateDockerConfig. now rewrite Hl.
  - unfold deploy.generateAzureConfig. now rewrite Hl.
  - eexists. split; [reflexivity |]. rewrite Hc, Hm, Hr.
    generalize (Array_includes features "monitoring")
      (Array_includes features "high_availability")
      (Array_includes features "autoscaling").
    by_cases_on_tests.
  - eexists. split; [reflexivity |]. rewrite Hg, Hr.
    generalize (Array_includes features "monitoring")
      (Array_includes features "high_availability")
      (Array_includes features "autoscaling").
    by_cases_on_tests.
Qed.

Lemma deployment_scale_outside_enum_witness :
  deploy.generateKubernetesConfig "huge" []
  = Throw (Error "Cannot read properties of undefined (reading 'memory')").
Proof. apply (deployment_scale_outside_enum "huge" []). reflexivity. Defined.

(** ** The performance analysis *)

Lemma str_or_nonempty (x : option string) (d : string) : d <> "" -> str_or x d <> "".
Proof.
  intros Hd. unfold str_or. destruct x as [s|]; [| exact Hd].
  destruct (String.eqb s "") eqn:E; [exact Hd |]. now apply String.eqb_neq.
Qed.

Section Analysis.
Context {R : Runtime}.

Lemma analyzePerformance_fallback (h : Heap) (a : api.NativelinkAPI)
  (metrics : performance.Metrics) :
  ai_key h a = false \/
  analysis_failed (fetch_analysis (analysis.analysis_request h a metrics)) = true ->
  analysis.analyzePerformance h a metrics = Some (analysis.generateBasicAnalysis metrics).
Proof.
  unfold analysis.analyzePerformance, ai_key, analysis_failed.
  intros [-> | Hf]; [reflexivity |].
  destruct (truthy _ || truthy _); [| reflexivity].
  destruct (fetch_analysis _) as [reason | response]; [reflexivity |].
  destruct (analysis_ok response); [| reflexivity].
  destruct (analysis_json response); [reflexivity | discriminate].
Qed.

(** X22.  The analysis falls back on the metrics alone when no key of an AI
    provider is configured, whatever the service would answer, and after a call
    that fails (rejected, a status that is not 2xx, a body that is not JSON).
    The basic analysis is never empty, and the text of the tool begins with it,
    then a blank line and the heading of the recommendations. *)
Theorem analysis_fallback (params : performance.Params) (h : gmap nat NativelinkConfig)
  (a : api.NativelinkAPI) :
  let metrics := default perf.no_metrics (performance.metrics params) in
  ai_key h a = false \/
  analysis_failed (fetch_analysis (analysis.analysis_request h a metrics)) = true ->
  analysis.analyzePerformance h a metrics = Some (analysis.generateBasicAnalysis metrics) /\
  analysis.generateBasicAnalysis metrics <> "" /\
  String.prefix
    (analysis.generateBasicAnalysis metrics ++ LF ++ LF ++ "## Optimization Recommendations"
     ++ LF ++ LF)
    (perf.analyzeBuildPerformance params h a) = true.
Proof.
  intros metrics Hf. split; [now apply analyzePerformance_fallback |]. split.
  - apply str_or_nonempty. discriminate.
  - unfold perf.analyzeBuildPerformance. fold metrics.
    rewrite (analyzePerformance_fallback h a metrics Hf). cbn [api.template].
    destruct (String.eqb (str_or _ _) "speed");
      [| destruct (String.eqb (str_or _ _) "cost")];
      (destruct (performance.profileData params) as [pd|];
       [destruct (String.eqb pd "") |]);
      first [apply prefix_append | apply prefix_append_l; apply prefix_append].
Qed.

(** X23.  With the key of an AI provider configured, the metrics are posted to
    [/analyze] under the base URL, with the provider named in [X-AI-Provider]
    and its key in [X-AI-Key]: Anthropic when its key is there, whether or not
    there is a Gemini key, and Gemini otherwise.  When the service answers with
    a 2xx status and a JSON body, the text of the tool begins with the
    [analysis] of the body; a body without [analysis] makes it begin with the
    word [undefined]. *)
Theorem analysis_of_the_service (params : performance.Params) (h : gmap nat NativelinkConfig)
  (a : api.NativelinkAPI) (response : AnalysisResponse) :
  let metrics := default perf.no_metrics (performance.metrics params) in
  let config := deref h (api.config a) in
  let request := analysis.analysis_request h a metrics in
  ai_key h a = true ->
  fetch_analysis request = AnalysisResolved response ->
  analysis_ok response = true ->
  (analysis_url request = api.baseUrl a ++ "/analyze" /\
   analysis_body request = metrics /\
   exists provider key,
     analysis_headers request
     = [ ("Authorization", "Bearer " ++ api.template (apiKey config));
         ("X-AI-Provider", provider); ("X-AI-Key", key);
         ("Content-Type", "application/json") ] /\
     key <> "" /\
     (provider = "anthropic" /\ anthropicKey config = Some key \/
      provider = "gemini" /\ truthy (anthropicKey config) = false /\
      geminiKey config = Some key)) /\
  (forall text, analysis_json response = AnalysisBody (Some text) ->
     String.prefix (text ++ LF ++ LF ++ "## Optimization Recommendations" ++ LF ++ LF)
       (perf.analyzeBuildPerformance params h a) = true) /\
  (analysis_json response = AnalysisBody None ->
   String.prefix ("undefined" ++ LF ++ LF ++ "## Optimization Recommendations" ++ LF ++ LF)
     (perf.analyzeBuildPerformance params h a) = true).
Proof.
  intros metrics config request Hkey Hfetch Hok.
  assert (Hprefix : forall analysis,
    analysis_json response = AnalysisBody analysis ->
    String.prefix
      (api.template analysis ++ LF ++ LF ++ "## Optimization Recommendations" ++ LF ++ LF)
      (perf.analyzeBuildPerformance params h a) = true).
  { intros analysis Hjson. unfold perf.analyzeBuildPerformance. fold metrics.
    unfold analysis.analyzePerformance. fold request. unfold ai_key in Hkey.
    rewrite Hkey, Hfetch, Hok, Hjson.
    destruct (String.eqb (str_or _ _) "speed");
      [| destruct (String.eqb (str_or _ _) "cost")];
      (destruct (performance.profileData params) as [pd|];
       [destruct (String.eqb pd "") |]);
      first [apply prefix_append | apply prefix_append_l; apply prefix_append]. }
  split; [| split].
  - split; [reflexivity |]. split; [reflexivity |].
    subst request. unfold analysis.analysis_request. cbn [analysis_headers].
    fold config. unfold ai_key in Hkey. fold config in Hkey.
    unfold truthy, str_or, str_or_undef in *.
    destruct (anthropicKey config) as [k1|].
    + destruct (String.eqb k1 "") eqn:E1; cbn [negb orb] in *.
      * destruct (geminiKey config) as [k2|]; [| discriminate].
        destruct (String.eqb k2 "") eqn:E2; [discriminate |].
        exists "gemini", k2. split; [reflexivity |].
        split; [now apply String.eqb_neq |]. right. auto.
      * exists "anthropic", k1. rewrite E1. split; [reflexivity |].
        split; [now apply String.eqb_neq |]. left. auto.
    + cbn [orb] in Hkey. destruct (geminiKey config) as [k2|]; [| discriminate].
      destruct (String.eqb k2 "") eqn:E2; [discriminate |].
      exists "gemini", k2. split; [reflexivity |].
      split; [now apply String.eqb_neq |]. right. auto.
  - intros text Hjson. exact (Hprefix (Some text) Hjson).
  - intros Hjson. exact (Hprefix None Hjson).
Qed.

End Analysis.

(** ** The digits of a number *)

Lemma pretty_N_char_digit (x : N) : is_digit (pretty_N_char x) = true.
Proof.
  destruct x as [|p]; [reflexivity |].
  do 4 (destruct p as [p | p |]; try reflexivity).
Qed.

Lemma pretty_N_go_digits (x : N) (s : string) :
  string_forallb is_digit s = true -> string_forallb is_digit (pretty_N_go x s) = true.
Proof.
  revert s. induction (N.lt_wf_0 x) as [x _ IH]. intros s Hs.
  destruct (N.eq_dec x 0%N) as [-> | Hx]; [now rewrite pretty_N_go_0 |].
  rewrite pretty_N_go_step by lia. apply IH.
  - apply N.div_lt; lia.
  - simpl. now rewrite pretty_N_char_digit.
Qed.

Lemma pretty_nat_digits (n : nat) : string_forallb is_digit (pretty n) = true.
Proof.
  unfold pretty, pretty_nat, pretty, pretty_N.
  destruct (decide (N.of_nat n = 0%N)); [reflexivity |]. now apply pretty_N_go_digits.
Qed.

Lemma string_forallb_append (p : ascii -> bool) (a b : string) :
  string_forallb p (a ++ b) = string_forallb p a && string_forallb p b.
Proof.
  induction a as [|c a IH]; [reflexivity |].
  rewrite append_cons. simpl. now rewrite IH, andb_assoc.
Qed.

(** A line feed between two texts: what is looked for on one line is in one of
    them. *)
Lemma includes_lines (n a b : string) :
  string_forallb (fun x => negb (Ascii.eqb x "010")) n = true ->
  includes (a ++ LF ++ b) n = includes a n || includes b n.
Proof. intros Hn. exact (includes_separator "010" n a b Hn). Qed.

(** A heading is not in the report on the profile data. *)
Lemma analyzeProfileData_no_heading (profileData needle : string) :
  string_forallb (fun x => negb (Ascii.eqb x "010")) (String "#" needle) = true ->
  includes (perf.analyzeProfileData profileData) (String "#" needle) = false.
Proof.
  intros Hlf. unfold perf.analyzeProfileData.
  set (k := pretty (String.length profileData)).
  set (rest := LF ++ "Consider using:" ++ LF ++
          "- `bazel analyze-profile profile.json` for detailed analysis" ++ LF ++
          "- Upload to https://app.nativelink.com/profile for visualization" ++ LF ++
          "- Key metrics to review:" ++ LF ++
          "  - Critical path duration" ++ LF ++
          "  - Action execution time" ++ LF ++
          "  - Remote vs local execution ratio").
  change (includes ("Profile data detected (" ++ k ++ " bytes)." ++ LF ++ rest)
            (String "#" needle) = false).
  replace ("Profile data detected (" ++ k ++ " bytes)." ++ LF ++ rest)
    with (("Profile data detected (" ++ k ++ " bytes).") ++ LF ++ rest)
    by now rewrite !append_assoc.
  rewrite (includes_lines _ _ _ Hlf). apply orb_false_iff. split.
  - apply includes_first_char.
    rewrite !string_forallb_append. apply andb_true_iff. split; [reflexivity |].
    apply andb_true_iff. split; [| reflexivity].
    apply (string_forallb_impl is_digit); [| apply pretty_nat_digits].
    intros c Hc. destruct (Ascii.eqb c "#") eqn:E; [| reflexivity].
    apply Ascii.eqb_eq in E. subst c. discriminate Hc.
  - apply includes_first_char. reflexivity.
Qed.

(** ** The sections of the analysis *)

Lemma below_lt (q y : Q) : below (Some q) y = true <-> (q < y)%Q.
Proof.
  unfold below. rewrite negb_true_iff. split.
  - intros H. apply Qnot_le_lt. intros Hle. apply Qle_bool_iff in Hle. congruence.
  - intros H. destruct (Qle_bool y q) eqn:E; [| reflexivity].
    apply Qle_bool_iff in E. exfalso. exact (Qlt_not_le _ _ H E).
Qed.

Lemma above_lt (q y : Q) : above (Some q) y = true <-> (y < q)%Q.
Proof.
  unfold above. rewrite negb_true_iff. split.
  - intros H. apply Qnot_le_lt. intros Hle. apply Qle_bool_iff in Hle. congruence.
  - intros H. destruct (Qle_bool q y) eqn:E; [| reflexivity].
    apply Qle_bool_iff in E. exfalso. exact (Qlt_not_le _ _ H E).
Qed.

Lemma number_truthy_neq (q : Q) : number_truthy (Some q) = true <-> ~ (q == 0)%Q.
Proof.
  unfold number_truthy. rewrite negb_true_iff. split.
  - intros H E. apply Qeq_bool_iff in E. congruence.
  - intros H. destruct (Qeq_bool q 0) eqn:E; [| reflexivity].
    apply Qeq_bool_iff in E. contradiction.
Qed.

Section Headings.
Context {R : Runtime}.

(** What is in the basic analysis: no heading of the recommendations, and the
    two remarks on the cache hit rate when their tests hold. *)
Lemma basic_analysis_facts (metrics : performance.Metrics) :
  map (includes (analysis.generateBasicAnalysis metrics))
    (headings ++ ["Low cache hit rate detected"; "Excellent cache hit rate"])
  = [ false; false; false;
      match performance.cacheHitRate metrics with
      | Some q => below (Some q) (1 # 2)
      | None => false
      end;
      match performance.cacheHitRate metrics with
      | Some q => negb (below (Some q) (1 # 2)) && above (Some q) double_0_8
      | None => false
      end ].
Proof.
  destruct metrics as [tt chr ret lt nts]. unfold analysis.generateBasicAnalysis.
  cbn [performance.cacheHitRate performance.totalTime performance.remoteExecutionTime
       performance.networkTransferSize].
  destruct chr as [c|];
    [destruct (below (Some c) (1 # 2)); [| destruct (above (Some c) double_0_8)] |];
    (destruct tt as [t|];
     [destruct ret as [r|];
      [destruct (number_truthy (Some t) && number_truthy (Some r));
       [destruct (above (Some (times (divide r t) 100)) 70) |] |] |]);
    destruct (number_truthy nts && above nts (1024 * 1024 * 100));
    vm_compute; reflexivity.
Qed.
End Headings.

(** The recommendations of a target carry its heading and no other; those for
    speed advise on the cache hit rate when their test holds. *)
Lemma optimizations_facts (metrics : option performance.Metrics) :
  map (includes (perf.getSpeedOptimizations metrics)) (headings ++ ["**Improve Cache Hit Rate:**"])
  = [ true; false; false;
      number_truthy (optional performance.cacheHitRate metrics)
      && below (optional performance.cacheHitRate metrics) double_0_7 ] /\
  map (includes (perf.getCostOptimizations metrics)) headings = [false; true; false] /\
  map (includes (perf.getBalancedOptimizations metrics)) headings = [false; false; true].
Proof.
  unfold perf.getSpeedOptimizations, perf.getCostOptimizations, perf.getBalancedOptimizations.
  destruct (number_truthy (optional performance.cacheHitRate metrics) && _);
    destruct (number_truthy (optional performance.networkTransferSize metrics) && _);
    destruct (number_truthy (optional performance.totalTime metrics) && _);
    repeat split; vm_compute; reflexivity.
Qed.

Lemma includes_after_LF (n b : string) :
  string_forallb (fun x => negb (Ascii.eqb x "010")) n = true ->
  n <> "" ->
  includes (LF ++ b) n = includes b n.
Proof.
  intros Hn Hne. change (LF ++ b) with ("" ++ LF ++ b).
  rewrite (includes_lines _ _ _ Hn). rewrite includes_nil.
  destruct n; [congruence | reflexivity].
Qed.

Section Targets.
Context {R : Runtime}.

(** Where a heading of the recommendations can be in the text of the tool: in
    the analysis, or in the recommendations. *)
Lemma heading_in_analysis (params : performance.Params) (h : Heap) (a : api.NativelinkAPI)
  (n : string) :
  In n headings ->
  let target := str_or (performance.targetOptimization params) "balanced" in
  includes (perf.analyzeBuildPerformance params h a) n
  = includes
      (api.template
         (analysis.analyzePerformance h a
            (default perf.no_metrics (performance.metrics params)))) n
    || includes
         (if String.eqb target "speed" then
            perf.getSpeedOptimizations (performance.metrics params)
          else if String.eqb target "cost" then
            perf.getCostOptimizations (performance.metrics params)
          else perf.getBalancedOptimizations (performance.metrics params)) n.
Proof.
  intros Hn target. unfold perf.analyzeBuildPerformance. fold target.
  generalize (api.template
                (analysis.analyzePerformance h a
                   (default perf.no_metrics (performance.metrics params)))).
  intros T.
  set (recs := if String.eqb target "speed" then
                  perf.getSpeedOptimizations (performance.metrics params)
                else if String.eqb target "cost" then
                  perf.getCostOptimizations (performance.metrics params)
                else perf.getBalancedOptimizations (performance.metrics params)).
  assert (Htext :
    (if String.eqb target "speed" then
       (T ++ LF ++ LF ++ "## Optimization Recommendations" ++ LF ++ LF)
       ++ perf.getSpeedOptimizations (performance.metrics params)
     else if String.eqb target "cost" then
       (T ++ LF ++ LF ++ "## Optimization Recommendations" ++ LF ++ LF)
       ++ perf.getCostOptimizations (performance.metrics params)
     else
       (T ++ LF ++ LF ++ "## Optimization Recommendations" ++ LF ++ LF)
       ++ perf.getBalancedOptimizations (performance.metrics params))
    = T ++ LF ++ LF ++ "## Optimization Recommendations" ++ LF ++ LF ++ recs).
  { subst recs. destruct (String.eqb target "speed"); [| destruct (String.eqb target "cost")];
      now rewrite !append_assoc. }
  rewrite Htext. clear Htext. clearbody recs.
  assert (Hneedle : string_forallb (fun x => negb (Ascii.eqb x "010")) n = true /\ n <> ""
                    /\ includes "## Optimization Recommendations" n = false
                    /\ includes "## Profile Analysis" n = false
                    /\ exists rest, n = String "#" rest).
  { unfold headings in Hn. cbn [In] in Hn.
    destruct Hn as [<- | [<- | [<- | []]]];
      (split; [reflexivity |]; split; [discriminate |]; split; [reflexivity |];
       split; [reflexivity |]; eexists; reflexivity). }
  destruct Hneedle as (Hlf & Hne & H1 & H2 & rest & Hrest).
  assert (Hbase :
    includes (T ++ LF ++ LF ++ "## Optimization Recommendations" ++ LF ++ LF ++ recs) n
    = includes T n || includes recs n).
  { rewrite (includes_lines _ _ _ Hlf), (includes_after_LF _ _ Hlf Hne),
      (includes_lines _ _ _ Hlf), H1, (includes_after_LF _ _ Hlf Hne). reflexivity. }
  destruct (performance.profileData params) as [pd|]; [| exact Hbase].
  destruct (String.eqb pd ""); [exact Hbase |].
  rewrite !append_assoc.
  rewrite (includes_lines _ _ _ Hlf), (includes_after_LF _ _ Hlf Hne),
    (includes_lines _ _ _ Hlf), H1, (includes_after_LF _ _ Hlf Hne),
    (includes_lines _ _ _ Hlf), (includes_after_LF _ _ Hlf Hne),
    (includes_lines _ _ _ Hlf), H2, (includes_after_LF _ _ Hlf Hne).
  subst n. rewrite (analyzeProfileData_no_heading pd rest Hlf).
  cbn [orb]. now rewrite orb_false_r.
Qed.

(** X24.  The recommendations of the tool are those of the target asked for,
    [balanced] when none is given: their heading is in the text.  When the
    analysis is the basic one (no key of an AI provider, or a failed call), it
    is the only one of the three headings in the text, whatever the metrics and
    the profile data. *)
Theorem recommendations_follow_the_target (params : performance.Params)
  (h : gmap nat NativelinkConfig) (a : api.NativelinkAPI) :
  let text := perf.analyzeBuildPerformance params h a in
  let target := str_or (performance.targetOptimization params) "balanced" in
  (target = "speed" -> includes text "### Speed Optimizations" = true) /\
  (target = "cost" -> includes text "### Cost Optimizations" = true) /\
  (target <> "speed" -> target <> "cost" ->
   includes text "### Balanced Optimizations" = true) /\
  (ai_key h a = false \/
   analysis_failed
     (fetch_analysis
        (analysis.analysis_request h a
           (default perf.no_metrics (performance.metrics params)))) = true ->
   includes text "### Speed Optimizations" = String.eqb target "speed" /\
   includes text "### Cost Optimizations"
   = negb (String.eqb target "speed") && String.eqb target "cost" /\
   includes text "### Balanced Optimizations"
   = negb (String.eqb target "speed") && negb (String.eqb target "cost")).
Proof.
  intros text target. subst text.
  pose proof (heading_in_analysis params h a "### Speed Optimizations") as H1.
  pose proof (heading_in_analysis params h a "### Cost Optimizations") as H2.
  pose proof (heading_in_analysis params h a "### Balanced Optimizations") as H3.
  cbv zeta in H1, H2, H3. fold target in H1, H2, H3.
  rewrite H1, H2, H3 by (unfold headings; cbn [In]; tauto). clear H1 H2 H3.
  destruct (optimizations_facts (performance.metrics params)) as (Hs & Hc & Hb).
  pose proof (f_equal (fun l => nth 0 l false) Hs) as Hs1.
  pose proof (f_equal (fun l => nth 1 l false) Hs) as Hs2.
  pose proof (f_equal (fun l => nth 2 l false) Hs) as Hs3.
  pose proof (f_equal (fun l => nth 0 l false) Hc) as Hc1.
  pose proof (f_equal (fun l => nth 1 l false) Hc) as Hc2.
  pose proof (f_equal (fun l => nth 2 l false) Hc) as Hc3.
  pose proof (f_equal (fun l => nth 0 l false) Hb) as Hb1.
  pose proof (f_equal (fun l => nth 1 l false) Hb) as Hb2.
  pose proof (f_equal (fun l => nth 2 l false) Hb) as Hb3.
  cbn [nth map headings app] in Hs1, Hs2, Hs3, Hc1, Hc2, Hc3, Hb1, Hb2, Hb3.
  clear Hs Hc Hb.
  split; [| split; [| split]].
  - intros ->. cbn [String.eqb Ascii.eqb Bool.eqb]. rewrite Hs1. apply orb_true_r.
  - intros ->. cbn [String.eqb Ascii.eqb Bool.eqb]. rewrite Hc2. apply orb_true_r.
  - intros Hns Hnc. apply String.eqb_neq in Hns, Hnc. rewrite Hns, Hnc, Hb3.
    apply orb_true_r.
  - intros Hf. rewrite (analyzePerformance_fallback h a _ Hf). cbn [api.template].
    pose proof (basic_analysis_facts
                  (default perf.no_metrics (performance.metrics params))) as Hbasic.
    pose proof (f_equal (fun l => nth 0 l false) Hbasic) as B1.
    pose proof (f_equal (fun l => nth 1 l false) Hbasic) as B2.
    pose proof (f_equal (fun l => nth 2 l false) Hbasic) as B3.
    cbn [nth map headings app] in B1, B2, B3. rewrite B1, B2, B3. cbn [orb].
    destruct (String.eqb target "speed"); [| destruct (String.eqb target "cost")];
      cbn [negb andb]; auto.
Qed.

(** X25.  The thresholds on the cache hit rate.  The basic analysis warns of
    a low rate exactly below 0.5 and praises the rate exactly above 0.8; the
    recommendations for speed advise on the rate exactly when it is below 0.7
    and not zero.  A rate of zero is warned of, and gets no advice. *)
Theorem cache_hit_rate_thresholds (metrics : performance.Metrics) (q : Q) :
  performance.cacheHitRate metrics = Some q ->
  (includes (analysis.generateBasicAnalysis metrics) "Low cache hit rate detected" = true
   <-> (q < 1 # 2)%Q) /\
  (includes (analysis.generateBasicAnalysis metrics) "Excellent cache hit rate" = true
   <-> (double_0_8 < q)%Q) /\
  (includes (perf.getSpeedOptimizations (Some metrics)) "**Improve Cache Hit Rate:**" = true
   <-> ~ (q == 0)%Q /\ (q < double_0_7)%Q) /\
  ((q == 0)%Q ->
   includes (analysis.generateBasicAnalysis metrics) "Low cache hit rate detected" = true /\
   includes (perf.getSpeedOptimizations (Some metrics)) "**Improve Cache Hit Rate:**"
   = false).
Proof.
  intros Hq.
  pose proof (basic_analysis_facts metrics) as Hbasic.
  pose proof (f_equal (fun l => nth 3 l false) Hbasic) as B1.
  pose proof (f_equal (fun l => nth 4 l false) Hbasic) as B2.
  cbn [nth map headings app] in B1, B2. rewrite Hq in B1, B2. clear Hbasic.
  destruct (optimizations_facts (Some metrics)) as (Hs & _ & _).
  pose proof (f_equal (fun l => nth 3 l false) Hs) as S1.
  cbn [nth map headings app optional] in S1. rewrite Hq in S1. clear Hs.
  assert (Hlow : includes (analysis.generateBasicAnalysis metrics)
                   "Low cache hit rate detected" = true <-> (q < 1 # 2)%Q).
  { rewrite B1. apply below_lt. }
  assert (Hadvice : includes (perf.getSpeedOptimizations (Some metrics))
                      "**Improve Cache Hit Rate:**" = true
                    <-> ~ (q == 0)%Q /\ (q < double_0_7)%Q).
  { rewrite S1, andb_true_iff, number_truthy_neq, below_lt. reflexivity. }
  split; [exact Hlow |]. split; [| split; [exact Hadvice |]].
  - rewrite B2, andb_true_iff, negb_true_iff, above_lt. split; [tauto |].
    intros H. split; [| exact H].
    destruct (below (Some q) (1 # 2)) eqn:E; [| reflexivity].
    apply below_lt in E. exfalso.
    apply (Qlt_irrefl q). apply Qlt_trans with (1 # 2)%Q; [exact E |].
    apply Qlt_trans with double_0_8; [reflexivity | exact H].
  - intros Hz. split.
    + apply Hlow. rewrite Hz. reflexivity.
    + apply not_true_is_false. intros E. apply Hadvice in E. tauto.
Qed.

End Targets.

Lemma analysis_fallback_witness :
  String.prefix
    (analysis.generateBasicAnalysis (R := offline) cold_cache ++ LF ++ LF
     ++ "## Optimization Recommendations" ++ LF ++ LF)
    (perf.analyzeBuildPerformance (R := offline) speed_call with_ai_keys
       (api.constructor with_ai_keys CONFIG)) = true.
Proof.
  apply (analysis_fallback (R := offline) speed_call with_ai_keys
           (api.constructor with_ai_keys CONFIG)).
  right. reflexivity.
Defined.

Lemma analysis_of_the_service_witness :
  String.prefix
    ("Raise the cache hit rate." ++ LF ++ LF ++ "## Optimization Recommendations" ++ LF ++ LF)
    (perf.analyzeBuildPerformance (R := answering (Some "Raise the cache hit rate."))
       speed_call with_ai_keys (api.constructor with_ai_keys CONFIG)) = true.
Proof.
  apply (analysis_of_the_service (R := answering (Some "Raise the cache hit rate."))
           speed_call with_ai_keys (api.constructor with_ai_keys CONFIG)
           {| analysis_ok := true;
              analysis_json := AnalysisBody (Some "Raise the cache hit rate.") |});
    reflexivity.
Defined.

Lemma recommendations_follow_the_target_witness :
  includes (perf.analyzeBuildPerformance (R := offline) speed_call ∅ (api.constructor ∅ CONFIG))
    "### Speed Optimizations" = true /\
  includes (perf.analyzeBuildPerformance (R := offline) speed_call ∅ (api.constructor ∅ CONFIG))
    "### Cost Optimizations" = false /\
  includes (perf.analyzeBuildPerformance (R := offline) speed_call ∅ (api.constructor ∅ CONFIG))
    "### Balanced Optimizations" = false.
Proof.
  exact (proj2 (proj2 (proj2
           (recommendations_follow_the_target (R := offline) speed_call ∅
              (api.constructor ∅ CONFIG))))
           (or_introl eq_refl)).
Defined.

Lemma cache_hit_rate_thresholds_witness :
  includes (analysis.generateBasicAnalysis (R := offline) cold_cache)
    "Low cache hit rate detected" = true /\
  includes (perf.getSpeedOptimizations (Some cold_cache)) "**Improve Cache Hit Rate:**" = false.
Proof.
  apply (cache_hit_rate_thresholds (R := offline) cold_cache 0); reflexivity.
Defined.

(** ** The watch configurations *)

Lemma includes_ibazel_test_line (targets : string) :
  includes ("ibazel test " ++ targets) "ibazel build" = includes targets "ibazel build".
Proof. cbv [append]. simpl. reflexivity. Qed.

Lemma includes_ibazel_build_line (targets : string) :
  includes ("ibazel build " ++ targets) "ibazel test" = includes targets "ibazel test".
Proof. cbv [append]. simpl. reflexivity. Qed.

Lemma includes_begin (x post : string) : includes (x ++ post) x = true.
Proof. exact (includes_middle "" x post). Qed.

(** A line of the list has the text looked for as its beginning. *)
Ltac has_line needle rest :=
  cbn [orb andb]; apply existsb_exists; exists (needle ++ rest);
  split; [cbn [app In]; repeat (first [left; reflexivity | right])
         | apply includes_begin].

Section Watch.
Context {R : Runtime} {P : Numbers}.

(** X26.  With [useIbazel] the text depends on the command and the targets
    only, and it tells to run what the command says: [ibazel build] is in it
    exactly when the command is [build] or [both], and [ibazel test] exactly
    when it is [test] or [both], unless the targets that the other command is
    run on spell it themselves.  An empty command counts as [both], and empty
    targets as [//...]. *)
Theorem ibazel_commands (params : watch.Params) :
  watch.useIbazel params = true ->
  let command := str_or (Some (watch.command params)) "both" in
  let targets := str_or (Some (watch.targets params)) "//..." in
  let text := watcher.setupWatchAndBuild params in
  includes text "ibazel build"
  = String.eqb command "build" || String.eqb command "both"
    || String.eqb command "test" && includes targets "ibazel build" /\
  includes text "ibazel test"
  = String.eqb command "test" || String.eqb command "both"
    || String.eqb command "build" && includes targets "ibazel test" /\
  (forall (R' : Runtime) (P' : Numbers) (other : watch.Params),
     watch.command other = watch.command params ->
     watch.targets other = watch.targets params ->
     watch.useIbazel other = true ->
     watcher.setupWatchAndBuild (R := R') (P := P') other = text).
Proof.
  intros Huse command targets text. subst text.
  unfold watcher.setupWatchAndBuild. rewrite Huse. fold command targets.
  split; [| split]; [clearbody command targets | clearbody command targets |].
  - unfold watcher.generateIbazelConfig.
    rewrite includes_join by (reflexivity || discriminate).
    destruct (String.eqb command "build") eqn:E1; [has_line "ibazel build" (" " ++ targets) |].
    destruct (String.eqb command "test") eqn:E2.
    { apply String.eqb_eq in E2. subst command.
      cbn [orb andb app existsb String.eqb Ascii.eqb Bool.eqb].
      rewrite includes_ibazel_test_line.
      generalize (includes targets "ibazel build"). intros []; vm_compute; reflexivity. }
    destruct (String.eqb command "both") eqn:E3; [has_line "ibazel build" (" " ++ targets) |].
    reflexivity.
  - unfold watcher.generateIbazelConfig.
    rewrite includes_join by (reflexivity || discriminate).
    destruct (String.eqb command "build") eqn:E1.
    { apply String.eqb_eq in E1. subst command.
      cbn [orb andb app existsb String.eqb Ascii.eqb Bool.eqb].
      rewrite includes_ibazel_build_line.
      generalize (includes targets "ibazel test"). intros []; vm_compute; reflexivity. }
    destruct (String.eqb command "test") eqn:E2; [has_line "ibazel test" (" " ++ targets) |].
    destruct (String.eqb command "both") eqn:E3; [has_line "ibazel test" (" " ++ targets) |].
    reflexivity.
  - intros R' P' other Hc Ht Hu. unfold watcher.setupWatchAndBuild.
    rewrite Hu, Hc, Ht. reflexivity.
Qed.

End Watch.

Lemma ibazel_commands_witness :
  includes (watcher.setupWatchAndBuild (R := offline) (P := whole_numbers) ibazel_tests)
    "ibazel test" = true /\
  includes (watcher.setupWatchAndBuild (R := offline) (P := whole_numbers) ibazel_tests)
    "ibazel build" = false.
Proof.
  destruct (ibazel_commands (R := offline) (P := whole_numbers) ibazel_tests eq_refl)
    as (Hbuild & Htest & _).
  split; [rewrite Htest | rewrite Hbuild]; reflexivity.
Defined.

(** What validation guarantees of the parameters of the watch tool. *)
Lemma watch_validated (args : option json) (params : watch.Params) :
  parse watch.SetupWatchAndBuildSchema args = Normal params ->
  In (watch.command params) ["build"; "test"; "both"] /\
  (100 <= watch.debounceMs params)%Q /\ (watch.debounceMs params <= 10000)%Q /\
  (args = Some (JObj []) -> params = watch_defaults).
Proof.
  intros H. apply parse_normal in H.
  destruct args as [[ | | | | | fields] |]; try discriminate.
  unfold watch.SetupWatchAndBuildSchema in H. cbn [_parse _parse_shape] in H.
  apply merge_inr in H as (g6 & u & H & Hu & ->).
  apply merge_inr in H as (g5 & d & H & Hd & ->).
  apply merge_inr in H as (g4 & e & H & He & ->).
  apply merge_inr in H as (g3 & w & H & Hw & ->).
  apply merge_inr in H as (g2 & t & H & Ht & ->).
  apply merge_inr in H as (g1 & c & H & Hc & ->).
  injection H as <-. cbn [watch.command watch.debounceMs].
  split; [| split; [| split]].
  - cbn [_parse] in Hc.
    destruct (property "command" fields) as [[ | | | s | | ] |]; try discriminate.
    + destruct (existsb (String.eqb s) _) eqn:E; [| discriminate].
      injection Hc as <-. simpl in E.
      repeat (apply orb_true_iff in E as [E | E];
              [apply String.eqb_eq in E; subst s; simpl; tauto |]).
      discriminate.
    + injection Hc as <-. simpl. tauto.
  - cbn [_parse] in Hd.
    destruct (property "debounceMs" fields) as [[ | | q | | | ] |]; try discriminate.
    + unfold number_checks in Hd.
      destruct (Qle_bool (inject_Z 100) q) eqn:E1; [| destruct (Qle_bool q _); discriminate].
      destruct (Qle_bool q (inject_Z 10000)) eqn:E2; [| discriminate].
      injection Hd as <-. now apply Qle_bool_iff in E1.
    + injection Hd as <-. now apply Qle_bool_iff.
  - cbn [_parse] in Hd.
    destruct (property "debounceMs" fields) as [[ | | q | | | ] |]; try discriminate.
    + unfold number_checks in Hd.
      destruct (Qle_bool (inject_Z 100) q) eqn:E1; [| destruct (Qle_bool q _); discriminate].
      destruct (Qle_bool q (inject_Z 10000)) eqn:E2; [| discriminate].
      injection Hd as <-. now apply Qle_bool_iff in E2.
    + injection Hd as <-. now apply Qle_bool_iff.
  - intros [= ->]. cbn in Hu, Hd, He, Hw, Ht, Hc.
    injection Hu as <-. injection Hd as <-. injection He as <-. injection Hw as <-.
    injection Ht as <-. injection Hc as <-. reflexivity.
Qed.

Lemma includes_line (lines : list string) (l n : string) :
  In l lines -> includes l n = true -> includes (join LF lines) n = true.
Proof.
  intros Hin Hl. destruct (join_In LF l lines Hin) as (pre & post & ->).
  apply includes_append_r. now apply includes_append_l.
Qed.

Section Validated.
Context {R : Runtime} {P : Numbers}.

(** X27.  After validation the fallbacks of [setupWatchAndBuild] on the
    command and on the debounce never apply: the command is one of the three
    and the debounce lies between 100 and 10000, so both are passed on as they
    are.  The targets can still be replaced, as the schema accepts the empty
    string.  A call without any key asks for both commands on [//...], with
    the file watchers and 1000 ms. *)
Theorem watch_after_validation (args : option json) (params : watch.Params) :
  parse watch.SetupWatchAndBuildSchema args = Normal params ->
  In (watch.command params) ["build"; "test"; "both"] /\
  (100 <= watch.debounceMs params)%Q /\ (watch.debounceMs params <= 10000)%Q /\
  watcher.setupWatchAndBuild params
  = (if watch.useIbazel params then
       watcher.generateIbazelConfig (watch.command params)
         (str_or (Some (watch.targets params)) "//...")
     else
       watcher.generateWatchConfig (watch.command params)
         (str_or (Some (watch.targets params)) "//...")
         (default
            [ "**/*.rs"; "**/*.cc"; "**/*.cpp"; "**/*.java"; "**/*.py"; "**/*.go"; "**/*.ts";
              "**/*.js"; "BUILD.bazel"; "WORKSPACE" ]
            (watch.watchPaths params))
         (default [ "bazel-*"; "node_modules"; ".git"; "dist"; "target" ]
            (watch.excludePaths params))
         (watch.debounceMs params)) /\
  (args = Some (JObj []) ->
   params = watch_defaults /\
   includes (watcher.setupWatchAndBuild params)
     ("-- " ++ DQ ++ "bazel build //... && bazel test //..." ++ DQ) = true).
Proof.
  intros Hp. destruct (watch_validated args params Hp) as (Hc & Hlow & Hhigh & Hdefault).
  split; [exact Hc |]. split; [exact Hlow |]. split; [exact Hhigh |].
  assert (Hcommand : str_or (Some (watch.command params)) "both" = watch.command params).
  { cbn [In] in Hc. destruct Hc as [<- | [<- | [<- | []]]]; reflexivity. }
  assert (Hdebounce : number_truthy (Some (watch.debounceMs params)) = true).
  { unfold number_truthy. apply negb_true_iff.
    destruct (Qeq_bool (watch.debounceMs params) 0) eqn:E; [| reflexivity].
    apply Qeq_bool_iff in E. rewrite E in Hlow. now apply Qle_bool_iff in Hlow. }
  split.
  { unfold watcher.setupWatchAndBuild. rewrite Hcommand, Hdebounce. reflexivity. }
  intros Hargs. specialize (Hdefault Hargs). split; [exact Hdefault |].
  rewrite Hdefault. unfold watcher.setupWatchAndBuild, watch_defaults.
  cbn [watch.useIbazel watch.command watch.targets watch.debounceMs watch.watchPaths
       watch.excludePaths str_or String.eqb Ascii.eqb Bool.eqb number_truthy].
  unfold watcher.generateWatchConfig.
  set (debounce := if negb (Qeq_bool 1000 0) then 1000%Q else 1000%Q).
  generalize (Number_toString debounce), (Number_toString (divide debounce 1000)).
  intros n1 n2. cbn [String.eqb Ascii.eqb Bool.eqb orb app default from_option id].
  eapply includes_line.
  - cbn [In]. do 12 right. left. reflexivity.
  - do 4 apply includes_append_r. vm_compute. reflexivity.
Qed.

End Validated.

Lemma includes_self (x : string) : includes x x = true.
Proof.
  pose proof (includes_middle "" x "") as H. now rewrite append_nil_r in H.
Qed.

Lemma includes_join_map (sep : string) (f : string -> string) (l : list string) (p : string) :
  In p l -> includes (join sep (map f l)) (f p) = true.
Proof.
  intros Hin. destruct (join_In sep (f p) (map f l)) as (pre & post & ->).
  { now apply in_map. }
  apply includes_middle.
Qed.

(** The watchexec command is the thirteenth line of the list. *)
Ltac on_watchexec :=
  eapply includes_line; [cbn [app In]; do 12 right; left; reflexivity |].

Section Watcher.
Context {R : Runtime} {P : Numbers}.

(** X28.  Without [useIbazel] the text holds a watchexec command made of the
    parameters: a [--watch] flag for every path to watch and an [--ignore]
    flag for every path to leave out, the lists of the source standing in for
    those that are missing, and behind [--] the build, the test, or both
    joined by [&&], on the targets ([//...] when they are empty). *)
Theorem watcher_command_line (params : watch.Params) :
  watch.useIbazel params = false ->
  let text := watcher.setupWatchAndBuild params in
  let targets := str_or (Some (watch.targets params)) "//..." in
  let watched :=
    default
      [ "**/*.rs"; "**/*.cc"; "**/*.cpp"; "**/*.java"; "**/*.py"; "**/*.go"; "**/*.ts";
        "**/*.js"; "BUILD.bazel"; "WORKSPACE" ]
      (watch.watchPaths params) in
  let ignored :=
    default [ "bazel-*"; "node_modules"; ".git"; "dist"; "target" ]
      (watch.excludePaths params) in
  (forall p, In p watched -> includes text ("--watch '" ++ p ++ "'") = true) /\
  (forall p, In p ignored -> includes text ("--ignore '" ++ p ++ "'") = true) /\
  (watch.command params = "build" ->
   includes text ("-- " ++ DQ ++ "bazel build " ++ targets ++ DQ) = true) /\
  (watch.command params = "test" ->
   includes text ("-- " ++ DQ ++ "bazel test " ++ targets ++ DQ) = true) /\
  (watch.command params = "both" \/ watch.command params = "" ->
   includes text
     ("-- " ++ DQ ++ "bazel build " ++ targets ++ " && bazel test " ++ targets ++ DQ)
   = true).
Proof.
  intros Huse text targets watched ignored. subst text.
  unfold watcher.setupWatchAndBuild. rewrite Huse. fold targets watched ignored.
  clearbody targets watched ignored.
  generalize (if number_truthy (Some (watch.debounceMs params))
              then watch.debounceMs params else 1000%Q).
  intros debounce. unfold watcher.generateWatchConfig.
  generalize (Number_toString debounce), (Number_toString (divide debounce 1000)).
  intros n1 n2.
  split; [| split; [| split; [| split]]].
  - intros p Hp. on_watchexec. do 11 apply includes_append_r. apply includes_append_l.
    now apply (includes_join_map _ (fun p => "--watch '" ++ p ++ "'")).
  - intros p Hp. on_watchexec. do 7 apply includes_append_r. apply includes_append_l.
    now apply (includes_join_map _ (fun p => "--ignore '" ++ p ++ "'")).
  - intros ->. cbn [str_or String.eqb Ascii.eqb Bool.eqb orb app].
    on_watchexec. do 16 apply includes_append_r. apply (includes_append_r "  ").
    apply includes_self.
  - intros ->. cbn [str_or String.eqb Ascii.eqb Bool.eqb orb app].
    on_watchexec. do 16 apply includes_append_r. apply (includes_append_r "  ").
    apply includes_self.
  - intros [-> | ->]; cbn [str_or String.eqb Ascii.eqb Bool.eqb orb app];
      on_watchexec; do 16 apply includes_append_r; apply (includes_append_r "  ");
      cbn [join]; rewrite !append_assoc; apply includes_self.
Qed.

End Watcher.

Lemma watch_after_validation_witness :
  includes (watcher.setupWatchAndBuild (R := offline) (P := whole_numbers) watch_defaults)
    ("-- " ++ DQ ++ "bazel build //... && bazel test //..." ++ DQ) = true.
Proof.
  exact (proj2 (proj2 (proj2 (proj2 (proj2
           (watch_after_validation (R := offline) (P := whole_numbers)
              (Some (JObj [])) watch_defaults eq_refl)))) eq_refl)).
Defined.

Lemma watcher_command_line_witness :
  includes (watcher.setupWatchAndBuild (R := offline) (P := whole_numbers) watch_sources)
    "--watch 'src/**'" = true /\
  includes (watcher.setupWatchAndBuild (R := offline) (P := whole_numbers) watch_sources)
    ("-- " ++ DQ ++ "bazel build //app:all" ++ DQ) = true.
Proof.
  destruct (watcher_command_line (R := offline) (P := whole_numbers) watch_sources eq_refl)
    as (Hwatch & _ & Hbuild & _).
  split.
  - apply (Hwatch "src/**"). left. reflexivity.
  - apply Hbuild. reflexivity.
Defined.
